(** * Hermes / CPFR vendor-contact manager: the tier reconciliation engine

    A shallow embedding of [ReferenceApp/database_manager.py] (class
    [DatabaseManager]), of the methods of [VendorProcessor] and of the save,
    confirm and new-entry steps of [streamlit_app.py], together with the
    properties of the tier / dual-entry rules stated over it.

    - A Python dictionary [Dict[str, Any]] is a [gmap string (option string)]:
      a key bound to [None] is a key whose value is Python's [None] (SQL
      NULL once stored); values are restricted to [None] and [str].
    - A [str] is the byte string of its UTF-8 encoding: [strip] removes the
      white space of Unicode, code point by code point, and [py_len] counts
      code points.
    - The table [VC_CPFR_VENDOR_EMAIL] is a list of rows (a bag: true
      duplicates are representable), each row the dictionary pandas returns
      for it.
    - Every method runs in a state-and-exception monad over the store: the
      rows, the script of outcomes of the coming [session.sql(...)] calls, and
      the manager's [last_error] attribute. *)

From Stdlib Require Import String Ascii.
From stdpp Require Import gmap strings list fin_maps.

Open Scope string_scope.
Open Scope list_scope.

(** ** Python values and dictionaries *)

Abbreviation Value := (option string).
Abbreviation Dict := (gmap string Value).

(** [d.get(k)]: [None] both for a missing key and for a key bound to [None]. *)
Definition get (d : Dict) (k : string) : Value := default None (d !! k).

(** [str.isspace] of one code point: the white space of Unicode (category
    Zs, or bidirectional type WS, B or S), as [str.strip()] tests it. *)
Definition py_isspace (cp : N) : bool :=
  (((9 <=? cp) && (cp <=? 13)) || ((28 <=? cp) && (cp <=? 32))
   || (cp =? 133) || (cp =? 160) || (cp =? 5760)
   || ((8192 <=? cp) && (cp <=? 8202)) || (cp =? 8232) || (cp =? 8233)
   || (cp =? 8239) || (cp =? 8287) || (cp =? 12288))%N.

(** The bytes [10xxxxxx] that continue a code point in UTF-8. *)
Definition continuation (c : ascii) : bool :=
  ((128 <=? N_of_ascii c) && (N_of_ascii c <? 192))%N.

(** The code point that one, two or three bytes encode, if they are the
    UTF-8 encoding of one. No code point of four bytes is white space. *)
Definition code_point1 (a : ascii) : option N :=
  if (N_of_ascii a <? 128)%N then Some (N_of_ascii a) else None.

Definition code_point2 (a b : ascii) : option N :=
  if ((194 <=? N_of_ascii a) && (N_of_ascii a <? 224))%N && continuation b
  then Some ((N_of_ascii a - 192) * 64 + (N_of_ascii b - 128))%N
  else None.

Definition code_point3 (a b c : ascii) : option N :=
  if ((224 <=? N_of_ascii a) && (N_of_ascii a <? 240))%N
     && continuation b && continuation c
  then Some ((N_of_ascii a - 224) * 4096 + (N_of_ascii b - 128) * 64
             + (N_of_ascii c - 128))%N
  else None.

Definition is_space (cp : option N) : bool :=
  match cp with
  | Some n => py_isspace n
  | None => false
  end.

(** [s.lstrip()] *)
Fixpoint lstrip (s : string) : string :=
  match s with
  | String a s1 =>
      if is_space (code_point1 a) then lstrip s1
      else
        match s1 with
        | String b s2 =>
            if is_space (code_point2 a b) then lstrip s2
            else
              match s2 with
              | String c s3 => if is_space (code_point3 a b c) then lstrip s3 else s
              | EmptyString => s
              end
        | EmptyString => s
        end
  | EmptyString => EmptyString
  end.

(** [s.rstrip()] on the bytes of [s] read from the end: the last code
    point is the last byte, or the last two or three bytes. *)
Fixpoint rstrip_reversed (s : string) : string :=
  match s with
  | String c s1 =>
      if is_space (code_point1 c) then rstrip_reversed s1
      else
        match s1 with
        | String b s2 =>
            if is_space (code_point2 b c) then rstrip_reversed s2
            else
              match s2 with
              | String a s3 =>
                  if is_space (code_point3 a b c) then rstrip_reversed s3 else s
              | EmptyString => s
              end
        | EmptyString => s
        end
  | EmptyString => EmptyString
  end.

(** [s.rstrip()] *)
Definition rstrip (s : string) : string :=
  String.rev (rstrip_reversed (String.rev s)).

(** [s.strip()] *)
Definition strip (s : string) : string := rstrip (lstrip s).

(** [len(s)]: the number of code points. *)
Fixpoint py_len (s : string) : nat :=
  match s with
  | String c s' => (if continuation c then 0 else 1) + py_len s'
  | EmptyString => 0
  end.

(** [str(value)] *)
Definition py_str (v : Value) : string := default "None" v.

(** [str(value or '')] *)
Definition or_empty (v : Value) : string := default "" v.

(** Truthiness of a value: [if value]. *)
Definition truthy (v : Value) : bool :=
  match v with
  | Some s => bool_decide (s ≠ "")
  | None => false
  end.

(** [value is not None and str(value).strip() != ''] *)
Definition filled (v : Value) : bool :=
  match v with
  | Some s => bool_decide (strip s ≠ "")
  | None => false
  end.

(** [value is None or value == '' or str(value).strip() == ''] *)
Definition null_like (v : Value) : bool :=
  match v with
  | None => true
  | Some s => bool_decide (s = "") || bool_decide (strip s = "")
  end.

(** The literal the statement builders write for a value: [NULL] for a
    null-like value, the escaped string otherwise (the store un-escapes it). *)
Definition sql_cell (v : Value) : Value :=
  if null_like v then None else v.

(** ** The table *)

Definition VENDOR_NUMBER : string := "Vendor Number".
Definition FILE : string := "FILE".

(** [WHERE "Vendor Number" = 'v'] *)
Definition of_vendor (v : string) (r : Dict) : Prop :=
  r !! VENDOR_NUMBER = Some (Some v).

(** [WHERE "Vendor Number" = 'v' AND "FILE" = 'f'] *)
Definition at_key (v f : string) (r : Dict) : Prop :=
  r !! VENDOR_NUMBER = Some (Some v) ∧ r !! FILE = Some (Some f).

Global Instance of_vendor_dec v r : Decision (of_vendor v r).
Proof. unfold of_vendor. apply _. Defined.

Global Instance at_key_dec v f r : Decision (at_key v f r).
Proof. unfold at_key. apply _. Defined.

(** [DELETE FROM t WHERE key] *)
Definition sql_delete (v f : string) (t : list Dict) : list Dict :=
  filter (λ r, ¬ at_key v f r) t.

(** [UPDATE t SET sets WHERE key]: the assignments override the row's cells. *)
Definition sql_update (v f : string) (sets : Dict) (t : list Dict) : list Dict :=
  (λ r, if decide (at_key v f r) then sets ∪ r else r) <$> t.

(** [INSERT INTO t (cols) VALUES (vals)] *)
Definition sql_insert (row : Dict) (t : list Dict) : list Dict :=
  t ++ [row].

(** [SELECT COUNT( * ) ... WHERE key] *)
Definition sql_count (v f : string) (t : list Dict) : nat :=
  length (filter (at_key v f) t).

(** [ORDER BY "FILE"]: ascending, NULLs last; rows with the same FILE stay
    in the table's order ([insert_by_file], [order_by_file]). *)
Definition file_le (r1 r2 : Dict) : Prop :=
  match get r1 FILE, get r2 FILE with
  | Some a, Some b => String.le a b
  | Some _, None => True
  | None, Some _ => False
  | None, None => True
  end.

Global Instance file_le_dec : RelDecision file_le.
Proof. intros r1 r2. unfold file_le. repeat case_match; apply _. Defined.

Fixpoint insert_by_file (r : Dict) (l : list Dict) : list Dict :=
  match l with
  | [] => [r]
  | x :: l' =>
      if decide (file_le r x) then r :: l else x :: insert_by_file r l'
  end.

Definition order_by_file (l : list Dict) : list Dict :=
  foldr insert_by_file [] l.

(** [SELECT * ... WHERE "Vendor Number" = 'v' ORDER BY "FILE"] *)
Definition sql_select_vendor (v : string) (t : list Dict) : list Dict :=
  order_by_file (filter (of_vendor v) t).

(** ** The store and the monad of the manager's methods *)

(** What the coming [session.sql(...)] call does: it runs ([Applied]);
    it raises ([Failed]); or it returns normally while its effect never
    becomes visible ([Lost]) - the event the read-back checks look for.
    A query has no effect to lose. *)
Inductive outcome := Applied | Failed | Lost.

Record Store := mkStore {
  rows : list Dict;
  script : list outcome;
  last_error : option string
}.

Inductive result (A : Type) :=
  | Ret (a : A)
  | Exc.
Arguments Ret {A} a.
Arguments Exc {A}.

Definition M (A : Type) : Type := Store → result A * Store.

Definition ret {A} (a : A) : M A := λ s, (Ret a, s).

(** Sequencing: an exception of [m] ends the computation with the store as
    [m] left it. *)
Definition bind {A B} (m : M A) (k : A → M B) : M B := λ s,
  match m s with
  | (Ret a, s') => k a s'
  | (Exc, s') => (Exc, s')
  end.

Notation "'let*' x ':=' m 'in' k" := (bind m (λ x, k))
  (at level 10, x name, m at level 100, k at level 200).

(** [try: m  except Exception: return a] *)
Definition try_except {A} (m : M A) (a : A) : M A := λ s,
  match m s with
  | (Exc, s') => (Ret a, s')
  | r => r
  end.

(** The outcome of the next call, consumed from the script; past its end
    every call is [Applied]. *)
Definition next_outcome (s : Store) : outcome * Store :=
  match script s with
  | [] => (Applied, s)
  | o :: os => (o, mkStore (rows s) os (last_error s))
  end.

(** [session.sql(query).collect()] / [.to_pandas()] for a SELECT *)
Definition sql_query {A} (q : list Dict → A) : M A := λ s,
  let '(o, s') := next_outcome s in
  match o with
  | Failed => (Exc, s')
  | _ => (Ret (q (rows s')), s')
  end.

(** [session.sql(query).collect()] for a DELETE, UPDATE or INSERT *)
Definition sql_dml (f : list Dict → list Dict) : M () := λ s,
  let '(o, s') := next_outcome s in
  match o with
  | Failed => (Exc, s')
  | Lost => (Ret (), s')
  | Applied => (Ret (), mkStore (f (rows s')) (script s') (last_error s'))
  end.

(** [try: session.sql("COMMIT").collect()  except Exception: pass] *)
Definition commit : M () := try_except (sql_dml id) ().

Definition set_last_error (msg : string) : M () := λ s,
  (Ret (), mkStore (rows s) (script s) (Some msg)).

(** [_execute_dml(query, operation)]; [last_error] keeps the operation's
    name, the text of the exception is not modelled. *)
Definition _execute_dml (stmt : list Dict → list Dict) (operation : string) : M bool :=
  λ s,
  match sql_dml stmt s with
  | (Ret _, s1) => (let* _ := commit in ret true) s1
  | (Exc, s1) => (let* _ := set_last_error (operation +:+ " failed") in ret false) s1
  end.

(** [get_vendor(vendor_number, file_value)]: [df.iloc[0].to_dict()] *)
Definition get_vendor (v f : string) : M (option Dict) :=
  sql_query (λ t, head (filter (at_key v f) t)).

(** [get_vendor_combinations(vendor_number)] *)
Definition get_vendor_combinations (v : string) : M (list Dict) :=
  sql_query (sql_select_vendor v).

(** [any(v.get('FILE') == f for v in vendor_combinations)] *)
Definition file_exists (f : string) (l : list Dict) : bool :=
  bool_decide (Exists (λ r, get r FILE = Some f) l).

(** [next((v for v in vendor_combinations if v.get('FILE') == f), None)] *)
Definition first_with_file (f : string) (l : list Dict) : option Dict :=
  head (filter (λ r, get r FILE = Some f) l).

(** ** The manager's methods *)

Definition date_fields : list string :=
  ["Soft Chargeback Effective Date"; "Hard Chargeback Effective Date"].

Definition email_fields : list string :=
  ["Vendor Contacts"; "CM_Email"; "CM Manager_Email"; "SP_Email";
   "SP Manager_Email"; "OVERRIDE_EMAIL"].

(** [file in ['Tier2', '6Months']] *)
Definition in_pair (f : string) : bool :=
  bool_decide (f ∈ ["Tier2"; "6Months"]).

(** [VendorProcessor.create_dual_entry_data(vendor_data)] *)
Definition create_dual_entry_data (vendor_data : Dict) : Dict * Dict :=
  (<[FILE := Some "Tier2"]> vendor_data, <[FILE := Some "6Months"]> vendor_data).

(** The dual-pair rule of [_change_within_dual_entry] and
    [_check_and_fix_unsynced_dual]: the Tier2 value when it is filled, else
    the 6Months value when that is filled, else the Tier2 value. *)
Definition prefer_tier2 (tier2_value sixmonths_value : Value) : Value :=
  if filled tier2_value then tier2_value
  else if filled sixmonths_value then sixmonths_value
  else tier2_value.

(** [merged_data] of [_change_within_dual_entry], before the user's updates:
    one entry per field of either row, ['FILE'] left out. *)
Definition merge_dual (tier2_entry sixmonths_entry : Dict) : Dict :=
  map_imap (λ field _,
      if decide (field = FILE) then None
      else Some (prefer_tier2 (get tier2_entry field) (get sixmonths_entry field)))
    (tier2_entry ∪ sixmonths_entry).

(** One round of the inner loops of [_check_and_fix_duplicates]: a field of
    [entry] is taken over when the merged entry has nothing filled there. *)
Definition absorb (merged_entry entry : Dict) : Dict :=
  filter (λ kv, kv.1 ≠ FILE ∧ kv.1 ≠ VENDOR_NUMBER ∧
                filled (get merged_entry kv.1) = false ∧ filled kv.2 = true) entry
    ∪ merged_entry.

(** [file_groups[file_value].append(entry)], creating the group at the
    end of the (insertion-ordered) dictionary when it is new. *)
Fixpoint group_add (file_value : Value) (entry : Dict)
    (groups : list (Value * list Dict)) : list (Value * list Dict) :=
  match groups with
  | [] => [(file_value, [entry])]
  | (k, es) :: rest =>
      if decide (k = file_value) then (k, es ++ [entry]) :: rest
      else (k, es) :: group_add file_value entry rest
  end.

Definition file_groups (vendor_combinations : list Dict) : list (Value * list Dict) :=
  foldl (λ groups entry, group_add (get entry FILE) entry groups) [] vendor_combinations.

Section Engine.

(** [datetime.strptime(value, '%Y-%m-%d').date().strftime('%Y-%m-%d')];
    [None] when the parse raises. *)
Variable parse_date : string → option string.

(** [email_validator.validate_email_list(s).normalized_value] *)
Variable normalize_email : string → string.

(** One iteration of the loop that builds the SET clauses of an UPDATE:
    [None] when the iteration ends in [continue], otherwise the literal
    assigned to the column. *)
Definition set_clause (field : string) (value : Value) : option Value :=
  if decide (field = FILE) then None
  else if decide (field ∈ date_fields) then
    if truthy value && String.prefix "datetime.date" (py_str value) then None
    else if truthy value && bool_decide (value ≠ Some "None") then
      (λ d, sql_cell (Some d)) <$> parse_date (py_str value)
    else Some (sql_cell value)
  else Some (sql_cell value).

Definition set_clauses (updates : Dict) : Dict := map_imap set_clause updates.

(** [_update_single_vendor(vendor_number, file_value, updates)] *)
Definition _update_single_vendor (v f : string) (updates : Dict) : M bool :=
  if decide (updates = ∅) then ret true
  else if decide (set_clauses updates = ∅) then ret true
  else _execute_dml (sql_update v f (set_clauses updates)) "UPDATE".

(** [_insert_single_vendor(vendor_data)] *)
Definition _insert_single_vendor (vendor_data : Dict) : M bool :=
  _execute_dml (sql_insert (sql_cell <$> vendor_data)) "INSERT".

(** [SELECT "FILE" ... WHERE "Vendor Number" = 'v' AND "FILE" IN ('Tier2', '6Months')] *)
Definition sql_select_pair_files (v : string) (t : list Dict) : list string :=
  (λ r, py_str (get r FILE)) <$>
    filter (λ r, of_vendor v r ∧
                 (r !! FILE = Some (Some "Tier2") ∨ r !! FILE = Some (Some "6Months"))) t.

(** [_update_dual_entry_vendor(vendor_number, file_value, updates)] *)
Definition _update_dual_entry_vendor (v f : string) (updates : Dict) : M bool :=
  try_except
    (let* existing_file_values := sql_query (sql_select_pair_files v) in
     if decide ("Tier2" ∉ existing_file_values ∨ "6Months" ∉ existing_file_values)
     then _update_single_vendor v f updates
     else
       let* ok := _update_single_vendor v "Tier2" updates in
       if ok then _update_single_vendor v "6Months" updates else ret false)
    false.

(** [update_vendor(vendor_number, file_value, updates)] *)
Definition update_vendor (v f : string) (updates : Dict) : M bool :=
  if decide (updates = ∅) then ret true
  else if in_pair f then _update_dual_entry_vendor v f updates
  else _update_single_vendor v f updates.

(** [_make_explicit_tier_change(vendor_number, original_file, new_file, updates)] *)
Definition _make_explicit_tier_change (v original_file new_file : string)
    (updates : Dict) : M bool :=
  let* ok := _execute_dml
         (sql_update v original_file (<[FILE := Some new_file]> (set_clauses updates)))
         "UPDATE" in
  if negb ok then ret false
  else
    try_except
      (let* row_count := sql_query (sql_count v new_file) in
       if decide (row_count = 0)
       then let* _ := sql_query (sql_count v original_file) in ret false
       else ret true)
      true.

(** [_delete_orphaned_secondary(vendor_number, file_to_delete)] *)
Definition _delete_orphaned_secondary (v file_to_delete : string) : M bool :=
  _execute_dml (sql_delete v file_to_delete) "DELETE".

(** [_change_to_tier2_with_dual_entry(vendor_number, original_file, updates)];
    a fetched row has its key columns, so [not current_vendor] is the case
    [None]. *)
Definition _change_to_tier2_with_dual_entry (v original_file : string)
    (updates : Dict) : M bool :=
  try_except
    (let* vendor_combinations := get_vendor_combinations v in
     let sixmonths_exists := file_exists "6Months" vendor_combinations in
     let* current_vendor := get_vendor v original_file in
     match current_vendor with
     | None => ret false
     | Some current =>
         let updated_vendor_data := <[VENDOR_NUMBER := Some v]> (updates ∪ current) in
         let '(tier2_data, sixmonths_data) := create_dual_entry_data updated_vendor_data in
         if sixmonths_exists then
           let* ok := _update_single_vendor v "6Months" sixmonths_data in
           if negb ok then ret false else
           let* ok := _insert_single_vendor tier2_data in
           if negb ok then ret false else
           let* ok := (if decide (original_file ≠ "6Months")
                 then _execute_dml (sql_delete v original_file) "DELETE"
                 else ret true) in
           if negb ok then ret false else
           let* _ := commit in ret true
         else
           let* ok := _insert_single_vendor tier2_data in
           let* ok := (if ok then _insert_single_vendor sixmonths_data else ret false) in
           if negb ok then ret false else
           let* ok := _execute_dml (sql_delete v original_file) "DELETE" in
           if negb ok then ret false else
           let* _ := commit in ret true
     end)
    false.

(** [_change_within_dual_entry(vendor_number, original_file, new_file, updates)];
    [merged_data.update(updates)] is the union that prefers [updates]. *)
Definition _change_within_dual_entry (v original_file new_file : string)
    (updates : Dict) : M bool :=
  try_except
    (let* vendor_combinations := get_vendor_combinations v in
     match first_with_file "Tier2" vendor_combinations,
           first_with_file "6Months" vendor_combinations with
     | Some tier2_entry, Some sixmonths_entry =>
         let merged_data := updates ∪ merge_dual tier2_entry sixmonths_entry in
         let* ok := _execute_dml (sql_delete v original_file) "DELETE" in
         if negb ok then ret false else
         let* remaining_count := sql_query (sql_count v original_file) in
         if decide (0 < remaining_count) then ret false else
         let* _ := commit in
         let* ok := _update_single_vendor v new_file merged_data in
         if negb ok then ret false else
         let* updated_count := sql_query (sql_count v new_file) in
         if decide (updated_count = 0) then ret false else
         let* _ := commit in ret true
     | _, _ => _make_explicit_tier_change v original_file new_file updates
     end)
    false.

(** [merged_entry] of [_check_and_fix_duplicates] for one group. *)
Definition merge_group (v : string) (file_value : Value) (entries : list Dict) : Dict :=
  <[FILE := file_value]>
    (<[VENDOR_NUMBER := Some v]> (foldl absorb (default ∅ (head entries)) (tail entries))).

(** The loop of [_check_and_fix_duplicates] over the groups: the first group
    with more than one entry is repaired, and the method returns from inside
    the loop. *)
Fixpoint dedup_loop (v : string) (groups : list (Value * list Dict)) : M bool :=
  match groups with
  | [] => ret true
  | (file_value, entries) :: rest =>
      if decide (1 < length entries) then
        let merged_entry := merge_group v file_value entries in
        let* ok := _execute_dml (sql_delete v (py_str file_value)) "DELETE" in
        if negb ok then ret false else
        let* remaining_count := sql_query (sql_count v (py_str file_value)) in
        let* _ := commit in
        let* ok := _insert_single_vendor merged_entry in
        if negb ok then ret false else
        let* inserted_count := sql_query (sql_count v (py_str file_value)) in
        if decide (inserted_count = 0) then ret false else
        let* _ := commit in ret true
      else dedup_loop v rest
  end.

(** [_check_and_fix_duplicates(vendor_number)] *)
Definition _check_and_fix_duplicates (v : string) : M bool :=
  try_except
    (let* vendor_combinations := get_vendor_combinations v in
     dedup_loop v (file_groups vendor_combinations))
    false.

(** [_check_and_fix_missing_secondary(vendor_number)] *)
Definition _check_and_fix_missing_secondary (v : string) : M bool :=
  try_except
    (let* vendor_combinations := get_vendor_combinations v in
     match first_with_file "Tier2" vendor_combinations,
           first_with_file "6Months" vendor_combinations with
     | Some tier2_entry, None =>
         _insert_single_vendor (<[FILE := Some "6Months"]> tier2_entry)
     | _, _ => ret true
     end)
    false.

(** [tier2_str != sixmonths_str] in [_check_and_fix_unsynced_dual] *)
Definition mismatch (tier2_value sixmonths_value : Value) : Prop :=
  strip (or_empty tier2_value) ≠ strip (or_empty sixmonths_value).

(** [mismatches] of [_check_and_fix_unsynced_dual], as the sub-dictionary of
    the fields that differ. *)
Definition mismatches (tier2_entry sixmonths_entry : Dict) : Dict :=
  filter (λ kv, kv.1 ≠ FILE ∧
                mismatch (get tier2_entry kv.1) (get sixmonths_entry kv.1))
    (tier2_entry ∪ sixmonths_entry).

(** [merged_data] of [_check_and_fix_unsynced_dual] *)
Definition sync_merge (tier2_entry sixmonths_entry : Dict) : Dict :=
  map_imap (λ field _,
      if decide (field = FILE) then None
      else if decide (mismatch (get tier2_entry field) (get sixmonths_entry field))
      then Some (prefer_tier2 (get tier2_entry field) (get sixmonths_entry field))
      else Some (get tier2_entry field))
    (tier2_entry ∪ sixmonths_entry).

(** The email fields of [merged_data], normalised when present and truthy. *)
Definition normalize_emails (merged_data : Dict) : Dict :=
  map_imap (λ field value,
      if decide (field ∈ email_fields) then
        if truthy value then Some (Some (normalize_email (py_str value)))
        else Some value
      else Some value)
    merged_data.

(** [sync_updates] of [_check_and_fix_unsynced_dual] *)
Definition sync_updates (tier2_entry sixmonths_entry : Dict) : Dict :=
  filter (λ kv, kv.1 ∉ [VENDOR_NUMBER; FILE])
    (normalize_emails (sync_merge tier2_entry sixmonths_entry)).

(** [_check_and_fix_unsynced_dual(vendor_number)] *)
Definition _check_and_fix_unsynced_dual (v : string) : M bool :=
  try_except
    (let* vendor_combinations := get_vendor_combinations v in
     match first_with_file "Tier2" vendor_combinations,
           first_with_file "6Months" vendor_combinations with
     | Some tier2_entry, Some sixmonths_entry =>
         if decide (mismatches tier2_entry sixmonths_entry ≠ ∅)
         then _update_dual_entry_vendor v "Tier2" (sync_updates tier2_entry sixmonths_entry)
         else ret true
     | _, _ => ret true
     end)
    false.

(** [change_vendor_tier(vendor_number, original_file, new_file, updates)] *)
Definition change_vendor_tier (v original_file new_file : string)
    (updates : Dict) : M bool :=
  let field_updates := delete FILE updates in
  if decide (new_file = "Tier2") then
    let* vendor_combinations := get_vendor_combinations v in
    if file_exists "Tier2" vendor_combinations && file_exists "6Months" vendor_combinations
    then
      if in_pair original_file
      then _change_within_dual_entry v original_file new_file field_updates
      else _change_within_dual_entry v original_file new_file field_updates
    else _change_to_tier2_with_dual_entry v original_file field_updates
  else if in_pair original_file && in_pair new_file
          && bool_decide (original_file ≠ new_file) then
    let* vendor_combinations := get_vendor_combinations v in
    if file_exists "Tier2" vendor_combinations && file_exists "6Months" vendor_combinations
    then _change_within_dual_entry v original_file new_file field_updates
    else
      let* ok := _make_explicit_tier_change v original_file new_file field_updates in
      if negb ok then ret false else ret true
  else
    let* ok := _make_explicit_tier_change v original_file new_file field_updates in
    if negb ok then ret false else
    let* _ := (if in_pair original_file && negb (in_pair new_file)
               then _delete_orphaned_secondary v
                      (if decide (original_file = "Tier2") then "6Months" else "Tier2")
               else ret true) in
    let* _ := _check_and_fix_duplicates v in
    let* _ := _check_and_fix_unsynced_dual v in
    ret true.

End Engine.

(** ** The Tier1 guard of the edit form ([streamlit_app.py]) *)

(** Which of the tier-change warnings [save_vendor_changes] raises. *)
Inductive Warning := LeavePair | ToTier2 | WithinPair | SimpleChange.

(** What [save_vendor_changes] shows before it returns. *)
Inductive Screen :=
  | Tier1Blocked
  | ValidationErrors
  | NoChanges
  | TierWarning
  | ChangesSummary.

(** The part of [st.session_state] that [save_vendor_changes] writes. *)
Record Session := mkSession {
  tier_change_state : option string;
  tier_change_warning : option Warning;
  pending_changes : option Dict;
  original_vendor : option Dict;
  file_changing : bool
}.

Section Form.

Variable normalize_email : string → string.

(** [len(validate_email_list(s).errors) == 0] *)
Variable email_list_ok : string → bool.

(** One iteration of the loop of [validate_vendor_data]: [true] when it adds
    no error. *)
Definition field_valid (field : string) (value : Value) : bool :=
  if truthy value then
    if decide (field ∈ email_fields) then email_list_ok (py_str value)
    else if decide (field = VENDOR_NUMBER)
         then bool_decide (3 ≤ py_len (strip (py_str value)))%nat
         else true
  else true.

(** [validate_vendor_data(vendor_data).is_valid] *)
Definition validate_vendor_data (vendor_data : Dict) : bool :=
  bool_decide (map_Forall (λ field value, field_valid field value = true) vendor_data).

(** [calculate_changes(original, updated)] *)
Definition calculate_changes (original updated : Dict) : Dict :=
  map_imap (λ field new_value,
      let original_value := default (Some "") (original !! field) in
      if decide (field ∈ email_fields) then
        if decide (normalize_email (py_str original_value)
                   ≠ normalize_email (py_str new_value))
        then Some (Some (normalize_email (py_str new_value)))
        else None
      else
        if decide (strip (py_str original_value) ≠ strip (py_str new_value))
        then Some (Some (strip (py_str new_value)))
        else None)
    updated.

(** [tier2_exists and sixmonths_exists] for the vendor of the edited row;
    a failing query is logged and leaves the warning unset. *)
Definition pair_exists (original : Dict) : M (option bool) :=
  try_except
    (let* vendor_combinations :=
       get_vendor_combinations (py_str (default (Some "") (original !! VENDOR_NUMBER))) in
     ret (Some (file_exists "Tier2" vendor_combinations
                && file_exists "6Months" vendor_combinations)))
    None.

(** [save_vendor_changes(original_vendor, updated_data)] *)
Definition save_vendor_changes (original updated_data : Dict) (ss : Session)
    : M (Screen * Session) :=
  let original_file := default (Some "") (original !! FILE) in
  let new_file := default original_file (updated_data !! FILE) in
  if decide (new_file = Some "Tier1" ∧ original_file ≠ Some "Tier1")
  then ret (Tier1Blocked, ss)
  else if negb (validate_vendor_data updated_data) then ret (ValidationErrors, ss)
  else
    let changing := bool_decide (original_file ≠ new_file) in
    let changes := calculate_changes original updated_data in
    let changes :=
      if changing && bool_decide (changes !! FILE = None)
      then <[FILE := new_file]> changes else changes in
    if decide (changes = ∅) then ret (NoChanges, ss)
    else
      let* warning_message :=
        (if changing then
           if in_pair (py_str original_file) && negb (in_pair (py_str new_file)) then
             let* both := pair_exists original in
             ret (if decide (both = Some true) then Some LeavePair else None)
           else if negb (in_pair (py_str original_file))
                   && bool_decide (new_file = Some "Tier2") then
             ret (Some ToTier2)
           else if in_pair (py_str original_file) && in_pair (py_str new_file)
                   && bool_decide (original_file ≠ new_file) then
             let* both := pair_exists original in
             ret (match both with
                  | Some true => Some WithinPair
                  | Some false => Some SimpleChange
                  | None => None
                  end)
           else ret None
         else ret None) in
      match warning_message with
      | Some w =>
          ret (TierWarning,
               mkSession (Some "warning") (Some w) (Some changes) (Some original) changing)
      | None =>
          ret (ChangesSummary,
               mkSession (tier_change_state ss) (tier_change_warning ss)
                 (Some changes) (Some original) changing)
      end.

End Form.

(** ** The engine's operations and the properties' vocabulary *)

(** The key of a row, when both key columns are set. *)
Definition key_of (r : Dict) : option (string * string) :=
  match get r VENDOR_NUMBER, get r FILE with
  | Some v, Some f => Some (v, f)
  | _, _ => None
  end.

(** "No true duplicates": no two rows share a key. *)
Definition no_true_duplicates (t : list Dict) : Prop :=
  NoDup (omap key_of t).

(** The operations of the reconciliation engine on one vendor. *)
Inductive operation :=
  | ApplyFieldUpdate (tier : string) (fieldUpdates : Dict)
  | ChangeTier (originalTier newTier : string) (fieldUpdates : Dict)
  | Deduplicate
  | ResyncDualPair
  | FixMissingSecondary.

Definition run (parse_date : string → option string)
    (normalize_email : string → string) (v : string) (op : operation) : M bool :=
  match op with
  | ApplyFieldUpdate tier fieldUpdates => update_vendor parse_date v tier fieldUpdates
  | ChangeTier originalTier newTier fieldUpdates =>
      change_vendor_tier parse_date normalize_email v originalTier newTier fieldUpdates
  | Deduplicate => _check_and_fix_duplicates v
  | ResyncDualPair => _check_and_fix_unsynced_dual parse_date normalize_email v
  | FixMissingSecondary => _check_and_fix_missing_secondary v
  end.

(** The table the specification describes for the dual-entry creation path:
    the fetched row with the updates merged in gives a Tier2 and a 6Months
    variant; an existing 6Months row is updated in place and the Tier2 row
    inserted, otherwise both are inserted; the original row is deleted
    unless it was the 6Months row. *)
Definition dual_entry_created (parse_date : string → option string)
    (v original_file : string) (fieldUpdates current : Dict) (t : list Dict) : list Dict :=
  let data := <[VENDOR_NUMBER := Some v]> (delete FILE fieldUpdates ∪ current) in
  let tier2_variant := <[FILE := Some "Tier2"]> data in
  let sixmonths_variant := <[FILE := Some "6Months"]> data in
  if file_exists "6Months" (sql_select_vendor v t) then
    let t1 := sql_update v "6Months" (set_clauses parse_date sixmonths_variant) t in
    let t2 := sql_insert (sql_cell <$> tier2_variant) t1 in
    if decide (original_file = "6Months") then t2 else sql_delete v original_file t2
  else
    sql_delete v original_file
      (sql_insert (sql_cell <$> sixmonths_variant)
         (sql_insert (sql_cell <$> tier2_variant) t)).


(** Both rows of the pair are present ([tier2_exists and sixmonths_exists]). *)
Definition dual_entry (v : string) (t : list Dict) : bool :=
  file_exists "Tier2" (sql_select_vendor v t)
  && file_exists "6Months" (sql_select_vendor v t).

(** Two rows agree on a field as [_check_and_fix_unsynced_dual] compares
    them: NULL and the empty string are one, surrounding blanks are
    ignored. *)
Definition agree (field : string) (r1 r2 : Dict) : Prop :=
  strip (or_empty (get r1 field)) = strip (or_empty (get r2 field)).

(** ** Stores and rows of the worked examples *)

(** Stand-ins for the two library calls, for running the methods on rows
    whose date and email columns are not involved. *)
Definition no_date : string → option string := λ _, None.
Definition same_email : string → string := λ s, s.

Definition row (v f : string) (fields : list (string * Value)) : Dict :=
  <[VENDOR_NUMBER := Some v]> (<[FILE := Some f]> (list_to_map fields)).

(** A store whose coming calls all run. *)
Definition calm (t : list Dict) : Store := mkStore t [] None.

(** A store with a script for the coming calls. *)
Definition scripted (t : list Dict) (os : list outcome) : Store := mkStore t os None.

(** Scenario A .. D of the specification and the rows of the other examples. *)
Definition scenario_a : list Dict :=
  [row "1001" "Tier1" [("Vendor Name", Some "Acme")]].

Definition scenario_b : list Dict :=
  [row "1002" "Tier2" [("Contact", Some "a@x.com")];
   row "1002" "6Months" [("Contact", Some "")]].

Definition scenario_c : list Dict :=
  [row "1003" "Tier2" [("Vendor Name", Some "Bob")];
   row "1003" "Tier2" [("Vendor Name", Some "")]].

Definition scenario_d : list Dict :=
  [row "1004" "Tier2" [("Vendor Name", Some "Dune")];
   row "1004" "6Months" [("Vendor Name", Some "Dune")]].

(** A 3Months row next to a Tier2 row that has no 6Months partner. *)
Definition tier2_without_partner : list Dict :=
  [row "1001" "3Months" [("Vendor Name", Some "Acme")];
   row "1001" "Tier2" [("Vendor Name", Some "Old")]].

Definition single_3months : list Dict :=
  [row "1001" "3Months" [("Vendor Name", Some "Acme")]].

(** The calls of a change towards Tier2 of a vendor with one row: three
    queries, the two INSERT statements with the commit of the first, then the
    DELETE and the commits. Here the second INSERT raises. *)
Definition second_insert_fails : list outcome :=
  [Applied; Applied; Applied; Applied; Applied; Failed; Applied; Applied].

Definition standalone_6months : list Dict :=
  [row "1001" "6Months" [("Vendor Name", Some "Acme")]].

Definition standalone_tier2 : list Dict :=
  [row "1001" "Tier2" [("Vendor Name", Some "Acme")]].

(** A pair out of sync: only the 6Months row knows the vendor's name. *)
Definition unsynced_pair : list Dict :=
  [row "1004" "Tier2" [("Vendor Name", None)];
   row "1004" "6Months" [("Vendor Name", Some "Bob")]].

(** A pair whose rows differ in one column and agree in another. *)
Definition half_synced_pair : list Dict :=
  [row "1002" "Tier2" [("Vendor Name", Some "A"); ("Parent Vendor", Some "X")];
   row "1002" "6Months" [("Vendor Name", Some "B"); ("Parent Vendor", Some "X")]].

Definition half_synced_tier2_after : Dict :=
  row "1002" "Tier2" [("Vendor Name", Some "A"); ("Parent Vendor", Some "Y")].

Definition half_synced_6months_after : Dict :=
  row "1002" "6Months" [("Vendor Name", Some "B"); ("Parent Vendor", Some "Y")].

(** U+00A0, the no-break space, in UTF-8. *)
Definition nbsp : string :=
  String (ascii_of_N 194) (String (ascii_of_N 160) EmptyString).

(** A pair whose names differ by a trailing blank. *)
Definition spaced_tier2 : Dict := row "1002" "Tier2" [("Vendor Name", Some "Acme ")].

Definition spaced_6months : Dict := row "1002" "6Months" [("Vendor Name", Some "Acme")].

(** A pair of which one row holds a date that is no date. *)
Definition undated_tier2 : Dict :=
  row "1002" "Tier2" [("Soft Chargeback Effective Date", Some "soon")].

Definition undated_6months : Dict :=
  row "1002" "6Months" [("Soft Chargeback Effective Date", None)].

(** A vendor that holds the Tier2 tier twice and the 6Months tier once. *)
Definition doubled_tier2_pair : list Dict :=
  [row "1002" "Tier2" [("Vendor Name", Some "A")];
   row "1002" "Tier2" [("Vendor Name", Some "B")];
   row "1002" "6Months" [("Vendor Name", Some "A")]].

(** A vendor that holds a pair in sync and a 3Months row, and the vendor of
    Scenario B with a 3Months row. *)
Definition synced_pair_and_3months : list Dict :=
  [row "1002" "3Months" [("Vendor Name", Some "Acme")];
   row "1002" "Tier2" [("Vendor Name", Some "Acme")];
   row "1002" "6Months" [("Vendor Name", Some "Acme")]].

Definition scenario_b_and_3months : list Dict :=
  scenario_b ++ [row "1002" "3Months" [("Contact", Some "c@x.com")]].

(** The calls of an update of both rows of a pair: the query for the two
    tiers, the UPDATE of the Tier2 row with its commit, and the UPDATE of the
    6Months row, which raises. *)
Definition second_update_fails : list outcome := [Applied; Applied; Applied; Failed].

(** Two tiers of one vendor, each held twice. *)
Definition two_duplicated_tiers : list Dict :=
  [row "1003" "6Months" [("Vendor Name", Some "Bob")];
   row "1003" "6Months" [("Vendor Name", Some "")];
   row "1003" "Tier2" [("Vendor Name", Some "Ann")];
   row "1003" "Tier2" [("Vendor Name", Some "")]].

(** The edit form before anything is pending, and a stand-in for the email
    check. *)
Definition fresh_session : Session := mkSession None None None None false.
Definition every_email_ok : string → bool := λ _, true.

(** Records, widgets and sessions of the form examples. *)
Definition acme_3months : Dict := row "1001" "3Months" [("Vendor Name", Some "Acme")].

Definition nova_tier2 : Dict := row "2001" "Tier2" [("Vendor Name", Some "Nova")].

Definition form_to_6months : Dict :=
  <[FILE := Some "6Months"]> {["Vendor Name" := Some "Acme"]}.

Definition form_renamed : Dict :=
  <[FILE := Some "3Months"]> {["Vendor Name" := Some "Bolt"]}.

Definition staged_to_6months : Session :=
  mkSession None None (Some {[FILE := Some "6Months"]}) (Some acme_3months) true.

Definition staged_renamed : Session :=
  mkSession None None (Some {["Vendor Name" := Some "Bolt"]}) (Some acme_3months) false.

Definition nova_widget : string → Value := λ field,
  if decide (field = "Vendor Name") then Some "Nova"
  else if decide (field = "Vendor Contacts") then Some "n@x.com"
  else Some "".

Definition blank_name_record : Dict :=
  row "2001" "3Months" [("Vendor Name", Some " "); ("Vendor Contacts", Some "n@x.com")].

(** A search result: a vendor with the pair and a 3Months row, and a vendor
    with a single row. *)
Definition search_frame : list Dict :=
  row "1004" "3Months" [("Vendor Name", Some "Dune")] :: scenario_d ++ scenario_a.

(** ** Reasoning about a method under every script *)

(** [wp m Q s]: running [m] from [s] ends in a result and a store that
    satisfy [Q]. *)
Definition wp {A} (m : M A) (Q : result A → Store → Prop) (s : Store) : Prop :=
  Q (m s).1 (m s).2.

(** [s'] differs from [s] in its script only. *)
Definition same_data (s s' : Store) : Prop :=
  rows s' = rows s ∧ last_error s' = last_error s.

(** [inv P m]: [m] keeps the property [P] of the table, whatever the script. *)
Definition inv {A} (P : list Dict → Prop) (m : M A) : Prop :=
  ∀ s, P (rows s) → wp m (λ _ s', P (rows s')) s.

(** The calls of a method that ran from [s] to [s'] read a part of the
    script of [s] and left the rest. *)
Definition consumed (s s' : Store) : Prop :=
  ∃ read, script s = read ++ script s'.

(** The last call of a method that ran from [s] to [s'] is one that raised:
    the script was read up to a [Failed] outcome and no further. *)
Definition ends_at_failure (s s' : Store) : Prop :=
  ∃ read, script s = read ++ Failed :: script s'.

(** A method that started from [s0] with no error recorded either has none
    recorded, or it returns [False] and the statement that raised was its
    last call. *)
Definition aborts_at_failure (s0 : Store) (r : result bool) (s' : Store) : Prop :=
  (last_error s' = None ∧ consumed s0 s')
  ∨ (r = Ret false ∧ is_Some (last_error s') ∧ ends_at_failure s0 s').

(** The loop of [_update_single_vendor] builds an assignment from the value
    that [r] holds in [field]; it ends in [continue] for a date that it
    cannot parse. *)
Definition not_skipped (parse_date : string → option string) (field : string)
    (r : Dict) : Prop :=
  is_Some (set_clause parse_date field (get r field)).

(** The rows of the pair of [v] agree, as the resync compares them, on every
    column other than FILE; a date column counts when the UPDATE builder
    skips the date of neither row. *)
Definition pair_in_sync (parse_date : string → option string) (v : string)
    (t : list Dict) : Prop :=
  ∀ r2 r6 field,
    r2 ∈ t → at_key v "Tier2" r2 → r6 ∈ t → at_key v "6Months" r6 →
    field ≠ FILE →
    (field ∈ date_fields →
       not_skipped parse_date field r2 ∧ not_skipped parse_date field r6) →
    agree field r2 r6.

(** On a store whose calls all run, [m] leaves a store whose calls all run
    and records no error. *)
Definition quiet {A} (m : M A) : Prop :=
  ∀ t e, ∃ r t', m (mkStore t [] e) = (r, mkStore t' [] e).

(** The vendor has no Tier2 row. *)
Definition no_tier2 (v : string) (t : list Dict) : Prop :=
  Forall (λ r, ¬ at_key v "Tier2" r) t.

(** A tier change served by one of the two special paths of
    [change_vendor_tier] rather than by the regular one. *)
Definition special_path (original_file new_file : string) : Prop :=
  new_file = "Tier2"
  ∨ (in_pair original_file = true ∧ in_pair new_file = true ∧ original_file ≠ new_file).

(** A column of the table, row by row. *)
Definition column (k : string) (t : list Dict) : list (option Value) :=
  (λ r : Dict, r !! k) <$> t.

(** ** The rest of the manager: creating a vendor *)

(** [_insert_dual_entry_vendor(vendor_data)] *)
Definition _insert_dual_entry_vendor (vendor_data : Dict) : M bool :=
  let '(tier2_data, sixmonths_data) := create_dual_entry_data vendor_data in
  let* ok := _insert_single_vendor tier2_data in
  if ok then _insert_single_vendor sixmonths_data else ret false.

(** [insert_vendor(vendor_data)] *)
Definition insert_vendor (vendor_data : Dict) : M bool :=
  if decide (get vendor_data FILE = Some "Tier2")
  then _insert_dual_entry_vendor vendor_data
  else _insert_single_vendor vendor_data.

(** ** Vocabulary of the further properties *)

(** The vendor has no row of the tier [f]. *)
Definition no_rows_at (v f : string) (t : list Dict) : Prop :=
  Forall (λ r, ¬ at_key v f r) t.

(** A property of the table that the three statements the engine issues for
    the vendor [v] keep: an UPDATE or a DELETE at one of the vendor's keys,
    and an INSERT of any row. *)
Definition local_to (v : string) (P : list Dict → Prop) : Prop :=
  (∀ f sets t, P t → P (sql_update v f sets t))
  ∧ (∀ f t, P t → P (sql_delete v f t))
  ∧ (∀ row t, P t → P (sql_insert row t)).

(** A property of the table that the statements of the engine for the
    vendor [v] keep, whatever the updates and the record they are built
    from: an UPDATE at one of the vendor's keys with the assignments of
    [set_clauses], a DELETE at one of the vendor's keys, and an INSERT of the
    literals of a record. *)
Definition kept_by_statements (parse_date : string → option string) (v : string)
    (P : list Dict → Prop) : Prop :=
  (∀ f updates t, P t → P (sql_update v f (set_clauses parse_date updates) t))
  ∧ (∀ f t, P t → P (sql_delete v f t))
  ∧ (∀ vendor_data t, P t → P (sql_insert (sql_cell <$> vendor_data) t)).

(** The same for the UPDATE of the explicit tier change towards
    [new_file]. *)
Definition kept_by_explicit_change (parse_date : string → option string)
    (v new_file : string) (P : list Dict → Prop) : Prop :=
  ∀ f updates t,
    P t → P (sql_update v f (<[FILE := Some new_file]> (set_clauses parse_date updates)) t).

(** No cell of the table holds an empty or blank string: every cell is
    the literal that the statement builders write for it. *)
Definition no_blank_cells (t : list Dict) : Prop :=
  Forall (map_Forall (λ (_ : string) (x : Value), sql_cell x = x)) t.

(** [file_options] of [show_edit_screen] *)
Definition file_options : list string := ["Tier1"; "Tier2"; "6Months"; "3Months"].

(** The rows of the other vendors, in the table's order. *)
Definition rows_of_others (v : string) (t : list Dict) : list Dict :=
  filter (λ r, ¬ of_vendor v r) t.

(** The first value of a list that is filled, if any. *)
Definition first_filled (values : list Value) : option Value :=
  head (filter (λ x, filled x = true) values).

(** The rows that [insert_vendor] sends to the table, in the order of its
    INSERT statements. *)
Definition rows_to_insert (vendor_data : Dict) : list Dict :=
  if decide (get vendor_data FILE = Some "Tier2")
  then [sql_cell <$> (create_dual_entry_data vendor_data).1;
        sql_cell <$> (create_dual_entry_data vendor_data).2]
  else [sql_cell <$> vendor_data].

(** The method left the data of the store as it was and returned a result
    (an exception did not escape). *)
Definition untouched (s : Store) (r : result bool) (s' : Store) : Prop :=
  rows s' = rows s ∧ last_error s' = last_error s ∧ (r = Ret true ∨ r = Ret false).

(** The groups [g] split the list [l] by [key]: the keys are distinct;
    each group holds, in the order of [l], the entries of its key, and is
    not empty; and every entry of [l] has a group. *)
Definition grouped (key : Dict → Value) (g : list (Value * list Dict))
    (l : list Dict) : Prop :=
  NoDup (g.*1)
  ∧ (∀ k es, (k, es) ∈ g → es = filter (λ e, key e = k) l ∧ es ≠ [])
  ∧ (∀ e, e ∈ l → key e ∈ g.*1).

(** ** Searching ([vendor_processor.py]) *)

Record VendorSearchResult := mkVendorSearchResult {
  vendors : list Dict;
  has_dual_entries : bool;
  tier2_entries : list Dict;
  other_entries : list Dict
}.

(** [vendor[column]]: a missing column raises [KeyError]. *)
Definition subscript (vendor : Dict) (column : string) : option Value :=
  vendor !! column.

(** The first loop of [process_search_results]: the records grouped by
    'Vendor Number', the groups in the order of their first record. *)
Definition vendor_groups (vendors : list Dict) : option (list (Value * list Dict)) :=
  foldl (λ groups vendor,
      match groups, subscript vendor VENDOR_NUMBER with
      | Some groups, Some vendor_number => Some (group_add vendor_number vendor groups)
      | _, _ => None
      end)
    (Some []) vendors.

(** [[v['FILE'] for v in vendor_list]] *)
Definition file_values_of (vendor_list : list Dict) : option (list Value) :=
  mapM (λ v, subscript v FILE) vendor_list.

(** One round of the second loop of [process_search_results] on
    [(has_dual_entries, tier2_entries, other_entries)]. *)
Definition classify_group (acc : option (bool * list Dict * list Dict))
    (group : Value * list Dict) : option (bool * list Dict * list Dict) :=
  match acc, file_values_of group.2 with
  | Some (has_dual, tier2, other), Some file_values =>
      if decide (Some "Tier2" ∈ file_values ∧ Some "6Months" ∈ file_values)
      then Some (true,
                 tier2 ++ filter (λ v, get v FILE ∈ [Some "Tier2"; Some "6Months"]) group.2,
                 other)
      else Some (has_dual, tier2, other ++ group.2)
  | _, _ => None
  end.

(** [process_search_results(df)] on the records of the data frame; [None]
    when a subscript raises. *)
Definition process_search_results (df : list Dict) : option VendorSearchResult :=
  if decide (df = []) then Some (mkVendorSearchResult [] false [] [])
  else
    match vendor_groups df with
    | Some groups =>
        match foldl classify_group (Some (false, [], [])) groups with
        | Some (has_dual, tier2, other) => Some (mkVendorSearchResult df has_dual tier2 other)
        | None => None
        end
    | None => None
    end.

(** The records of [df] hold a Tier2 and a 6Months row of the vendor
    number [k]. *)
Definition dual_vendor (df : list Dict) (k : Value) : Prop :=
  (∃ r, r ∈ df ∧ get r VENDOR_NUMBER = k ∧ get r FILE = Some "Tier2")
  ∧ (∃ r, r ∈ df ∧ get r VENDOR_NUMBER = k ∧ get r FILE = Some "6Months").

(** ** The new-entry form ([streamlit_app.py]) *)

(** [get_required_fields()] *)
Definition get_required_fields : list string :=
  ["Vendor Number"; "Vendor Name"; "Vendor Contacts"].

(** [get_editable_fields()] *)
Definition get_editable_fields : list string :=
  ["Vendor Name"; "Vendor Contacts"; "Parent Vendor"; "CM_Email"; "CM Manager_Email";
   "SP_Email"; "SP Manager_Email"; "OVERRIDE_EMAIL"].

(** What [save_new_vendor] shows before it returns. *)
Inductive NewScreen :=
  | NewTier1Blocked
  | NewValidationErrors
  | RequiredMissing
  | Created (both : bool)
  | CreateFailed
  | CreateError.

(** [file_value] of [show_new_entry_screen] after the Tier1 check: a
    selected Tier1 is reset to Tier2. *)
Definition new_entry_file (selected : string) : string :=
  if decide (selected = "Tier1") then "Tier2" else selected.

(** [new_vendor_data] of [show_new_entry_screen]: the key columns, then
    the value of the widget of every editable field. *)
Definition new_vendor_data (vendor_number selected : string)
    (widget : string → Value) : Dict :=
  foldl (λ data field, <[field := widget field]> data)
    (<[FILE := Some (new_entry_file selected)]> {[VENDOR_NUMBER := Some vendor_number]})
    get_editable_fields.

Section NewEntry.

Variable email_list_ok : string → bool.

(** [missing_fields] of [save_new_vendor] *)
Definition missing_fields (vendor_data : Dict) : list string :=
  filter (λ field, truthy (get vendor_data field) = false) get_required_fields.

(** [save_new_vendor(vendor_data, file_value)] *)
Definition save_new_vendor (vendor_data : Dict) (file_value : string) : M NewScreen :=
  try_except
    (if decide (file_value = "Tier1") then ret NewTier1Blocked
     else if negb (validate_vendor_data email_list_ok vendor_data)
     then ret NewValidationErrors
     else if decide (missing_fields vendor_data ≠ []) then ret RequiredMissing
     else
       let* success := insert_vendor vendor_data in
       if success then ret (Created (bool_decide (file_value = "Tier2")))
       else ret CreateFailed)
    CreateError.

(** The submission of [show_new_entry_screen]:
    [save_new_vendor(new_vendor_data, file_value)]. *)
Definition submit_new_entry (vendor_number selected : string)
    (widget : string → Value) : M NewScreen :=
  save_new_vendor (new_vendor_data vendor_number selected widget)
    (new_entry_file selected).

End NewEntry.

(** ** Confirming the pending changes ([streamlit_app.py]) *)

(** [receipt_data] of [confirm_vendor_changes] *)
Record Receipt := mkReceipt {
  receipt_vendor_number : Value;
  receipt_original_vendor : Dict;
  updated_vendor : Dict;
  receipt_changes : Dict;
  file_changed : bool;
  receipt_original_file : Value;
  receipt_new_file : Value
}.

(** What [confirm_vendor_changes] shows: the receipt screen, the failure
    message, or the message of its outer handler. *)
Inductive ConfirmScreen :=
  | ReceiptScreen (receipt : Receipt)
  | SaveFailed
  | ConfirmError.

(** [raise] *)
Definition raise {A} : M A := λ s, (Exc, s).

Section Confirm.

Variable parse_date : string → option string.
Variable normalize_email : string → string.

(** [confirm_vendor_changes()] on the session that [save_vendor_changes]
    wrote; the subscripts of a missing [original_vendor] or column and the
    [.get] of a missing [pending_changes] raise into the outer handler. *)
Definition confirm_vendor_changes (ss : Session) : M (ConfirmScreen * Session) :=
  let warning_cleared :=
    mkSession None None (pending_changes ss) (original_vendor ss) (file_changing ss) in
  try_except
    (match pending_changes ss, original_vendor ss with
     | Some changes, Some original =>
         match subscript original VENDOR_NUMBER, subscript original FILE with
         | Some vendor_number, Some original_file =>
             let new_file := default original_file (changes !! FILE) in
             let tier_change :=
               file_changing ss && bool_decide (original_file ≠ new_file) in
             let* success :=
               (if tier_change then
                  try_except
                    (change_vendor_tier parse_date normalize_email (py_str vendor_number)
                       (py_str original_file) (py_str new_file) changes)
                    false
                else
                  try_except
                    (update_vendor parse_date (py_str vendor_number)
                       (py_str original_file) changes)
                    false) in
             if success then
               let fetch_file := if tier_change then new_file else original_file in
               let fallback := changes ∪ original in
               let* fresh_vendor :=
                 try_except
                   (let* fresh := get_vendor (py_str vendor_number) (py_str fetch_file) in
                    ret (default fallback fresh))
                   fallback in
               ret (ReceiptScreen
                      (mkReceipt vendor_number original fresh_vendor changes
                         (file_changing ss) original_file
                         (if file_changing ss then new_file else original_file)),
                    mkSession None None None None (file_changing ss))
             else ret (SaveFailed, warning_cleared)
         | _, _ => raise
         end
     | _, _ => raise
     end)
    (ConfirmError, warning_cleared).

End Confirm.

(** * Properties *)

(** ** Running a method on a store whose script is exhausted *)

Lemma sql_query_calm {A} (q : list Dict → A) t e :
  sql_query q (mkStore t [] e) = (Ret (q t), mkStore t [] e).
Proof. reflexivity. Qed.

Lemma commit_calm t e : commit (mkStore t [] e) = (Ret (), mkStore t [] e).
Proof. reflexivity. Qed.

Lemma execute_dml_calm f op t e :
  _execute_dml f op (mkStore t [] e) = (Ret true, mkStore (f t) [] e).
Proof. reflexivity. Qed.

Lemma insert_single_vendor_calm d t e :
  _insert_single_vendor d (mkStore t [] e)
  = (Ret true, mkStore (sql_insert (sql_cell <$> d) t) [] e).
Proof. apply execute_dml_calm. Qed.


Lemma bind_eq {A B} (m : M A) (k : A → M B) s a s' :
  m s = (Ret a, s') → bind m k s = k a s'.
Proof. intros H. unfold bind. by rewrite H. Qed.

Lemma try_except_eq {A} (m : M A) (d a : A) s s' :
  m s = (Ret a, s') → try_except m d s = (Ret a, s').
Proof. intros H. unfold try_except. by rewrite H. Qed.

(** ** The rules of [wp] *)

Lemma wp_ret {A} (a : A) Q s : Q (Ret a) s → wp (ret a) Q s.
Proof. done. Qed.

Lemma wp_bind {A B} (m : M A) (k : A → M B) Q s :
  wp m (λ r s', match r with Ret a => wp (k a) Q s' | Exc => Q Exc s' end) s →
  wp (bind m k) Q s.
Proof. unfold wp, bind. by destruct (m s) as [[a|] s']. Qed.

Lemma wp_try_except {A} (m : M A) (d : A) Q s :
  wp m (λ r s', match r with Ret a => Q (Ret a) s' | Exc => Q (Ret d) s' end) s →
  wp (try_except m d) Q s.
Proof. unfold wp, try_except. by destruct (m s) as [[a|] s']. Qed.

Lemma wp_mono {A} (m : M A) (Q Q' : result A → Store → Prop) s :
  wp m Q s → (∀ r s', Q r s' → Q' r s') → wp m Q' s.
Proof. unfold wp. auto. Qed.

Lemma wp_eq {A} (m : M A) Q s r s' : m s = (r, s') → Q r s' → wp m Q s.
Proof. unfold wp. by intros ->. Qed.


Lemma wp_sql_query {A} (q : list Dict → A) Q s :
  (∀ s', same_data s s' → Q (Ret (q (rows s))) s' ∧ Q Exc s') →
  wp (sql_query q) Q s.
Proof.
  intros H. unfold wp, sql_query, next_outcome.
  destruct s as [t [|[] os] e]; simpl; by apply H.
Qed.

Lemma wp_commit Q s :
  (∀ s', same_data s s' → Q (Ret ()) s') → wp commit Q s.
Proof.
  intros H. unfold wp, commit, try_except, sql_dml, next_outcome.
  destruct s as [t [|[] os] e]; simpl; by apply H.
Qed.

(** A call of [_execute_dml]: the statement ran or was lost and [True]
    comes back, or it raised, [last_error] is set and [False] comes back. *)
Lemma wp_execute_dml f op Q s :
  (∀ s', (rows s' = f (rows s) ∨ rows s' = rows s) →
         last_error s' = last_error s → Q (Ret true) s') →
  (∀ s', rows s' = rows s → last_error s' = Some (op +:+ " failed") →
         Q (Ret false) s') →
  wp (_execute_dml f op) Q s.
Proof.
  intros Hok Hfail. unfold wp, _execute_dml, sql_dml, next_outcome.
  destruct s as [t [|[] os] e]; simpl.
  - apply Hok; auto.
  - unfold bind, commit, try_except, sql_dml, next_outcome; simpl.
    destruct os as [|[] os]; simpl; apply Hok; auto.
  - by apply Hfail.
  - unfold bind, commit, try_except, sql_dml, next_outcome; simpl.
    destruct os as [|[] os]; simpl; apply Hok; auto.
Qed.

Lemma wp_insert_single_vendor d Q s :
  (∀ s', (rows s' = sql_insert (sql_cell <$> d) (rows s) ∨ rows s' = rows s) →
         last_error s' = last_error s → Q (Ret true) s') →
  (∀ s', rows s' = rows s → last_error s' = Some "INSERT failed" → Q (Ret false) s') →
  wp (_insert_single_vendor d) Q s.
Proof. intros Hok Hfail. apply (wp_execute_dml _ "INSERT"); auto. Qed.

(** ** The part of the script a call reads *)

Lemma consumed_refl s : consumed s s.
Proof. by exists []. Qed.

Lemma consumed_trans s0 s s' : consumed s0 s → consumed s s' → consumed s0 s'.
Proof. intros [r1 E1] [r2 E2]. exists (r1 ++ r2). by rewrite E1, E2, app_assoc. Qed.

Lemma consumed_failure s0 s s' :
  consumed s0 s → script s = Failed :: script s' → ends_at_failure s0 s'.
Proof. intros [r1 E1] E2. exists r1. by rewrite E1, E2. Qed.

Lemma next_outcome_consumed s : consumed s (next_outcome s).2.
Proof.
  unfold next_outcome. destruct s as [t [|o os] e]; simpl.
  - apply consumed_refl.
  - by exists [o].
Qed.

Lemma wp_sql_query_script {A} (q : list Dict → A) Q s :
  (∀ s', same_data s s' → consumed s s' → Q (Ret (q (rows s))) s' ∧ Q Exc s') →
  wp (sql_query q) Q s.
Proof.
  intros H. unfold wp, sql_query. pose proof (next_outcome_consumed s) as Hc.
  unfold next_outcome in *. destruct s as [t [|[] os] e]; simpl in *; by apply H.
Qed.

Lemma wp_commit_script Q s :
  (∀ s', same_data s s' → consumed s s' → Q (Ret ()) s') → wp commit Q s.
Proof.
  intros H. unfold wp, commit, try_except, sql_dml.
  pose proof (next_outcome_consumed s) as Hc.
  unfold next_outcome in *. destruct s as [t [|[] os] e]; simpl in *; by apply H.
Qed.

(** A call of [_execute_dml]: [True] comes back with no error recorded, or
    the statement raised, which is the last thing the call did. *)
Lemma wp_execute_dml_script f op Q s :
  (∀ s', last_error s' = last_error s → consumed s s' → Q (Ret true) s') →
  (∀ s', last_error s' = Some (op +:+ " failed") → script s = Failed :: script s' →
         Q (Ret false) s') →
  wp (_execute_dml f op) Q s.
Proof.
  intros Hok Hfail. unfold wp, _execute_dml, sql_dml, next_outcome.
  destruct s as [t [|[] os] e]; simpl.
  - apply Hok; [done|by exists []].
  - unfold bind, commit, try_except, sql_dml, next_outcome; simpl.
    destruct os as [|[] os]; simpl; (apply Hok; [done|]);
      first [by exists [Applied] | by eexists [Applied; _]].
  - by apply Hfail.
  - unfold bind, commit, try_except, sql_dml, next_outcome; simpl.
    destruct os as [|[] os]; simpl; (apply Hok; [done|]);
      first [by exists [Lost] | by eexists [Lost; _]].
Qed.

(** ** Methods on a store whose calls all run *)

Lemma quiet_ret {A} (a : A) : quiet (ret a).
Proof. intros t e. by exists (Ret a), t. Qed.

Lemma quiet_bind {A B} (m : M A) (k : A → M B) :
  quiet m → (∀ a, quiet (k a)) → quiet (bind m k).
Proof.
  intros Hm Hk t e. destruct (Hm t e) as (r & t1 & E). unfold bind. rewrite E.
  destruct r as [a|]; [apply Hk|by exists Exc, t1].
Qed.

Lemma quiet_try_except {A} (m : M A) (d : A) : quiet m → quiet (try_except m d).
Proof.
  intros Hm t e. destruct (Hm t e) as (r & t1 & E). unfold try_except. rewrite E.
  destruct r; eauto.
Qed.

Lemma quiet_sql_query {A} (q : list Dict → A) : quiet (sql_query q).
Proof. intros t e. by exists (Ret (q t)), t. Qed.

Lemma quiet_commit : quiet commit.
Proof. intros t e. by exists (Ret ()), t. Qed.

Lemma quiet_execute_dml f op : quiet (_execute_dml f op).
Proof. intros t e. by exists (Ret true), (f t). Qed.

Lemma quiet_dedup_loop v groups : quiet (dedup_loop v groups).
Proof.
  induction groups as [|[file_value entries] rest IH]; simpl; [apply quiet_ret|].
  case_decide; [|done].
  apply quiet_bind; [apply quiet_execute_dml|]. intros []; simpl; [|apply quiet_ret].
  apply quiet_bind; [apply quiet_sql_query|]. intros _.
  apply quiet_bind; [apply quiet_commit|]. intros _.
  apply quiet_bind; [apply quiet_execute_dml|]. intros []; simpl; [|apply quiet_ret].
  apply quiet_bind; [apply quiet_sql_query|]. intros n.
  case_decide; [apply quiet_ret|].
  apply quiet_bind; [apply quiet_commit|]. intros _. apply quiet_ret.
Qed.

Lemma quiet_duplicates v : quiet (_check_and_fix_duplicates v).
Proof.
  unfold _check_and_fix_duplicates.
  apply quiet_try_except, quiet_bind; [apply quiet_sql_query|].
  intros l. apply quiet_dedup_loop.
Qed.

(** An UPDATE that assigns neither key column keeps the number of rows at
    every key. *)
Lemma sql_count_update v f v' f' sets t :
  sets !! FILE = None → sets !! VENDOR_NUMBER = None →
  sql_count v f (sql_update v' f' sets t) = sql_count v f t.
Proof.
  intros HF HV. unfold sql_count, sql_update.
  induction t as [|r t IH]; [done|].
  rewrite fmap_cons, !filter_cons.
  assert (at_key v f (if decide (at_key v' f' r) then sets ∪ r else r) ↔ at_key v f r)
    as Hk.
  { case_decide; [|done]. unfold at_key. by rewrite !lookup_union_r. }
  repeat case_decide; simpl; first [tauto | by rewrite IH].
Qed.

(** ** The rules of [inv] *)

Lemma inv_ret {A} (P : list Dict → Prop) (a : A) : inv P (ret a).
Proof. intros s Hs. by apply wp_ret. Qed.

Lemma inv_bind {A B} (P : list Dict → Prop) (m : M A) (k : A → M B) :
  inv P m → (∀ a, inv P (k a)) → inv P (bind m k).
Proof.
  intros Hm Hk s Hs. apply wp_bind. eapply wp_mono; [by apply Hm|].
  intros [a|] s' Hs'; [by apply Hk|done].
Qed.

Lemma inv_try_except {A} (P : list Dict → Prop) (m : M A) (d : A) :
  inv P m → inv P (try_except m d).
Proof.
  intros Hm s Hs. apply wp_try_except. eapply wp_mono; [by apply Hm|]. by intros [].
Qed.

Lemma inv_sql_query {A} (P : list Dict → Prop) (q : list Dict → A) : inv P (sql_query q).
Proof. intros s Hs. apply wp_sql_query. intros s' [-> _]. done. Qed.

(** The continuation of a query runs on the answer for a table that
    satisfies the invariant. *)
Lemma inv_bind_query {A B} (P : list Dict → Prop) (q : list Dict → A) (k : A → M B) :
  (∀ t, P t → inv P (k (q t))) → inv P (bind (sql_query q) k).
Proof.
  intros Hk s Hs. apply wp_bind, wp_sql_query. intros s' [E _].
  split; [|by rewrite E]. apply Hk; [done|by rewrite E].
Qed.

Lemma inv_commit (P : list Dict → Prop) : inv P commit.
Proof. intros s Hs. apply wp_commit. by intros s' [-> _]. Qed.

Lemma inv_execute_dml (P : list Dict → Prop) f op :
  (∀ t, P t → P (f t)) → inv P (_execute_dml f op).
Proof.
  intros HP s Hs. apply wp_execute_dml.
  - intros s' [-> | ->] _; auto.
  - by intros s' -> _.
Qed.

(** ** Facts about the values *)

Lemma get_Some (r : Dict) k x : get r k = Some x ↔ r !! k = Some (Some x).
Proof. unfold get. destruct (r !! k) as [[]|]; simpl; split; congruence. Qed.

Lemma in_pair_cases f : in_pair f = true → f = "Tier2" ∨ f = "6Months".
Proof.
  unfold in_pair. rewrite bool_decide_eq_true, !elem_of_cons, elem_of_nil. tauto.
Qed.

Lemma sql_cell_is_tier2 x : sql_cell x = Some "Tier2" → x = Some "Tier2".
Proof. unfold sql_cell. by destruct (null_like x). Qed.



(** ** Facts about the statements and the queries *)

Lemma sql_update_empty v f t : sql_update v f ∅ t = t.
Proof.
  unfold sql_update. induction t as [|r t IH]; [done|].
  rewrite fmap_cons, IH. case_decide; [|done]. by rewrite (left_id_L ∅ (∪)).
Qed.

Lemma sql_update_column v f sets k t :
  sets !! k = None → column k (sql_update v f sets t) = column k t.
Proof.
  intros Hk. unfold column, sql_update. rewrite <- list_fmap_compose.
  apply list_fmap_ext. intros _ r _. simpl.
  case_decide; [|done]. by rewrite lookup_union_r.
Qed.

Lemma sql_count_delete v f t : sql_count v f (sql_delete v f t) = 0.
Proof.
  unfold sql_count, sql_delete. apply length_zero_iff_nil.
  induction t as [|r t IH]; [done|].
  rewrite filter_cons. case_decide as H; [|done].
  rewrite filter_cons. by rewrite decide_False.
Qed.


Lemma insert_by_file_Permutation r l : insert_by_file r l ≡ₚ r :: l.
Proof.
  induction l as [|x l IH]; simpl; [done|].
  case_decide; [done|]. by rewrite IH, Permutation_swap.
Qed.

Lemma order_by_file_Permutation l : order_by_file l ≡ₚ l.
Proof.
  induction l as [|x l IH]; simpl; [done|].
  by rewrite insert_by_file_Permutation, IH.
Qed.

Lemma elem_of_sql_select_vendor v t e :
  e ∈ sql_select_vendor v t ↔ e ∈ t ∧ of_vendor v e.
Proof.
  unfold sql_select_vendor. rewrite order_by_file_Permutation, list_elem_of_filter. tauto.
Qed.

Lemma filter_file_select v f t :
  filter (λ r, get r FILE = Some f) (sql_select_vendor v t) ≡ₚ filter (at_key v f) t.
Proof.
  unfold sql_select_vendor. rewrite order_by_file_Permutation, list_filter_filter.
  induction t as [|r t IH]; [done|].
  rewrite !filter_cons. unfold at_key, of_vendor in *.
  repeat case_decide; rewrite ?get_Some in *; try tauto; by rewrite IH.
Qed.

Lemma first_with_file_select v f t r :
  first_with_file f (sql_select_vendor v t) = Some r → r ∈ t ∧ at_key v f r.
Proof.
  unfold first_with_file. intros H%head_Some_elem_of.
  rewrite filter_file_select in H. apply list_elem_of_filter in H. tauto.
Qed.

Lemma first_with_file_exists f l r :
  first_with_file f l = Some r → file_exists f l = true.
Proof.
  unfold first_with_file, file_exists. intros H%head_Some_elem_of%list_elem_of_filter.
  apply bool_decide_eq_true, Exists_exists. exists r. tauto.
Qed.

Lemma file_exists_select v f t :
  file_exists f (sql_select_vendor v t) = true ↔ ∃ r, r ∈ t ∧ at_key v f r.
Proof.
  unfold file_exists. rewrite bool_decide_eq_true, Exists_exists.
  split; intros (r & Hr & Hf); exists r.
  - apply elem_of_sql_select_vendor in Hr as [? ?]. apply get_Some in Hf. by repeat split.
  - destruct Hf as [? ?]. split; [by apply elem_of_sql_select_vendor|by apply get_Some].
Qed.

Lemma elem_of_sql_select_pair_files v f t :
  f ∈ sql_select_pair_files v t
  ↔ (f = "Tier2" ∨ f = "6Months") ∧ ∃ r, r ∈ t ∧ at_key v f r.
Proof.
  unfold sql_select_pair_files. rewrite list_elem_of_fmap. split.
  - intros (r & -> & [[Hv Hf] Hr]%list_elem_of_filter).
    destruct Hf as [Hf|Hf]; unfold get; rewrite Hf; simpl;
      (split; [tauto|exists r; by repeat split]).
  - intros [Hf (r & Hr & Hv & Hk)]. exists r. split.
    + unfold get. by rewrite Hk.
    + apply list_elem_of_filter. split; [|done]. split; [done|].
      destruct Hf as [-> | ->]; tauto.
Qed.

Lemma dual_entry_pair_files v t :
  dual_entry v t = true →
  ¬ ("Tier2" ∉ sql_select_pair_files v t ∨ "6Months" ∉ sql_select_pair_files v t).
Proof.
  unfold dual_entry. intros [H2 H6]%andb_true_iff.
  apply file_exists_select in H2, H6.
  intros [H|H]; apply H, elem_of_sql_select_pair_files; tauto.
Qed.

Lemma unique_row v f t :
  sql_count v f t = 1 → ∃ r, filter (at_key v f) t = [r].
Proof.
  unfold sql_count. destruct (filter (at_key v f) t) as [|r [|r' l]]; try done. by exists r.
Qed.

Lemma unique_row_first v f t r :
  filter (at_key v f) t = [r] → first_with_file f (sql_select_vendor v t) = Some r.
Proof.
  intros H. unfold first_with_file.
  pose proof (filter_file_select v f t) as Hp. rewrite H in Hp.
  apply Permutation_singleton_r in Hp. by rewrite Hp.
Qed.

Lemma unique_row_eq v f t r r' :
  filter (at_key v f) t = [r] → r' ∈ t → at_key v f r' → r' = r.
Proof.
  intros H Hin Hk. assert (r' ∈ filter (at_key v f) t) as H' by by apply list_elem_of_filter.
  rewrite H in H'. by apply list_elem_of_singleton in H'.
Qed.

(** The rows of the table after the same assignments went to both keys of
    the pair. *)
Lemma elem_of_pair_updated v sets t r :
  sets !! FILE = None →
  r ∈ sql_update v "6Months" sets (sql_update v "Tier2" sets t) →
  (∃ r0, r0 ∈ t ∧ r = sets ∪ r0 ∧ r !! FILE = r0 !! FILE
         ∧ (at_key v "Tier2" r0 ∨ at_key v "6Months" r0))
  ∨ (r ∈ t ∧ ¬ at_key v "Tier2" r ∧ ¬ at_key v "6Months" r).
Proof.
  intros Hsets. unfold sql_update.
  intros (r1 & -> & (r0 & -> & Hr0)%list_elem_of_fmap)%list_elem_of_fmap.
  destruct (decide (at_key v "Tier2" r0)) as [H2|H2].
  - rewrite decide_False.
    + left. exists r0. rewrite lookup_union_r by done. tauto.
    + intros [_ HF]. rewrite lookup_union_r in HF by done. destruct H2. congruence.
  - case_decide as H6; [|tauto].
    left. exists r0. rewrite lookup_union_r by done. tauto.
Qed.

Lemma pair_updated_fields v sets t r f field x :
  sets !! FILE = None → in_pair f = true →
  r ∈ sql_update v "6Months" sets (sql_update v "Tier2" sets t) →
  at_key v f r → sets !! field = Some x → r !! field = Some x.
Proof.
  intros Hsets Hf Hr Hk Hx.
  destruct (elem_of_pair_updated v sets t r Hsets Hr)
    as [(r0 & _ & -> & _ & _)|(_ & H2 & H6)].
  - by apply lookup_union_Some_l.
  - apply in_pair_cases in Hf as [-> | ->]; tauto.
Qed.

Lemma unmismatched_rows_agree tier2_entry sixmonths_entry field :
  mismatches tier2_entry sixmonths_entry = ∅ → field ≠ FILE →
  agree field tier2_entry sixmonths_entry.
Proof.
  intros Hm Hf. unfold agree.
  destruct ((tier2_entry ∪ sixmonths_entry) !! field) as [y|] eqn:Hy.
  - apply dec_stable. intros Hne.
    eapply (map_filter_empty_not_lookup _ _ field y Hm); [|done]. simpl. by split.
  - apply lookup_union_None in Hy as [H2 H6]. unfold get. by rewrite H2, H6.
Qed.

(** The groups of [file_groups] carry FILE values of the grouped rows. *)
Lemma group_add_keys fv e g fv' es :
  (fv', es) ∈ group_add fv e g → fv' = fv ∨ ∃ es', (fv', es') ∈ g.
Proof.
  induction g as [|[k ks] g IH]; simpl.
  - intros H%list_elem_of_singleton. injection H as -> _. by left.
  - case_decide as Hk.
    + intros [E|H]%elem_of_cons.
      * injection E as -> _. right. exists ks. left.
      * right. exists es. by right.
    + intros [E|H]%elem_of_cons.
      * injection E as -> _. right. exists ks. left.
      * destruct (IH H) as [?|[es' ?]]; [by left|]. right. exists es'. by right.
Qed.

Lemma file_groups_keys l fv es :
  (fv, es) ∈ file_groups l → ∃ e, e ∈ l ∧ get e FILE = fv.
Proof.
  unfold file_groups.
  assert (∀ g, (fv, es) ∈ foldl (λ groups entry, group_add (get entry FILE) entry groups) g l →
               (∃ es', (fv, es') ∈ g) ∨ ∃ e, e ∈ l ∧ get e FILE = fv) as H.
  { induction l as [|x l IH]; simpl; intros g Hg; [left; eauto|].
    destruct (IH _ Hg) as [[es' H]|(e & He & Hf)].
    - apply group_add_keys in H as [->|H]; [|by left].
      right. exists x. split; [left|done].
    - right. exists e. split; [by right|done]. }
  intros Hg. destruct (H [] Hg) as [[es' H']|?]; [|done]. by apply elem_of_nil in H'.
Qed.

(** ** The invariant "the vendor has no Tier2 row" *)

Lemma no_tier2_count v t : no_tier2 v t ↔ sql_count v "Tier2" t = 0.
Proof.
  unfold no_tier2, sql_count. rewrite length_zero_iff_nil.
  induction t as [|r t IH]; [done|].
  rewrite Forall_cons, filter_cons. case_decide; [|tauto].
  split; [tauto|discriminate].
Qed.

Lemma no_tier2_delete v f t : no_tier2 v t → no_tier2 v (sql_delete v f t).
Proof.
  unfold no_tier2, sql_delete. rewrite !Forall_forall.
  intros H r [_ Hr]%list_elem_of_filter. by apply H.
Qed.

Lemma no_tier2_update v f sets t :
  sets !! FILE ≠ Some (Some "Tier2") →
  no_tier2 v t → no_tier2 v (sql_update v f sets t).
Proof.
  intros Hsets Ht. unfold no_tier2, sql_update. rewrite Forall_fmap.
  eapply Forall_impl; [exact Ht|]. intros r Hr. simpl.
  case_decide as Hk; [|done]. intros [_ HF]. apply Hr.
  destruct Hk as [HV _]. split; [done|].
  apply lookup_union_Some_raw in HF as [HF|[_ HF]]; [congruence|done].
Qed.

Lemma no_tier2_insert v row t :
  ¬ at_key v "Tier2" row → no_tier2 v t → no_tier2 v (sql_insert row t).
Proof. intros Hrow Ht. apply Forall_app. split; [done|]. by apply Forall_singleton. Qed.

Lemma no_tier2_dedup_loop v groups :
  (∀ fv es, (fv, es) ∈ groups → fv ≠ Some "Tier2") →
  inv (no_tier2 v) (dedup_loop v groups).
Proof.
  induction groups as [|[fv es] groups IH]; intros Hg; simpl; [apply inv_ret|].
  case_decide; [|apply IH; intros fv' es' H'; apply (Hg fv' es'); by right].
  apply inv_bind; [apply inv_execute_dml; intros t; apply no_tier2_delete|].
  intros []; simpl; [|apply inv_ret].
  apply inv_bind; [apply inv_sql_query|]. intros _.
  apply inv_bind; [apply inv_commit|]. intros _.
  apply inv_bind.
  - apply inv_execute_dml. intros t. apply no_tier2_insert.
    intros [_ HF]. unfold merge_group in HF.
    rewrite lookup_fmap, lookup_insert_eq in HF. simpl in HF.
    apply (Hg fv es); [left|]. apply sql_cell_is_tier2. congruence.
  - intros []; simpl; [|apply inv_ret].
    apply inv_bind; [apply inv_sql_query|]. intros n.
    case_decide; [apply inv_ret|].
    apply inv_bind; [apply inv_commit|]. intros _. apply inv_ret.
Qed.

Lemma no_tier2_duplicates v : inv (no_tier2 v) (_check_and_fix_duplicates v).
Proof.
  unfold _check_and_fix_duplicates, get_vendor_combinations.
  apply inv_try_except, inv_bind_query. intros t Ht.
  apply no_tier2_dedup_loop. intros fv es Hin ->.
  apply file_groups_keys in Hin as (e & [He Hv]%elem_of_sql_select_vendor & Hf).
  unfold no_tier2 in Ht. rewrite Forall_forall in Ht. apply (Ht e He).
  split; [done|]. by apply get_Some.
Qed.

Lemma no_tier2_missing_secondary v : inv (no_tier2 v) (_check_and_fix_missing_secondary v).
Proof.
  unfold _check_and_fix_missing_secondary.
  apply inv_try_except, inv_bind; [apply inv_sql_query|]. intros l.
  destruct (first_with_file "Tier2" l) as [tier2_entry|]; [|apply inv_ret].
  destruct (first_with_file "6Months" l); [apply inv_ret|].
  apply inv_execute_dml. intros t. apply no_tier2_insert.
  intros [_ HF]. rewrite lookup_fmap, lookup_insert_eq in HF. by vm_compute in HF.
Qed.

(** ** The methods that build UPDATE statements *)

Section Properties.

Variable parse_date : string → option string.
Variable normalize_email : string → string.

Lemma set_clauses_file updates : set_clauses parse_date updates !! FILE = None.
Proof.
  unfold set_clauses. rewrite map_lookup_imap.
  destruct (updates !! FILE); [|done]. simpl. unfold set_clause. by rewrite decide_True.
Qed.

Lemma set_clauses_absent updates k :
  updates !! k = None → set_clauses parse_date updates !! k = None.
Proof. intros H. unfold set_clauses. by rewrite map_lookup_imap, H. Qed.

Lemma set_clauses_plain updates field :
  field ≠ FILE → field ∉ date_fields →
  set_clauses parse_date updates !! field = sql_cell <$> updates !! field.
Proof.
  intros Hf Hd. unfold set_clauses. rewrite map_lookup_imap.
  destruct (updates !! field); [|done]. simpl. unfold set_clause.
  by rewrite !decide_False.
Qed.

Lemma update_single_vendor_calm v f updates t e :
  _update_single_vendor parse_date v f updates (mkStore t [] e)
  = (Ret true, mkStore (sql_update v f (set_clauses parse_date updates) t) [] e).
Proof.
  unfold _update_single_vendor. case_decide as Hu.
  - subst. unfold set_clauses. rewrite map_imap_empty, sql_update_empty. done.
  - case_decide as Hs; [by rewrite Hs, sql_update_empty|]. apply execute_dml_calm.
Qed.

Lemma update_dual_entry_vendor_calm v f updates t e :
  dual_entry v t = true →
  let sc := set_clauses parse_date updates in
  _update_dual_entry_vendor parse_date v f updates (mkStore t [] e)
  = (Ret true, mkStore (sql_update v "6Months" sc (sql_update v "Tier2" sc t)) [] e).
Proof.
  intros Hd sc. unfold _update_dual_entry_vendor. apply try_except_eq.
  erewrite bind_eq by apply sql_query_calm. cbv beta.
  rewrite decide_False by by apply dual_entry_pair_files.
  erewrite bind_eq by apply update_single_vendor_calm.
  apply update_single_vendor_calm.
Qed.

Lemma make_explicit_tier_change_calm v original_file new_file updates t e :
  let t' := sql_update v original_file
              (<[FILE := Some new_file]> (set_clauses parse_date updates)) t in
  _make_explicit_tier_change parse_date v original_file new_file updates (mkStore t [] e)
  = (Ret (bool_decide (sql_count v new_file t' ≠ 0)), mkStore t' [] e).
Proof.
  intros t'. unfold _make_explicit_tier_change.
  erewrite bind_eq by apply execute_dml_calm. cbn [negb]. fold t'.
  apply try_except_eq.
  erewrite bind_eq by apply sql_query_calm. cbv beta.
  case_decide as Hc.
  - erewrite bind_eq by apply sql_query_calm.
    by rewrite bool_decide_eq_false_2 by (rewrite Hc; auto).
  - by rewrite bool_decide_eq_true_2.
Qed.


(** The dispatch of [change_vendor_tier] between two different tiers of the
    pair. *)
Lemma change_vendor_tier_within v original_file new_file updates s :
  in_pair original_file = true → in_pair new_file = true → original_file ≠ new_file →
  change_vendor_tier parse_date normalize_email v original_file new_file updates s
  = bind (get_vendor_combinations v) (λ l,
      if file_exists "Tier2" l && file_exists "6Months" l
      then _change_within_dual_entry parse_date v original_file new_file (delete FILE updates)
      else if decide (new_file = "Tier2")
           then _change_to_tier2_with_dual_entry parse_date v original_file (delete FILE updates)
           else let* ok := _make_explicit_tier_change parse_date v original_file new_file
                             (delete FILE updates) in
                if negb ok then ret false else ret true) s.
Proof.
  intros Ho Hn Hne. unfold change_vendor_tier. case_decide as Hd.
  - unfold bind. destruct (get_vendor_combinations v s) as [[l|] s']; [|done].
    rewrite Ho. by destruct (_ && _).
  - rewrite Ho, Hn, bool_decide_eq_true_2 by done. simpl.
    unfold bind. destruct (get_vendor_combinations v s) as [[l|] s']; [|done]. done.
Qed.

Lemma wp_update_single_vendor v f updates Q s :
  (∀ s', (rows s' = sql_update v f (set_clauses parse_date updates) (rows s)
          ∨ rows s' = rows s) →
         last_error s' = last_error s → Q (Ret true) s') →
  (∀ s', rows s' = rows s → last_error s' = Some "UPDATE failed" → Q (Ret false) s') →
  wp (_update_single_vendor parse_date v f updates) Q s.
Proof.
  intros Hok Hfail. unfold _update_single_vendor.
  repeat case_decide; [apply wp_ret, Hok; auto..|].
  apply wp_execute_dml; auto.
Qed.

Lemma inv_update_single_vendor (P : list Dict → Prop) v f updates :
  (∀ t, P t → P (sql_update v f (set_clauses parse_date updates) t)) →
  inv P (_update_single_vendor parse_date v f updates).
Proof.
  intros HP s Hs. apply wp_update_single_vendor.
  - intros s' [-> | ->] _; auto.
  - by intros s' -> _.
Qed.

Lemma inv_update_dual_entry_vendor (P : list Dict → Prop) v f updates :
  (∀ f' t, P t → P (sql_update v f' (set_clauses parse_date updates) t)) →
  inv P (_update_dual_entry_vendor parse_date v f updates).
Proof.
  intros HP s Hs. unfold _update_dual_entry_vendor.
  assert (∀ f', inv P (_update_single_vendor parse_date v f' updates)) as Hone.
  { intros f'. apply inv_update_single_vendor. intros. by apply HP. }
  apply wp_try_except, wp_bind, wp_sql_query. intros s1 [E1 _].
  rewrite <- E1 in Hs. split; [|done].
  case_decide.
  - eapply wp_mono; [by apply Hone|]. by intros [].
  - apply wp_bind. eapply wp_mono; [by apply Hone|].
    intros [[]|] s2 H2; [|by apply wp_ret|done].
    eapply wp_mono; [by apply Hone|]. by intros [].
Qed.

Lemma inv_update_vendor (P : list Dict → Prop) v f updates :
  (∀ f' t, P t → P (sql_update v f' (set_clauses parse_date updates) t)) →
  inv P (update_vendor parse_date v f updates).
Proof.
  intros HP s Hs. unfold update_vendor.
  case_decide; [by apply wp_ret|].
  destruct (in_pair f).
  - by apply inv_update_dual_entry_vendor.
  - apply inv_update_single_vendor; [|done]. intros. by apply HP.
Qed.

(** ** The first statement that raises ends the method it happens in *)

Lemma wp_update_single_vendor_script v f updates Q s :
  (∀ s', last_error s' = last_error s → consumed s s' → Q (Ret true) s') →
  (∀ s', last_error s' = Some "UPDATE failed" → script s = Failed :: script s' →
         Q (Ret false) s') →
  wp (_update_single_vendor parse_date v f updates) Q s.
Proof.
  intros Hok Hfail. unfold _update_single_vendor.
  repeat case_decide; [apply wp_ret, Hok; [done|apply consumed_refl]..|].
  apply wp_execute_dml_script; auto.
Qed.

(** The two ways a step can end inside a method that started from [s0]. *)
Lemma aborts_ok s0 s (r : result bool) :
  last_error s = None → consumed s0 s → aborts_at_failure s0 r s.
Proof. intros; by left. Qed.

Lemma aborts_failed s0 s s' x :
  consumed s0 s → last_error s' = Some x → script s = Failed :: script s' →
  aborts_at_failure s0 (Ret false) s'.
Proof.
  intros Hc He Hs. right. split; [done|]. split; [by rewrite He|].
  by apply (consumed_failure s0 s).
Qed.

Lemma make_explicit_tier_change_aborts v original_file new_file updates s0 s :
  last_error s = None → consumed s0 s →
  wp (_make_explicit_tier_change parse_date v original_file new_file updates)
    (aborts_at_failure s0) s.
Proof.
  intros He Hc. unfold _make_explicit_tier_change.
  apply wp_bind, wp_execute_dml_script.
  - intros s1 E1 C1. simpl. apply wp_try_except, wp_bind, wp_sql_query_script.
    intros s2 [_ E2] C2.
    assert (consumed s0 s2) as C02 by eauto using consumed_trans.
    split; [|apply aborts_ok; [congruence|done]].
    case_decide; [|apply wp_ret, aborts_ok; [congruence|done]].
    apply wp_bind, wp_sql_query_script. intros s3 [_ E3] C3.
    split; [apply wp_ret|]; (apply aborts_ok; [congruence|eauto using consumed_trans]).
  - intros s1 E1 S1. simpl. apply wp_ret. by eapply aborts_failed.
Qed.

Lemma change_within_dual_entry_aborts v original_file new_file updates s0 s :
  last_error s = None → consumed s0 s →
  wp (_change_within_dual_entry parse_date v original_file new_file updates)
    (aborts_at_failure s0) s.
Proof.
  intros He Hc. unfold _change_within_dual_entry.
  apply wp_try_except, wp_bind, wp_sql_query_script. intros s1 [_ E1] C1.
  assert (consumed s0 s1) as C01 by eauto using consumed_trans.
  split; [|apply aborts_ok; [congruence|done]].
  assert (wp (_make_explicit_tier_change parse_date v original_file new_file updates)
            (λ r s', match r with
                     | Ret a => aborts_at_failure s0 (Ret a) s'
                     | Exc => aborts_at_failure s0 (Ret false) s'
                     end) s1)
    as Hfall.
  { eapply wp_mono; [apply make_explicit_tier_change_aborts; [congruence|done]|].
    intros [a|] s' H; [done|].
    destruct H as [?|(? & ?)]; [by left|done]. }
  destruct (first_with_file "Tier2" _) as [tier2_entry|]; [|done].
  destruct (first_with_file "6Months" _) as [sixmonths_entry|]; [|done].
  apply wp_bind, wp_execute_dml_script;
    [|intros s2 E2 S2; simpl; apply wp_ret; by eapply aborts_failed].
  intros s2 E2 C2. simpl.
  assert (consumed s0 s2) as C02 by eauto using consumed_trans.
  apply wp_bind, wp_sql_query_script. intros s3 [_ E3] C3.
  assert (consumed s0 s3) as C03 by eauto using consumed_trans.
  split; [|apply aborts_ok; [congruence|done]].
  case_decide; [apply wp_ret, aborts_ok; [congruence|done]|].
  apply wp_bind, wp_commit_script. intros s4 [_ E4] C4.
  assert (consumed s0 s4) as C04 by eauto using consumed_trans.
  apply wp_bind, wp_update_single_vendor_script;
    [|intros s5 E5 S5; simpl; apply wp_ret; by eapply aborts_failed].
  intros s5 E5 C5. simpl.
  assert (consumed s0 s5) as C05 by eauto using consumed_trans.
  apply wp_bind, wp_sql_query_script. intros s6 [_ E6] C6.
  assert (consumed s0 s6) as C06 by eauto using consumed_trans.
  split; [|apply aborts_ok; [congruence|done]].
  case_decide; [apply wp_ret, aborts_ok; [congruence|done]|].
  apply wp_bind, wp_commit_script. intros s7 [_ E7] C7.
  apply wp_ret, aborts_ok; [congruence|eauto using consumed_trans].
Qed.

Lemma change_to_tier2_aborts v original_file updates s0 s :
  last_error s = None → consumed s0 s →
  wp (_change_to_tier2_with_dual_entry parse_date v original_file updates)
    (aborts_at_failure s0) s.
Proof.
  intros He Hc. unfold _change_to_tier2_with_dual_entry.
  apply wp_try_except, wp_bind, wp_sql_query_script. intros s1 [_ E1] C1.
  assert (consumed s0 s1) as C01 by eauto using consumed_trans.
  split; [|apply aborts_ok; [congruence|done]].
  apply wp_bind, wp_sql_query_script. intros s2 [_ E2] C2.
  assert (consumed s0 s2) as C02 by eauto using consumed_trans.
  split; [|apply aborts_ok; [congruence|done]].
  destruct (head _) as [current|]; [|apply wp_ret, aborts_ok; [congruence|done]].
  cbv zeta. unfold create_dual_entry_data.
  destruct (file_exists "6Months" _).
  - apply wp_bind, wp_update_single_vendor_script;
      [|intros s3 E3 S3; simpl; apply wp_ret; by eapply aborts_failed].
    intros s3 E3 C3. simpl.
    assert (consumed s0 s3) as C03 by eauto using consumed_trans.
    apply wp_bind, (wp_execute_dml_script _ "INSERT");
      [|intros s4 E4 S4; simpl; apply wp_ret; by eapply aborts_failed].
    intros s4 E4 C4. simpl.
    assert (consumed s0 s4) as C04 by eauto using consumed_trans.
    apply wp_bind. case_decide.
    + apply wp_execute_dml_script;
        [|intros s5 E5 S5; simpl; apply wp_ret; by eapply aborts_failed].
      intros s5 E5 C5. simpl.
      assert (consumed s0 s5) as C05 by eauto using consumed_trans.
      apply wp_bind, wp_commit_script. intros s6 [_ E6] C6.
      apply wp_ret, aborts_ok; [congruence|eauto using consumed_trans].
    + apply wp_ret. simpl. apply wp_bind, wp_commit_script. intros s6 [_ E6] C6.
      apply wp_ret, aborts_ok; [congruence|eauto using consumed_trans].
  - apply wp_bind, (wp_execute_dml_script _ "INSERT").
    + intros s3 E3 C3.
      assert (consumed s0 s3) as C03 by eauto using consumed_trans.
      apply wp_bind, (wp_execute_dml_script _ "INSERT");
        [|intros s4 E4 S4; simpl; apply wp_ret; by eapply aborts_failed].
      intros s4 E4 C4. simpl.
      assert (consumed s0 s4) as C04 by eauto using consumed_trans.
      apply wp_bind, wp_execute_dml_script;
        [|intros s5 E5 S5; simpl; apply wp_ret; by eapply aborts_failed].
      intros s5 E5 C5. simpl.
      assert (consumed s0 s5) as C05 by eauto using consumed_trans.
      apply wp_bind, wp_commit_script. intros s6 [_ E6] C6.
      apply wp_ret, aborts_ok; [congruence|eauto using consumed_trans].
    + intros s3 E3 S3. apply wp_bind, wp_ret. simpl. apply wp_ret.
      by eapply aborts_failed.
Qed.

(** The special paths of [change_vendor_tier]. *)
Lemma special_path_aborts v original_file new_file updates s :
  last_error s = None → special_path original_file new_file →
  wp (change_vendor_tier parse_date normalize_email v original_file new_file updates)
    (aborts_at_failure s) s.
Proof.
  intros Hs Hsp.
  assert (∀ s1, same_data s s1 → consumed s s1 →
            wp (_change_within_dual_entry parse_date v original_file new_file
                  (delete FILE updates)) (aborts_at_failure s) s1) as Hwithin.
  { intros s1 [_ E1] C1. apply change_within_dual_entry_aborts; [by rewrite E1|done]. }
  unfold change_vendor_tier. case_decide as Hd.
  - apply wp_bind, wp_sql_query_script. intros s1 H1 C1.
    split; [|apply aborts_ok; [by destruct H1 as [_ ->]|done]].
    destruct (_ && _).
    + destruct (in_pair original_file); by apply Hwithin.
    + apply change_to_tier2_aborts; [by destruct H1 as [_ ->]|done].
  - destruct Hsp as [?|(Ho & Hn & Hne)]; [done|].
    rewrite Ho, Hn, bool_decide_eq_true_2 by done. simpl.
    apply wp_bind, wp_sql_query_script. intros s1 H1 C1.
    split; [|apply aborts_ok; [by destruct H1 as [_ ->]|done]].
    destruct (_ && _); [by apply Hwithin|].
    apply wp_bind. eapply wp_mono.
    { apply make_explicit_tier_change_aborts; [by destruct H1 as [_ ->]|exact C1]. }
    intros [[]|] s2 H2; simpl; [apply wp_ret| |].
    + destruct H2 as [?|(? & ?)]; [by left|done].
    + by apply wp_ret.
    + destruct H2 as [[H2 C2]|(? & ?)]; [|done]. by left.
Qed.

(** ** No method but the change towards Tier2 makes a Tier2 row *)

Lemma no_tier2_update_single v f updates :
  inv (no_tier2 v) (_update_single_vendor parse_date v f updates).
Proof.
  apply inv_update_single_vendor. intros t. apply no_tier2_update.
  by rewrite set_clauses_file.
Qed.

Lemma no_tier2_update_dual v f updates :
  inv (no_tier2 v) (_update_dual_entry_vendor parse_date v f updates).
Proof.
  apply inv_update_dual_entry_vendor. intros f' t. apply no_tier2_update.
  by rewrite set_clauses_file.
Qed.

Lemma no_tier2_update_vendor v f updates :
  inv (no_tier2 v) (update_vendor parse_date v f updates).
Proof.
  apply inv_update_vendor. intros f' t. apply no_tier2_update.
  by rewrite set_clauses_file.
Qed.

Lemma no_tier2_make_explicit v original_file new_file updates :
  new_file ≠ "Tier2" →
  inv (no_tier2 v) (_make_explicit_tier_change parse_date v original_file new_file updates).
Proof.
  intros Hnew. unfold _make_explicit_tier_change. apply inv_bind.
  - apply inv_execute_dml. intros t. apply no_tier2_update.
    rewrite lookup_insert_eq. congruence.
  - intros []; simpl; [|apply inv_ret].
    apply inv_try_except, inv_bind; [apply inv_sql_query|].
    intros n. case_decide; [|apply inv_ret].
    apply inv_bind; [apply inv_sql_query|]. intros _. apply inv_ret.
Qed.

Lemma no_tier2_within v original_file new_file updates :
  new_file ≠ "Tier2" →
  inv (no_tier2 v) (_change_within_dual_entry parse_date v original_file new_file updates).
Proof.
  intros Hnew. unfold _change_within_dual_entry.
  apply inv_try_except, inv_bind; [apply inv_sql_query|]. intros l.
  destruct (first_with_file "Tier2" l); [|by apply no_tier2_make_explicit].
  destruct (first_with_file "6Months" l); [|by apply no_tier2_make_explicit].
  apply inv_bind; [apply inv_execute_dml; intros t; apply no_tier2_delete|].
  intros []; simpl; [|apply inv_ret].
  apply inv_bind; [apply inv_sql_query|]. intros n.
  case_decide; [apply inv_ret|].
  apply inv_bind; [apply inv_commit|]. intros _.
  apply inv_bind; [apply no_tier2_update_single|].
  intros []; simpl; [|apply inv_ret].
  apply inv_bind; [apply inv_sql_query|]. intros n'.
  case_decide; [apply inv_ret|].
  apply inv_bind; [apply inv_commit|]. intros _. apply inv_ret.
Qed.

Lemma no_tier2_unsynced v :
  inv (no_tier2 v) (_check_and_fix_unsynced_dual parse_date normalize_email v).
Proof.
  unfold _check_and_fix_unsynced_dual.
  apply inv_try_except, inv_bind; [apply inv_sql_query|]. intros l.
  destruct (first_with_file "Tier2" l); [|apply inv_ret].
  destruct (first_with_file "6Months" l); [|apply inv_ret].
  case_decide; [apply no_tier2_update_dual|apply inv_ret].
Qed.

Lemma no_tier2_change_vendor_tier v original_file new_file updates :
  new_file ≠ "Tier2" →
  inv (no_tier2 v)
    (change_vendor_tier parse_date normalize_email v original_file new_file updates).
Proof.
  intros Hnew. unfold change_vendor_tier. rewrite decide_False by done.
  destruct (in_pair original_file && in_pair new_file && bool_decide (original_file ≠ new_file)).
  - apply inv_bind; [apply inv_sql_query|]. intros l.
    destruct (_ && _); [by apply no_tier2_within|].
    apply inv_bind; [by apply no_tier2_make_explicit|].
    intros []; apply inv_ret.
  - apply inv_bind; [by apply no_tier2_make_explicit|].
    intros []; simpl; [|apply inv_ret].
    apply inv_bind.
    { destruct (_ && _); [|apply inv_ret].
      apply inv_execute_dml. intros t. apply no_tier2_delete. }
    intros _. apply inv_bind; [apply no_tier2_duplicates|]. intros _.
    apply inv_bind; [apply no_tier2_unsynced|]. intros _. apply inv_ret.
Qed.

(** ** The assignments of a resync *)

Lemma sync_updates_is_Some tier2_entry sixmonths_entry field :
  field ≠ FILE → field ≠ VENDOR_NUMBER →
  is_Some ((tier2_entry ∪ sixmonths_entry) !! field) →
  is_Some (sync_updates normalize_email tier2_entry sixmonths_entry !! field).
Proof.
  intros Hf Hv [y Hy].
  assert (is_Some (normalize_emails normalize_email
                     (sync_merge tier2_entry sixmonths_entry) !! field)) as [z Hz].
  { unfold normalize_emails, sync_merge. rewrite !map_lookup_imap, Hy. simpl.
    rewrite decide_False by done. repeat case_decide; simpl; repeat case_match; eauto. }
  exists z. unfold sync_updates. apply map_lookup_filter_Some. split; [done|].
  simpl. rewrite !elem_of_cons, elem_of_nil. tauto.
Qed.

(** Two rows of one vendor that received the assignments of a resync hold
    the same value in every column that is not a date. *)
Lemma synced_rows_agree v tier2_entry sixmonths_entry field :
  at_key v "Tier2" tier2_entry → at_key v "6Months" sixmonths_entry →
  field ≠ FILE → field ∉ date_fields →
  let sc := set_clauses parse_date (sync_updates normalize_email tier2_entry sixmonths_entry) in
  get (sc ∪ tier2_entry) field = get (sc ∪ sixmonths_entry) field.
Proof.
  intros [Hv2 _] [Hv6 _] Hf Hd sc. unfold get.
  destruct (sc !! field) as [x|] eqn:Hsc.
  { by rewrite !(lookup_union_Some_l _ _ _ _ Hsc). }
  rewrite !lookup_union_r by done.
  destruct (decide (field = VENDOR_NUMBER)) as [->|Hv]; [by rewrite Hv2, Hv6|].
  destruct ((tier2_entry ∪ sixmonths_entry) !! field) as [y|] eqn:Hy.
  - destruct (sync_updates_is_Some tier2_entry sixmonths_entry field Hf Hv) as [z Hz]; [eauto|].
    subst sc. rewrite set_clauses_plain, Hz in Hsc by done. done.
  - apply lookup_union_None in Hy as [-> ->]. done.
Qed.

(** ** The pair after a resync *)

Lemma sync_updates_keys tier2_entry sixmonths_entry :
  sync_updates normalize_email tier2_entry sixmonths_entry !! FILE = None
  ∧ sync_updates normalize_email tier2_entry sixmonths_entry !! VENDOR_NUMBER = None.
Proof.
  unfold sync_updates. split; apply map_lookup_filter_None; right; intros x _ H;
    apply H; simpl; set_solver.
Qed.

(** The date that a resync writes is the one of either row. *)
Lemma sync_updates_date tier2_entry sixmonths_entry field z :
  field ∈ date_fields →
  sync_updates normalize_email tier2_entry sixmonths_entry !! field = Some z →
  z = get tier2_entry field ∨ z = get sixmonths_entry field.
Proof.
  intros Hd [Hz _]%map_lookup_filter_Some.
  assert (field ∉ email_fields) as He.
  { unfold date_fields in Hd. rewrite !elem_of_cons, elem_of_nil in Hd.
    destruct Hd as [-> | [-> | []]]; apply (bool_decide_unpack _); by vm_compute. }
  unfold normalize_emails, sync_merge in Hz. rewrite !map_lookup_imap in Hz.
  destruct ((tier2_entry ∪ sixmonths_entry) !! field); [|done]. simpl in Hz.
  repeat (case_decide; simpl in Hz); try done;
    injection Hz as <-; unfold prefer_tier2; repeat case_match; auto.
Qed.

(** Two rows of one vendor that received the assignments of a resync. *)
Lemma resynced_rows_agree v tier2_entry sixmonths_entry field :
  at_key v "Tier2" tier2_entry → at_key v "6Months" sixmonths_entry →
  field ≠ FILE →
  let sc := set_clauses parse_date (sync_updates normalize_email tier2_entry sixmonths_entry) in
  (field ∈ date_fields →
     not_skipped parse_date field (sc ∪ tier2_entry)
     ∧ not_skipped parse_date field (sc ∪ sixmonths_entry)) →
  agree field (sc ∪ tier2_entry) (sc ∪ sixmonths_entry).
Proof.
  intros H2 H6 Hf sc Hdate. unfold agree.
  destruct (decide (field ∈ date_fields)) as [Hd|Hd];
    [|do 2 f_equal; by eapply synced_rows_agree].
  unfold get. destruct (sc !! field) as [x|] eqn:Hsc.
  { by rewrite !(lookup_union_Some_l _ _ _ _ Hsc). }
  rewrite !lookup_union_r by done.
  destruct (sync_updates normalize_email tier2_entry sixmonths_entry !! field)
    as [z|] eqn:Hz.
  - exfalso. destruct (Hdate Hd) as [[y2 N2] [y6 N6]].
    unfold get in N2, N6. rewrite !lookup_union_r in N2, N6 by done.
    subst sc. unfold set_clauses in Hsc. rewrite map_lookup_imap, Hz in Hsc.
    simpl in Hsc.
    destruct (sync_updates_date _ _ _ _ Hd Hz) as [-> | ->]; unfold get in Hsc; congruence.
  - assert (¬ is_Some ((tier2_entry ∪ sixmonths_entry) !! field)) as Hnone.
    { intros Hs. assert (field ≠ VENDOR_NUMBER) as Hv.
      { intros ->. revert Hd. apply (bool_decide_unpack _). by vm_compute. }
      assert (is_Some (sync_updates normalize_email tier2_entry sixmonths_entry !! field))
        as [z' Hz'] by (by eapply sync_updates_is_Some).
      congruence. }
    rewrite <- eq_None_not_Some in Hnone. apply lookup_union_None in Hnone as [E2 E6].
    by rewrite E2, E6.
Qed.

(** ResyncDualPair on a store whose calls all run. *)
Lemma resync_calm v t e :
  ∃ t', _check_and_fix_unsynced_dual parse_date normalize_email v (mkStore t [] e)
        = (Ret true, mkStore t' [] e)
      ∧ (∀ f, sql_count v f t' = sql_count v f t)
      ∧ (sql_count v "Tier2" t = 1 → sql_count v "6Months" t = 1 →
         pair_in_sync parse_date v t').
Proof.
  unfold _check_and_fix_unsynced_dual, get_vendor_combinations.
  destruct (first_with_file "Tier2" (sql_select_vendor v t)) as [tier2_entry|] eqn:H2;
    [destruct (first_with_file "6Months" (sql_select_vendor v t))
       as [sixmonths_entry|] eqn:H6|].
  - destruct (first_with_file_select _ _ _ _ H2) as [I2 K2].
    destruct (first_with_file_select _ _ _ _ H6) as [I6 K6].
    destruct (decide (mismatches tier2_entry sixmonths_entry ≠ ∅)) as [Hm|Hm].
    + set (sc := set_clauses parse_date
                   (sync_updates normalize_email tier2_entry sixmonths_entry)).
      destruct (sync_updates_keys tier2_entry sixmonths_entry) as [SF SV].
      assert (sc !! FILE = None) as HscF by by apply set_clauses_absent.
      assert (sc !! VENDOR_NUMBER = None) as HscV by by apply set_clauses_absent.
      exists (sql_update v "6Months" sc (sql_update v "Tier2" sc t)).
      split; [|split].
      * apply try_except_eq. erewrite bind_eq by apply sql_query_calm.
        rewrite H2, H6, decide_True by done.
        apply update_dual_entry_vendor_calm. unfold dual_entry.
        by rewrite (first_with_file_exists _ _ _ H2), (first_with_file_exists _ _ _ H6).
      * intros f. by rewrite !sql_count_update.
      * intros [r2' F2]%unique_row [r6' F6]%unique_row.
        intros r2 r6 field Hr2 Hk2 Hr6 Hk6 Hf Hd.
        destruct (elem_of_pair_updated v sc t r2 HscF Hr2)
          as [(a & Ha & -> & HFa & Hka)|(_ & N2 & _)]; [|done].
        destruct (elem_of_pair_updated v sc t r6 HscF Hr6)
          as [(b & Hb & -> & HFb & Hkb)|(_ & _ & N6)]; [|done].
        assert (a = tier2_entry) as ->.
        { rewrite (unique_row_eq v "Tier2" t r2' tier2_entry F2 I2 K2).
          apply (unique_row_eq v "Tier2" t); [done..|].
          destruct Hka as [?|[Hva HF]]; [done|]. destruct Hk2 as [_ HF2]. congruence. }
        assert (b = sixmonths_entry) as ->.
        { rewrite (unique_row_eq v "6Months" t r6' sixmonths_entry F6 I6 K6).
          apply (unique_row_eq v "6Months" t); [done..|].
          destruct Hkb as [[Hvb HF]|?]; [|done]. destruct Hk6 as [_ HF6]. congruence. }
        by apply (resynced_rows_agree v).
    + exists t. split; [|split; [done|]].
      * apply try_except_eq. erewrite bind_eq by apply sql_query_calm.
        by rewrite H2, H6, decide_False.
      * intros [r2' F2]%unique_row [r6' F6]%unique_row.
        intros r2 r6 field Hr2 Hk2 Hr6 Hk6 Hf Hd.
        rewrite (unique_row_eq _ _ _ _ _ F2 Hr2 Hk2), (unique_row_eq _ _ _ _ _ F6 Hr6 Hk6).
        rewrite <- (unique_row_eq _ _ _ _ _ F2 I2 K2), <- (unique_row_eq _ _ _ _ _ F6 I6 K6).
        apply unmismatched_rows_agree; [|done]. by apply dec_stable.
  - exists t. split; [|split; [done|]].
    + apply try_except_eq. erewrite bind_eq by apply sql_query_calm. by rewrite H2, H6.
    + intros _ [r6' F6]%unique_row.
      apply unique_row_first in F6. congruence.
  - exists t. split; [|split; [done|]].
    + apply try_except_eq. erewrite bind_eq by apply sql_query_calm. by rewrite H2.
    + intros [r2' F2]%unique_row. apply unique_row_first in F2. congruence.
Qed.

(** A successful tier change by the regular path ends with a resync. *)
Lemma regular_path_ends_with_resync v original_file new_file updates t e :
  ¬ special_path original_file new_file →
  let r := change_vendor_tier parse_date normalize_email v original_file new_file updates
             (mkStore t [] e) in
  r.1 = Ret true →
  ∃ t3, rows r.2
        = rows (_check_and_fix_unsynced_dual parse_date normalize_email v
                  (mkStore t3 [] e)).2.
Proof.
  intros Hsp r. subst r. unfold change_vendor_tier.
  rewrite decide_False by (intros ?; apply Hsp; by left).
  destruct (in_pair original_file && in_pair new_file
            && bool_decide (original_file ≠ new_file)) eqn:Hb.
  { exfalso. apply Hsp. right.
    apply andb_true_iff in Hb as [[? ?]%andb_true_iff ?%bool_decide_eq_true]. done. }
  erewrite bind_eq by apply make_explicit_tier_change_calm.
  clear Hb. set (t1 := sql_update _ _ _ _).
  destruct (bool_decide (sql_count v new_file t1 ≠ 0)); cbn [negb];
    [|unfold ret; simpl; intros [=]].
  assert (∃ t2, (if in_pair original_file && negb (in_pair new_file)
                 then _delete_orphaned_secondary v
                        (if decide (original_file = "Tier2") then "6Months" else "Tier2")
                 else ret true) (mkStore t1 [] e) = (Ret true, mkStore t2 [] e))
    as [t2 E2].
  { destruct (in_pair original_file && negb (in_pair new_file)); eexists; reflexivity. }
  erewrite bind_eq by exact E2.
  destruct (quiet_duplicates v t2 e) as (r3 & t3 & E3).
  destruct r3 as [b|]; [|unfold bind at 1; by rewrite E3].
  rewrite (bind_eq _ _ _ _ _ E3). intros _. exists t3. unfold bind.
  by destruct (_check_and_fix_unsynced_dual _ _ _ _) as [[?|] ?].
Qed.

Lemma regular_change_leaves_pair_in_sync v original_file new_file updates t e :
  ¬ special_path original_file new_file →
  let r := change_vendor_tier parse_date normalize_email v original_file new_file updates
             (mkStore t [] e) in
  r.1 = Ret true →
  sql_count v "Tier2" (rows r.2) = 1 → sql_count v "6Months" (rows r.2) = 1 →
  pair_in_sync parse_date v (rows r.2).
Proof.
  intros Hsp r Hr.
  destruct (regular_path_ends_with_resync v original_file new_file updates t e Hsp Hr)
    as [t3 E]. fold r in E. rewrite E.
  destruct (resync_calm v t3 e) as (t' & -> & Hc & Hsync). simpl.
  rewrite !Hc. apply Hsync.
Qed.

(** ** The claims *)

(** C1 (the code departs from the claim). The claim: a successful
    ChangeTier that starts from a duplicate-free table leaves at most one row
    per key. The dual-entry creation path reads [tier2_exists] and never uses
    it: for a vendor that holds a 3Months row and a Tier2 row without its
    6Months partner, ChangeTier(3Months -> Tier2) inserts a second Tier2
    row, returns success, and the table then holds the key (1001, Tier2)
    twice. *)
Theorem c1_change_to_tier2_duplicates_tier2 :
  no_true_duplicates tier2_without_partner ∧
  ∃ s', change_vendor_tier parse_date normalize_email "1001" "3Months" "Tier2" ∅
          (calm tier2_without_partner) = (Ret true, s')
        ∧ sql_count "1001" "Tier2" (rows s') = 2
        ∧ ¬ no_true_duplicates (rows s').
Proof.
  split; [apply (bool_decide_unpack _); vm_compute; exact I|].
  eexists. split; [vm_compute; reflexivity|].
  split; [vm_compute; reflexivity|].
  apply (bool_decide_unpack _); vm_compute; exact I.
Qed.



(** C5, as amended. A ChangeTier between two different tiers of the pair
    whose target is not Tier2, for a vendor that does not hold both rows,
    is the plain UPDATE of the rows at the original key and nothing else: no
    row is inserted or deleted, and the call succeeds exactly when a row is
    then found at the new key. And whatever the storage does, no operation
    on a vendor other than a ChangeTier towards Tier2 gives a vendor without
    a Tier2 row a Tier2 row. *)
Theorem c5_pair_created_only_towards_tier2 v :
  (∀ original_file new_file updates t e,
     in_pair original_file = true → in_pair new_file = true →
     original_file ≠ new_file → new_file ≠ "Tier2" → dual_entry v t = false →
     let t' := sql_update v original_file
                 (<[FILE := Some new_file]> (set_clauses parse_date (delete FILE updates))) t in
     change_vendor_tier parse_date normalize_email v original_file new_file updates
       (mkStore t [] e)
     = (Ret (bool_decide (sql_count v new_file t' ≠ 0)), mkStore t' [] e))
  ∧ (∀ op s,
       (∀ original_file updates, op ≠ ChangeTier original_file "Tier2" updates) →
       sql_count v "Tier2" (rows s) = 0 →
       sql_count v "Tier2" (rows (run parse_date normalize_email v op s).2) = 0).
Proof.
  split.
  - intros original_file new_file updates t e Ho Hn Hne Hnew Hdual t'.
    rewrite change_vendor_tier_within by done. unfold get_vendor_combinations.
    erewrite bind_eq by apply sql_query_calm. cbv beta.
    unfold dual_entry in Hdual. rewrite Hdual. rewrite decide_False by done.
    erewrite bind_eq by apply make_explicit_tier_change_calm. fold t'.
    by destruct (bool_decide _).
  - intros op s Hop Hs. apply no_tier2_count. apply no_tier2_count in Hs.
    revert s Hs. change (inv (no_tier2 v) (run parse_date normalize_email v op)).
    destruct op as [tier u|o n u| | |]; simpl.
    + apply no_tier2_update_vendor.
    + apply no_tier2_change_vendor_tier. intros ->. by apply (Hop o u).
    + apply no_tier2_duplicates.
    + apply no_tier2_unsynced.
    + apply no_tier2_missing_secondary.
Qed.

(** C6 (the code departs from the claim). The claim: ChangeTier(Tier2 ->
    3Months) on a dual entry merges both rows into the one 3Months row. The
    regular path rewrites the Tier2 row in place and deletes the 6Months
    sibling without reading it: for a pair in which only the 6Months row
    holds the vendor's name, the surviving row has no name, where the merge
    rule of the pair gives "Bob". *)
Theorem c6_sibling_deleted_unmerged :
  change_vendor_tier parse_date normalize_email "1004" "Tier2" "3Months" ∅
    (calm unsynced_pair)
  = (Ret true, calm [row "1004" "3Months" [("Vendor Name", None)]])
  ∧ merge_dual (row "1004" "Tier2" [("Vendor Name", None)])
               (row "1004" "6Months" [("Vendor Name", Some "Bob")]) !! "Vendor Name"
    = Some (Some "Bob").
Proof. vm_compute. done. Qed.

(** C7, as amended. For a vendor that holds both rows of the pair, on a
    store whose calls all run: an ApplyFieldUpdate addressed at either row
    writes the same assignments into both rows, so that the two rows hold
    the same value in every assigned column; when each tier of the pair is
    held once, ResyncDualPair keeps it so and afterwards the two rows agree
    on every column other than FILE, as the resync compares them (NULL and
    empty are one, surrounding blanks are ignored), a date column counting
    when the UPDATE builder skips the date of neither row; and the same
    holds after every successful ChangeTier served by the regular path,
    which ends with ResyncDualPair, when the vendor then holds each tier of
    the pair once. *)
Theorem c7_pair_written_together v t e :
  dual_entry v t = true →
  (∀ f updates, in_pair f = true →
     let sc := set_clauses parse_date updates in
     let t' := sql_update v "6Months" sc (sql_update v "Tier2" sc t) in
     update_vendor parse_date v f updates (mkStore t [] e) = (Ret true, mkStore t' [] e)
     ∧ ∀ r2 r6 field x,
         r2 ∈ t' → at_key v "Tier2" r2 → r6 ∈ t' → at_key v "6Months" r6 →
         sc !! field = Some x → r2 !! field = Some x ∧ r6 !! field = Some x)
  ∧ (sql_count v "Tier2" t = 1 → sql_count v "6Months" t = 1 →
     ∃ t', _check_and_fix_unsynced_dual parse_date normalize_email v (mkStore t [] e)
           = (Ret true, mkStore t' [] e)
         ∧ sql_count v "Tier2" t' = 1 ∧ sql_count v "6Months" t' = 1
         ∧ pair_in_sync parse_date v t')
  ∧ (∀ original_file new_file updates,
       ¬ special_path original_file new_file →
       let r := change_vendor_tier parse_date normalize_email v original_file new_file
                  updates (mkStore t [] e) in
       r.1 = Ret true →
       sql_count v "Tier2" (rows r.2) = 1 → sql_count v "6Months" (rows r.2) = 1 →
       pair_in_sync parse_date v (rows r.2)).
Proof.
  intros Hdual. split; [|split].
  - intros f updates Hf sc t'. split.
    + unfold update_vendor. case_decide as Hu.
      * subst. subst t' sc. unfold set_clauses.
        by rewrite map_imap_empty, !sql_update_empty.
      * rewrite Hf. by apply update_dual_entry_vendor_calm.
    + intros r2 r6 field x Hr2 Hk2 Hr6 Hk6 Hx. split.
      * eapply (pair_updated_fields v sc t r2 "Tier2"); eauto using set_clauses_file.
      * eapply (pair_updated_fields v sc t r6 "6Months"); eauto using set_clauses_file.
  - intros H2 H6. destruct (resync_calm v t e) as (t' & E & Hc & Hsync).
    exists t'. split; [exact E|]. rewrite !Hc. auto.
  - intros original_file new_file updates Hsp r Hr.
    by apply regular_change_leaves_pair_in_sync.
Qed.

(** C9, as amended. In a ChangeTier call that starts with no error recorded,
    a DML statement that raises inside the dual-entry creation path or the
    intra-pair swap (the error being recorded in [last_error]) makes the call
    return failure, and the statement that raised is the last call the method
    makes to the storage: the script is read up to that [Failed] outcome and
    no further, whatever it holds afterwards, so no statement, query or commit
    follows the failure and the table stays as the statements before it left
    it. On the regular path the same holds of the explicit change when its
    UPDATE raises, and whenever the explicit change returns failure (a raised
    statement or no row found at the new key) the call returns failure at
    once, with the store as the explicit change left it; when the UPDATE does
    not raise and the query that reads the row back raises, the explicit
    change returns [True] and records no error. *)
Theorem c9_primary_failure_reported v original_file new_file updates s :
  last_error s = None →
  let r := change_vendor_tier parse_date normalize_email v original_file new_file updates s in
  let x := _make_explicit_tier_change parse_date v original_file new_file
             (delete FILE updates) s in
  (special_path original_file new_file → is_Some (last_error r.2) →
     r.1 = Ret false ∧ ends_at_failure s r.2)
  ∧ (¬ special_path original_file new_file →
       (is_Some (last_error x.2) → x.1 = Ret false ∧ ends_at_failure s x.2)
       ∧ (x.1 = Ret false → r = x))
  ∧ (∀ update commit_outcome rest,
       update ≠ Failed → script s = update :: commit_outcome :: Failed :: rest →
       x.1 = Ret true ∧ last_error x.2 = None ∧ script x.2 = rest).
Proof.
  intros Hs r x. split; [|split]; [| |shelve].
  - intros Hsp Hsome.
    destruct (special_path_aborts v original_file new_file updates s Hs Hsp)
      as [[Hnone _]|(Hr & _ & Hend)]; [|done].
    fold r in Hnone. rewrite Hnone in Hsome. by destruct Hsome.
  - intros Hsp. split.
    + intros Hsome.
      destruct (make_explicit_tier_change_aborts v original_file new_file
                  (delete FILE updates) s s Hs (consumed_refl s))
        as [[Hnone _]|(Hr & _ & Hend)]; [|done].
      fold x in Hnone. rewrite Hnone in Hsome. by destruct Hsome.
    + subst r x. intros Hx. unfold change_vendor_tier.
      rewrite decide_False by (intros ?; apply Hsp; by left).
      destruct (in_pair original_file && in_pair new_file
                && bool_decide (original_file ≠ new_file)) eqn:Hb.
      { exfalso. apply Hsp. right.
        apply andb_true_iff in Hb as [[? ?]%andb_true_iff ?%bool_decide_eq_true]. done. }
      unfold bind.
      destruct (_make_explicit_tier_change _ _ _ _ _ s) as [[[]|] s1];
        simpl in Hx |- *; first [discriminate | done].
  Unshelve.
  intros update commit_outcome rest Hu Hscript. subst r x.
  destruct s as [t sc e]. simpl in Hs, Hscript. subst sc e.
  by destruct update, commit_outcome.
Qed.

(** C10, as amended. Whatever the storage does, ApplyFieldUpdate leaves the
    FILE value of every row unchanged, for every set of updates, and the
    Vendor Number of every row unchanged when the updates carry no 'Vendor
    Number' entry; the UPDATE builder never assigns FILE from the updates,
    the explicit tier change assigns the new tier whatever the updates say,
    and [change_vendor_tier] does the same with and without a 'FILE' entry
    in the updates. *)
Theorem c10_field_updates_keep_file v f updates s :
  let s' := (update_vendor parse_date v f updates s).2 in
  column FILE (rows s') = column FILE (rows s)
  ∧ (updates !! VENDOR_NUMBER = None →
     column VENDOR_NUMBER (rows s') = column VENDOR_NUMBER (rows s))
  ∧ set_clauses parse_date updates !! FILE = None
  ∧ (∀ new_file,
       <[FILE := Some new_file]> (set_clauses parse_date updates) !! FILE
       = Some (Some new_file))
  ∧ (∀ original_file new_file s0,
       change_vendor_tier parse_date normalize_email v original_file new_file updates s0
       = change_vendor_tier parse_date normalize_email v original_file new_file
           (delete FILE updates) s0).
Proof.
  intros s'.
  assert (∀ k, set_clauses parse_date updates !! k = None →
               column k (rows s') = column k (rows s)) as Hcol.
  { intros k Hk. subst s'.
    apply (inv_update_vendor (λ t, column k t = column k (rows s)) v f updates); [|done].
    intros f' t Ht. rewrite <- Ht. by apply sql_update_column. }
  split; [apply Hcol, set_clauses_file|].
  split; [intros Hv; by apply Hcol, set_clauses_absent|].
  split; [apply set_clauses_file|].
  split; [intros new_file; apply lookup_insert_eq|].
  intros original_file new_file s0. unfold change_vendor_tier.
  by rewrite delete_delete_eq.
Qed.

End Properties.

(** C2, as amended. The rejection of a tier change towards Tier1 is the
    guard of the edit form: [save_vendor_changes] blocks every request whose
    new FILE is Tier1 while the row's FILE is not, before it validates,
    queries or stores anything; [change_vendor_tier] itself has no such
    guard. *)
Theorem c2_tier1_blocked_by_the_form normalize_email email_list_ok
    (original updated_data : Dict) ss s :
  updated_data !! FILE = Some (Some "Tier1") →
  original !! FILE ≠ Some (Some "Tier1") →
  save_vendor_changes normalize_email email_list_ok original updated_data ss s
  = (Ret (Tier1Blocked, ss), s).
Proof.
  intros Hnew Horig. unfold save_vendor_changes. rewrite Hnew. simpl.
  rewrite decide_True; [done|]. split; [done|].
  destruct (original !! FILE) as [x|]; simpl; congruence.
Qed.

Lemma c2_tier1_blocked_witness :
  ({[FILE := Some "Tier1"]} : Dict) !! FILE = Some (Some "Tier1")
  ∧ row "1001" "3Months" [("Vendor Name", Some "Acme")] !! FILE ≠ Some (Some "Tier1")
  ∧ save_vendor_changes same_email every_email_ok
      (row "1001" "3Months" [("Vendor Name", Some "Acme")]) {[FILE := Some "Tier1"]}
      fresh_session (calm single_3months)
    = (Ret (Tier1Blocked, fresh_session), calm single_3months).
Proof.
  split; [reflexivity|].
  split; [intros H; vm_compute in H; discriminate|].
  apply c2_tier1_blocked_by_the_form; [reflexivity|].
  intros H; vm_compute in H; discriminate.
Defined.

(** C2 as stated fails on the engine: called with the target Tier1,
    [change_vendor_tier] rewrites the row and returns success. *)
Lemma c2_engine_rewrites_to_tier1 :
  change_vendor_tier no_date same_email "1001" "3Months" "Tier1" ∅ (calm single_3months)
  = (Ret true, calm [row "1001" "Tier1" [("Vendor Name", Some "Acme")]]).
Proof. vm_compute. reflexivity. Qed.



(** C5 as stated fails for a standalone 6Months row changed to Tier2: both
    tiers are in the pair and only one row exists, yet the call is served by
    the dual-entry creation path, which keeps the 6Months row and inserts a
    Tier2 row. *)
Lemma c5_6months_to_tier2_creates_pair :
  in_pair "6Months" = true ∧ in_pair "Tier2" = true
  ∧ dual_entry "1001" standalone_6months = false
  ∧ change_vendor_tier no_date same_email "1001" "6Months" "Tier2" ∅
      (calm standalone_6months)
    = (Ret true, calm [row "1001" "6Months" [("Vendor Name", Some "Acme")];
                       row "1001" "Tier2" [("Vendor Name", Some "Acme")]]).
Proof. vm_compute. done. Qed.

(** The witness of C5 as amended: a standalone Tier2 row changed to
    6Months, and a Deduplicate on a standalone 6Months row. *)
Lemma c5_amended_witness :
  in_pair "Tier2" = true ∧ in_pair "6Months" = true
  ∧ "Tier2" ≠ "6Months" ∧ "6Months" ≠ "Tier2"
  ∧ dual_entry "1001" standalone_tier2 = false
  ∧ change_vendor_tier no_date same_email "1001" "Tier2" "6Months" ∅
      (calm standalone_tier2)
    = (Ret true, calm standalone_6months)
  ∧ sql_count "1001" "Tier2" (rows (calm standalone_6months)) = 0
  ∧ sql_count "1001" "Tier2"
      (rows (run no_date same_email "1001" Deduplicate (calm standalone_6months)).2) = 0.
Proof.
  destruct (c5_pair_created_only_towards_tier2 no_date same_email "1001") as [Hplain Hnone].
  assert (in_pair "Tier2" = true) as Ho by reflexivity.
  assert (in_pair "6Months" = true) as Hn by reflexivity.
  assert ("Tier2" ≠ "6Months") as Hne by discriminate.
  assert ("6Months" ≠ "Tier2") as Hnew by discriminate.
  assert (dual_entry "1001" standalone_tier2 = false) as Hd by (vm_compute; reflexivity).
  assert (sql_count "1001" "Tier2" (rows (calm standalone_6months)) = 0) as Hc
    by (vm_compute; reflexivity).
  do 5 (split; [assumption|]).
  split.
  { unfold calm. rewrite (Hplain "Tier2" "6Months" ∅ standalone_tier2 None Ho Hn Hne Hnew Hd).
    vm_compute. reflexivity. }
  split; [assumption|].
  apply Hnone; [discriminate|assumption].
Defined.

(** C7 as stated fails in each of these runs. An ApplyFieldUpdate on a pair
    that is out of sync in a column the update does not name reaches both
    rows, and the two names still differ. A resync of two names that differ
    by a trailing blank writes nothing: the two cells are equal as the resync
    compares them, and differ. A resync of a date that the UPDATE builder
    cannot parse writes nothing, and the two dates still differ. With the
    Tier2 tier held twice, a resync compares the first Tier2 row only. A
    ChangeTier towards Tier2 of a vendor that holds the pair in sync and a
    3Months row takes the path inside the pair, which writes the Tier2 row
    and runs no resync: the pair is left out of sync. And when the UPDATE of
    the 6Months row raises, an ApplyFieldUpdate has written the Tier2 row
    only. *)
Lemma c7_update_leaves_pair_unsynced :
  (update_vendor no_date "1002" "Tier2" {[ "Parent Vendor" := Some "Y" ]}
     (calm half_synced_pair)
   = (Ret true, calm [half_synced_tier2_after; half_synced_6months_after])
   ∧ ¬ agree "Vendor Name" half_synced_tier2_after half_synced_6months_after)
  ∧ (_check_and_fix_unsynced_dual no_date same_email "1002"
       (calm [spaced_tier2; spaced_6months])
     = (Ret true, calm [spaced_tier2; spaced_6months])
     ∧ spaced_tier2 !! "Vendor Name" ≠ spaced_6months !! "Vendor Name")
  ∧ (_check_and_fix_unsynced_dual no_date same_email "1002"
       (calm [undated_tier2; undated_6months])
     = (Ret true, calm [undated_tier2; undated_6months])
     ∧ ¬ agree "Soft Chargeback Effective Date" undated_tier2 undated_6months)
  ∧ (_check_and_fix_unsynced_dual no_date same_email "1002" (calm doubled_tier2_pair)
     = (Ret true, calm doubled_tier2_pair)
     ∧ ¬ agree "Vendor Name" (row "1002" "Tier2" [("Vendor Name", Some "B")])
                             (row "1002" "6Months" [("Vendor Name", Some "A")]))
  ∧ (change_vendor_tier no_date same_email "1002" "3Months" "Tier2"
       {[ "Vendor Name" := Some "Apex" ]} (calm synced_pair_and_3months)
     = (Ret true, calm [row "1002" "Tier2" [("Vendor Name", Some "Apex")];
                        row "1002" "6Months" [("Vendor Name", Some "Acme")]])
     ∧ ¬ agree "Vendor Name" (row "1002" "Tier2" [("Vendor Name", Some "Apex")])
                             (row "1002" "6Months" [("Vendor Name", Some "Acme")]))
  ∧ update_vendor no_date "1002" "Tier2" {[ "Contact" := Some "b@x.com" ]}
      (scripted scenario_b second_update_fails)
    = (Ret false,
       mkStore [row "1002" "Tier2" [("Contact", Some "b@x.com")];
                row "1002" "6Months" [("Contact", Some "")]]
               [] (Some "UPDATE failed")).
Proof.
  repeat split; try (vm_compute; reflexivity); vm_compute; discriminate.
Qed.

(** The witness of C7 as amended. On Scenario B an update of the contact
    reaches both rows, and the resync fills the empty contact; with a
    3Months row besides the pair, the change of that row to Tier1 by the
    regular path ends with the same resync. *)
Lemma c7_scenario_b :
  (dual_entry "1002" scenario_b = true
   ∧ in_pair "6Months" = true
   ∧ update_vendor no_date "1002" "6Months" {[ "Contact" := Some "b@x.com" ]}
       (calm scenario_b)
     = (Ret true, calm [row "1002" "Tier2" [("Contact", Some "b@x.com")];
                        row "1002" "6Months" [("Contact", Some "b@x.com")]])
   ∧ sql_count "1002" "Tier2" scenario_b = 1
   ∧ sql_count "1002" "6Months" scenario_b = 1
   ∧ ∃ t', _check_and_fix_unsynced_dual no_date same_email "1002" (calm scenario_b)
           = (Ret true, mkStore t' [] None)
         ∧ sql_count "1002" "Tier2" t' = 1 ∧ sql_count "1002" "6Months" t' = 1
         ∧ pair_in_sync no_date "1002" t')
  ∧ dual_entry "1002" scenario_b_and_3months = true
  ∧ ¬ special_path "3Months" "Tier1"
  ∧ change_vendor_tier no_date same_email "1002" "3Months" "Tier1" ∅
      (calm scenario_b_and_3months)
    = (Ret true, calm [row "1002" "Tier2" [("Contact", Some "a@x.com")];
                       row "1002" "6Months" [("Contact", Some "a@x.com")];
                       row "1002" "Tier1" [("Contact", Some "c@x.com")]])
  ∧ pair_in_sync no_date "1002"
      [row "1002" "Tier2" [("Contact", Some "a@x.com")];
       row "1002" "6Months" [("Contact", Some "a@x.com")];
       row "1002" "Tier1" [("Contact", Some "c@x.com")]].
Proof.
  assert (dual_entry "1002" scenario_b = true) as Hd by (vm_compute; reflexivity).
  assert (in_pair "6Months" = true) as Hf by reflexivity.
  assert (sql_count "1002" "Tier2" scenario_b = 1) as H2 by (vm_compute; reflexivity).
  assert (sql_count "1002" "6Months" scenario_b = 1) as H6 by (vm_compute; reflexivity).
  assert (dual_entry "1002" scenario_b_and_3months = true) as Hd'
    by (vm_compute; reflexivity).
  assert (¬ special_path "3Months" "Tier1") as Hn.
  { intros [H|(H & _)]; [discriminate|vm_compute in H; discriminate]. }
  assert (change_vendor_tier no_date same_email "1002" "3Months" "Tier1" ∅
            (calm scenario_b_and_3months)
          = (Ret true, calm [row "1002" "Tier2" [("Contact", Some "a@x.com")];
                             row "1002" "6Months" [("Contact", Some "a@x.com")];
                             row "1002" "Tier1" [("Contact", Some "c@x.com")]])) as Hrun
    by (vm_compute; reflexivity).
  split.
  - destruct (c7_pair_written_together no_date same_email "1002" scenario_b None Hd)
      as (Hupd & Hsync & _).
    do 2 (split; [assumption|]).
    split.
    { destruct (Hupd "6Months" {[ "Contact" := Some "b@x.com" ]} Hf) as [Hrun' _].
      unfold calm. rewrite Hrun'. vm_compute. reflexivity. }
    do 2 (split; [assumption|]).
    exact (Hsync H2 H6).
  - do 3 (split; [assumption|]).
    destruct (c7_pair_written_together no_date same_email "1002" scenario_b_and_3months
                None Hd') as (_ & _ & Hchange).
    specialize (Hchange "3Months" "Tier1" ∅ Hn). cbv zeta in Hchange.
    unfold calm in Hrun. rewrite Hrun in Hchange.
    apply Hchange; vm_compute; reflexivity.
Defined.

(** Scenario B, run. *)
Example scenario_b_resync :
  _check_and_fix_unsynced_dual no_date same_email "1002" (calm scenario_b)
  = (Ret true, calm [row "1002" "Tier2" [("Contact", Some "a@x.com")];
                     row "1002" "6Months" [("Contact", Some "a@x.com")]]).
Proof. vm_compute. reflexivity. Qed.

(** The blank tests on a no-break space: [strip] removes it, a cell that
    holds nothing else is not filled, the two merges pass over it, and the
    resync sees no difference in it. *)
Example strip_no_break_space :
  strip nbsp = "" ∧ strip ("Acme" +:+ nbsp) = "Acme" ∧ strip (nbsp +:+ "Acme") = "Acme"
  ∧ filled (Some nbsp) = false ∧ null_like (Some nbsp) = true
  ∧ py_len ("Acme" +:+ nbsp) = 5.
Proof. repeat split; vm_compute; reflexivity. Qed.

Example merge_dual_no_break_space :
  merge_dual (row "1004" "Tier2" [("Vendor Name", Some nbsp)])
             (row "1004" "6Months" [("Vendor Name", Some "Bob")]) !! "Vendor Name"
  = Some (Some "Bob").
Proof. vm_compute. reflexivity. Qed.

Example merge_group_no_break_space :
  get (merge_group "1004" (Some "Tier2")
         [row "1004" "Tier2" [("Vendor Name", Some nbsp)];
          row "1004" "Tier2" [("Vendor Name", Some "Bob")]]) "Vendor Name"
  = Some "Bob".
Proof. vm_compute. reflexivity. Qed.

Example resync_no_break_space :
  _check_and_fix_unsynced_dual no_date same_email "1002"
    (calm [row "1002" "Tier2" [("Vendor Name", Some ("Acme" +:+ nbsp))];
           row "1002" "6Months" [("Vendor Name", Some "Acme")]])
  = (Ret true, calm [row "1002" "Tier2" [("Vendor Name", Some ("Acme" +:+ nbsp))];
                     row "1002" "6Months" [("Vendor Name", Some "Acme")]])
  ∧ agree "Vendor Name" (row "1002" "Tier2" [("Vendor Name", Some ("Acme" +:+ nbsp))])
                        (row "1002" "6Months" [("Vendor Name", Some "Acme")]).
Proof. split; vm_compute; reflexivity. Qed.

(** C8 (the code departs from the claim). The claim: Deduplicate repairs
    each tier that is held more than once. The loop returns from inside its
    first repair: for a vendor that holds the 6Months tier twice and the
    Tier2 tier twice, the 6Months rows are merged, the method returns
    success, and the Tier2 tier is still held twice. *)
Theorem c8_only_first_group_deduplicated :
  _check_and_fix_duplicates "1003" (calm two_duplicated_tiers)
  = (Ret true, calm [row "1003" "Tier2" [("Vendor Name", Some "Ann")];
                     row "1003" "Tier2" [("Vendor Name", Some "")];
                     row "1003" "6Months" [("Vendor Name", Some "Bob")]])
  ∧ sql_count "1003" "Tier2"
      (rows (_check_and_fix_duplicates "1003" (calm two_duplicated_tiers)).2) = 2.
Proof. split; vm_compute; reflexivity. Qed.

(** Scenario C, run: one duplicated tier is repaired. *)
Example scenario_c_deduplicate :
  _check_and_fix_duplicates "1003" (calm scenario_c)
  = (Ret true, calm [row "1003" "Tier2" [("Vendor Name", Some "Bob")]]).
Proof. vm_compute. reflexivity. Qed.

(** The count read back after the DELETE of [_check_and_fix_duplicates] is
    not compared with zero: when the DELETE is lost, the merged row is
    inserted next to the rows it was to replace, and the method returns
    success. *)
Example deduplicate_after_lost_delete :
  ∃ s', _check_and_fix_duplicates "1003" (scripted scenario_c [Applied; Lost]) = (Ret true, s')
        ∧ sql_count "1003" "Tier2" (rows s') = 3.
Proof. eexists. split; vm_compute; reflexivity. Qed.

(** Scenario D with a pair in sync, run: one 3Months row remains. *)
Example scenario_d_change_tier :
  change_vendor_tier no_date same_email "1004" "Tier2" "3Months" ∅ (calm scenario_d)
  = (Ret true, calm [row "1004" "3Months" [("Vendor Name", Some "Dune")]]).
Proof. vm_compute. reflexivity. Qed.

(** C9 as stated fails on the regular path: when the DELETE of the orphaned
    6Months row raises, the failure is recorded, the row stays, and the call
    returns success; and when the read-back query after the explicit UPDATE
    raises, the explicit change is taken as done and the call goes on to
    success. *)
Lemma c9_failures_swallowed :
  (∃ t', change_vendor_tier no_date same_email "1004" "Tier2" "3Months" ∅
           (scripted unsynced_pair [Applied; Applied; Applied; Failed])
         = (Ret true, mkStore t' [] (Some "DELETE failed"))
         ∧ sql_count "1004" "6Months" t' = 1)
  ∧ change_vendor_tier no_date same_email "1004" "Tier2" "3Months" ∅
      (scripted unsynced_pair [Applied; Applied; Failed])
    = (Ret true, calm [row "1004" "3Months" [("Vendor Name", None)]]).
Proof. split; [eexists; split|]; vm_compute; reflexivity. Qed.

(** The witness of C9 as amended. On the creation path the second INSERT
    raises: the call returns failure with the Tier2 row inserted, the
    original row still there and the two outcomes after the failure unread.
    On the regular path the explicit UPDATE raises, and the call returns
    failure with the table untouched; and when the query that reads the row
    back raises, the explicit change returns [True]. *)
Lemma c9_amended_witness :
  (last_error (scripted single_3months second_insert_fails) = None
   ∧ special_path "3Months" "Tier2"
   ∧ change_vendor_tier no_date same_email "1001" "3Months" "Tier2" ∅
       (scripted single_3months second_insert_fails)
     = (Ret false,
        mkStore [row "1001" "3Months" [("Vendor Name", Some "Acme")];
                 row "1001" "Tier2" [("Vendor Name", Some "Acme")]]
                [Applied; Applied] (Some "INSERT failed"))
   ∧ ends_at_failure (scripted single_3months second_insert_fails)
       (mkStore [row "1001" "3Months" [("Vendor Name", Some "Acme")];
                 row "1001" "Tier2" [("Vendor Name", Some "Acme")]]
                [Applied; Applied] (Some "INSERT failed")))
  ∧ last_error (scripted unsynced_pair [Failed]) = None
  ∧ ¬ special_path "Tier2" "3Months"
  ∧ change_vendor_tier no_date same_email "1004" "Tier2" "3Months" ∅
      (scripted unsynced_pair [Failed])
    = (Ret false, mkStore unsynced_pair [] (Some "UPDATE failed"))
  ∧ (_make_explicit_tier_change no_date "1004" "Tier2" "3Months" (delete FILE ∅)
       (scripted unsynced_pair [Applied; Applied; Failed])).1 = Ret true.
Proof.
  assert (last_error (scripted single_3months second_insert_fails) = None) as Hc
    by reflexivity.
  assert (special_path "3Months" "Tier2") as Hp by (by left).
  assert (change_vendor_tier no_date same_email "1001" "3Months" "Tier2" ∅
            (scripted single_3months second_insert_fails)
          = (Ret false,
             mkStore [row "1001" "3Months" [("Vendor Name", Some "Acme")];
                      row "1001" "Tier2" [("Vendor Name", Some "Acme")]]
                     [Applied; Applied] (Some "INSERT failed"))) as Hrun
    by (vm_compute; reflexivity).
  assert (last_error (scripted unsynced_pair [Failed]) = None) as Hs by reflexivity.
  assert (¬ special_path "Tier2" "3Months") as Hn.
  { intros [H|(_ & H & _)]; [discriminate|vm_compute in H; discriminate]. }
  split.
  - do 3 (split; [assumption|]).
    destruct (c9_primary_failure_reported no_date same_email "1001" "3Months" "Tier2" ∅
                (scripted single_3months second_insert_fails) Hc) as [Hspecial _].
    rewrite Hrun in Hspecial. apply (Hspecial Hp). simpl. eauto.
  - do 2 (split; [assumption|]).
    split.
    + destruct (c9_primary_failure_reported no_date same_email "1004" "Tier2" "3Months" ∅
                  (scripted unsynced_pair [Failed]) Hs) as (_ & Hregular & _).
      destruct (Hregular Hn) as [_ Hsame].
      rewrite Hsame; vm_compute; reflexivity.
    + destruct (c9_primary_failure_reported no_date same_email "1004" "Tier2" "3Months" ∅
                  (scripted unsynced_pair [Applied; Applied; Failed]) Hs)
        as (_ & _ & Hread).
      apply (Hread Applied Applied []); [discriminate|reflexivity].
Defined.

(** C10 as stated fails for updates that carry a 'Vendor Number' entry: the
    UPDATE builder skips 'FILE' only, and the row moves to another vendor. *)
Lemma c10_update_moves_vendor_number :
  update_vendor no_date "1001" "3Months" {[ VENDOR_NUMBER := Some "2002" ]}
    (calm single_3months)
  = (Ret true, calm [row "2002" "3Months" [("Vendor Name", Some "Acme")]])
  ∧ column VENDOR_NUMBER single_3months
    ≠ column VENDOR_NUMBER [row "2002" "3Months" [("Vendor Name", Some "Acme")]].
Proof. split; [vm_compute; reflexivity|]. vm_compute. discriminate. Qed.

(** The witness of C10 as amended: updates that name FILE and the vendor's
    name leave both key columns as they were. *)
Lemma c10_amended_witness :
  ({[ FILE := Some "Tier2"; "Vendor Name" := Some "Acme Ltd" ]} : Dict) !! VENDOR_NUMBER = None
  ∧ column FILE
      (rows (update_vendor no_date "1001" "3Months"
               {[ FILE := Some "Tier2"; "Vendor Name" := Some "Acme Ltd" ]}
               (calm single_3months)).2)
    = column FILE single_3months
  ∧ column VENDOR_NUMBER
      (rows (update_vendor no_date "1001" "3Months"
               {[ FILE := Some "Tier2"; "Vendor Name" := Some "Acme Ltd" ]}
               (calm single_3months)).2)
    = column VENDOR_NUMBER single_3months.
Proof.
  assert (({[ FILE := Some "Tier2"; "Vendor Name" := Some "Acme Ltd" ]} : Dict)
            !! VENDOR_NUMBER = None) as Hv by reflexivity.
  pose proof (c10_field_updates_keep_file no_date same_email "1001" "3Months"
                {[ FILE := Some "Tier2"; "Vendor Name" := Some "Acme Ltd" ]}
                (calm single_3months)) as H.
  cbv zeta in H. destruct H as (HF & HV & _).
  split; [assumption|]. split; [exact HF|exact (HV Hv)].
Defined.

(** * Further properties of the engine and of the forms *)

(** ** What the statements of the engine keep, every method keeps *)

Section Kept.
Variable parse_date : string → option string.
Variable normalize_email : string → string.
Variable v : string.
Variable P : list Dict → Prop.
Hypothesis HP : kept_by_statements parse_date v P.

Lemma kept_insert_single vendor_data : inv P (_insert_single_vendor vendor_data).
Proof. destruct HP as (_ & _ & Hi). apply inv_execute_dml. intros t. apply Hi. Qed.

Lemma kept_delete f : inv P (_execute_dml (sql_delete v f) "DELETE").
Proof. destruct HP as (_ & Hd & _). apply inv_execute_dml. intros t. apply Hd. Qed.

Lemma kept_update_single f updates :
  inv P (_update_single_vendor parse_date v f updates).
Proof. destruct HP as (Hu & _). apply inv_update_single_vendor. intros. by apply Hu. Qed.

Lemma kept_update_dual f updates :
  inv P (_update_dual_entry_vendor parse_date v f updates).
Proof. destruct HP as (Hu & _). apply inv_update_dual_entry_vendor. intros. by apply Hu. Qed.

Lemma kept_update_vendor f updates : inv P (update_vendor parse_date v f updates).
Proof. destruct HP as (Hu & _). apply inv_update_vendor. intros. by apply Hu. Qed.

Lemma kept_dedup_loop groups : inv P (dedup_loop v groups).
Proof.
  induction groups as [|[fv es] groups IH]; simpl; [apply inv_ret|].
  case_decide; [|apply IH].
  apply inv_bind; [apply kept_delete|].
  intros []; simpl; [|apply inv_ret].
  apply inv_bind; [apply inv_sql_query|]. intros _.
  apply inv_bind; [apply inv_commit|]. intros _.
  apply inv_bind; [apply kept_insert_single|].
  intros []; simpl; [|apply inv_ret].
  apply inv_bind; [apply inv_sql_query|]. intros n.
  case_decide; [apply inv_ret|].
  apply inv_bind; [apply inv_commit|]. intros _. apply inv_ret.
Qed.

Lemma kept_duplicates : inv P (_check_and_fix_duplicates v).
Proof.
  unfold _check_and_fix_duplicates.
  apply inv_try_except, inv_bind; [apply inv_sql_query|]. intros l.
  apply kept_dedup_loop.
Qed.

Lemma kept_missing_secondary : inv P (_check_and_fix_missing_secondary v).
Proof.
  unfold _check_and_fix_missing_secondary.
  apply inv_try_except, inv_bind; [apply inv_sql_query|]. intros l.
  destruct (first_with_file "Tier2" l) as [tier2_entry|]; [|apply inv_ret].
  destruct (first_with_file "6Months" l); [apply inv_ret|].
  apply kept_insert_single.
Qed.

Lemma kept_unsynced : inv P (_check_and_fix_unsynced_dual parse_date normalize_email v).
Proof.
  unfold _check_and_fix_unsynced_dual.
  apply inv_try_except, inv_bind; [apply inv_sql_query|]. intros l.
  destruct (first_with_file "Tier2" l); [|apply inv_ret].
  destruct (first_with_file "6Months" l); [|apply inv_ret].
  case_decide; [apply kept_update_dual|apply inv_ret].
Qed.

Lemma kept_to_tier2 original_file updates :
  inv P (_change_to_tier2_with_dual_entry parse_date v original_file updates).
Proof.
  unfold _change_to_tier2_with_dual_entry.
  apply inv_try_except, inv_bind; [apply inv_sql_query|]. intros l.
  apply inv_bind; [apply inv_sql_query|]. intros [current|]; [|apply inv_ret].
  cbv zeta. unfold create_dual_entry_data.
  destruct (file_exists "6Months" l).
  - apply inv_bind; [apply kept_update_single|].
    intros []; simpl; [|apply inv_ret].
    apply inv_bind; [apply kept_insert_single|].
    intros []; simpl; [|apply inv_ret].
    apply inv_bind.
    { case_decide; [apply kept_delete|apply inv_ret]. }
    intros []; simpl; [|apply inv_ret].
    apply inv_bind; [apply inv_commit|]. intros _. apply inv_ret.
  - apply inv_bind; [apply kept_insert_single|]. intros ok.
    apply inv_bind.
    { destruct ok; [apply kept_insert_single|apply inv_ret]. }
    intros []; simpl; [|apply inv_ret].
    apply inv_bind; [apply kept_delete|].
    intros []; simpl; [|apply inv_ret].
    apply inv_bind; [apply inv_commit|]. intros _. apply inv_ret.
Qed.

Section Explicit.
Variable new_file : string.
Hypothesis HE : kept_by_explicit_change parse_date v new_file P.

Lemma kept_make_explicit original_file updates :
  inv P (_make_explicit_tier_change parse_date v original_file new_file updates).
Proof.
  unfold _make_explicit_tier_change. apply inv_bind.
  - apply inv_execute_dml. intros t. apply HE.
  - intros []; simpl; [|apply inv_ret].
    apply inv_try_except, inv_bind; [apply inv_sql_query|].
    intros n. case_decide; [|apply inv_ret].
    apply inv_bind; [apply inv_sql_query|]. intros _. apply inv_ret.
Qed.

Lemma kept_within original_file updates :
  inv P (_change_within_dual_entry parse_date v original_file new_file updates).
Proof.
  unfold _change_within_dual_entry.
  apply inv_try_except, inv_bind; [apply inv_sql_query|]. intros l.
  destruct (first_with_file "Tier2" l); [|apply kept_make_explicit].
  destruct (first_with_file "6Months" l); [|apply kept_make_explicit].
  apply inv_bind; [apply kept_delete|].
  intros []; simpl; [|apply inv_ret].
  apply inv_bind; [apply inv_sql_query|]. intros n.
  case_decide; [apply inv_ret|].
  apply inv_bind; [apply inv_commit|]. intros _.
  apply inv_bind; [apply kept_update_single|].
  intros []; simpl; [|apply inv_ret].
  apply inv_bind; [apply inv_sql_query|]. intros n'.
  case_decide; [apply inv_ret|].
  apply inv_bind; [apply inv_commit|]. intros _. apply inv_ret.
Qed.

Lemma kept_change_vendor_tier original_file updates :
  inv P (change_vendor_tier parse_date normalize_email v original_file new_file updates).
Proof.
  unfold change_vendor_tier. case_decide.
  - apply inv_bind; [apply inv_sql_query|]. intros l.
    destruct (_ && _); [|apply kept_to_tier2].
    destruct (in_pair original_file); apply kept_within.
  - destruct (in_pair original_file && in_pair new_file
              && bool_decide (original_file ≠ new_file)).
    + apply inv_bind; [apply inv_sql_query|]. intros l.
      destruct (_ && _); [apply kept_within|].
      apply inv_bind; [apply kept_make_explicit|].
      intros []; apply inv_ret.
    + apply inv_bind; [apply kept_make_explicit|].
      intros []; simpl; [|apply inv_ret].
      apply inv_bind.
      { destruct (_ && _); [|apply inv_ret]. apply kept_delete. }
      intros _. apply inv_bind; [apply kept_duplicates|]. intros _.
      apply inv_bind; [apply kept_unsynced|]. intros _. apply inv_ret.
Qed.

End Explicit.

Lemma kept_run op :
  (∀ original_file new_file updates,
     op = ChangeTier original_file new_file updates →
     kept_by_explicit_change parse_date v new_file P) →
  inv P (run parse_date normalize_email v op).
Proof.
  intros HE. destruct op as [tier u|o n u| | |]; simpl.
  - apply kept_update_vendor.
  - apply kept_change_vendor_tier. by apply (HE o n u).
  - apply kept_duplicates.
  - apply kept_unsynced.
  - apply kept_missing_secondary.
Qed.

End Kept.

Lemma local_kept parse_date v P : local_to v P → kept_by_statements parse_date v P.
Proof.
  intros (Hu & Hd & Hi). split; [|split]; intros; [apply Hu|apply Hd|apply Hi]; done.
Qed.

Lemma local_run parse_date normalize_email v P op :
  local_to v P → inv P (run parse_date normalize_email v op).
Proof.
  intros HP. apply kept_run; [by apply local_kept|].
  intros o n u _ f updates t. by apply HP.
Qed.

(** ** The rows of the other vendors *)

Lemma sublist_keep_filter {A} (Q : A → Prop) `{!∀ x, Decision (Q x)} (X t : list A) :
  Forall Q X → X `sublist_of` t → X `sublist_of` filter Q t.
Proof.
  intros HX Hsub. induction Hsub as [|x l1 l2 Hsub IH|x l1 l2 Hsub IH].
  - apply sublist_nil_l.
  - apply Forall_cons in HX as [Hx HX]. rewrite filter_cons, decide_True by done.
    by constructor; apply IH.
  - rewrite filter_cons. case_decide; [constructor|]; by apply IH.
Qed.

Lemma sublist_keep_fmap {A} (g : A → A) (X t : list A) :
  Forall (λ x, g x = x) X → X `sublist_of` t → X `sublist_of` g <$> t.
Proof.
  intros HX Hsub. induction Hsub as [|x l1 l2 Hsub IH|x l1 l2 Hsub IH].
  - apply sublist_nil_l.
  - apply Forall_cons in HX as [Hx HX]. rewrite fmap_cons, Hx.
    by constructor; apply IH.
  - rewrite fmap_cons. constructor. by apply IH.
Qed.

Lemma others_kept_local v (X : list Dict) :
  Forall (λ r, ¬ of_vendor v r) X → local_to v (λ t, X `sublist_of` t).
Proof.
  intros HX. repeat split.
  - intros f sets t Ht. apply sublist_keep_fmap; [|done].
    eapply Forall_impl; [exact HX|]. intros r Hr. simpl.
    rewrite decide_False; [done|]. intros [? _]. by apply Hr.
  - intros f t Ht. apply sublist_keep_filter; [|done].
    eapply Forall_impl; [exact HX|]. intros r Hr [? _]. by apply Hr.
  - intros row t Ht. by apply sublist_inserts_r.
Qed.

Section OtherVendors.
Variable parse_date : string → option string.
Variable normalize_email : string → string.

(** X1. Whatever the storage does, an operation of the engine on one vendor
    removes, alters and reorders no row of another vendor: the rows of the
    other vendors are, in the table's order, a sublist of the table the
    operation leaves. *)
Theorem other_vendors_rows_kept v op s :
  rows_of_others v (rows s)
    `sublist_of` rows (run parse_date normalize_email v op s).2.
Proof.
  apply (local_run parse_date normalize_email v
           (λ t, rows_of_others v (rows s) `sublist_of` t) op).
  - apply others_kept_local. unfold rows_of_others.
    apply Forall_forall. by intros r [? _]%list_elem_of_filter.
  - apply sublist_filter.
Qed.

(** X2. Whatever the storage does, [update_vendor] and
    [_check_and_fix_unsynced_dual] issue UPDATEs only: the table has as many
    rows after the call as before. *)
Theorem field_update_keeps_row_count v f updates s :
  length (rows (update_vendor parse_date v f updates s).2) = length (rows s)
  ∧ length (rows (_check_and_fix_unsynced_dual parse_date normalize_email v s).2)
    = length (rows s).
Proof.
  split.
  - apply (inv_update_vendor parse_date (λ t, length t = length (rows s)) v f updates);
      [|done].
    intros f' t Ht. unfold sql_update. by rewrite length_fmap.
  - revert s. 
    assert (∀ n, inv (λ t, length t = n)
                   (_check_and_fix_unsynced_dual parse_date normalize_email v)) as H.
    { intros n. unfold _check_and_fix_unsynced_dual.
      apply inv_try_except, inv_bind; [apply inv_sql_query|]. intros l.
      destruct (first_with_file "Tier2" l); [|apply inv_ret].
      destruct (first_with_file "6Months" l); [|apply inv_ret].
      case_decide; [|apply inv_ret].
      apply inv_update_dual_entry_vendor. intros f' t Ht.
      unfold sql_update. by rewrite length_fmap. }
    intros s. by apply (H (length (rows s))).
Qed.
End OtherVendors.

(** ** Grouping *)

Section Grouping.
Variable key : Dict → Value.


Lemma group_add_keys_eq k0 e g :
  (group_add k0 e g).*1 = if decide (k0 ∈ g.*1) then g.*1 else g.*1 ++ [k0].
Proof.
  induction g as [|[k ks] g IH]; [done|].
  cbn [group_add]. destruct (decide (k = k0)) as [->|Hk].
  - rewrite !fmap_cons. cbn [fst]. rewrite decide_True; [done|left].
  - rewrite !fmap_cons, IH. cbn [fst]. destruct (decide (k0 ∈ g.*1)) as [Hin|Hin].
    + rewrite decide_True; [done|by right].
    + rewrite decide_False; [done|]. intros [?|?]%elem_of_cons; congruence.
Qed.

Lemma group_add_elem k0 e g k es :
  NoDup (g.*1) → (k, es) ∈ group_add k0 e g →
  (k ≠ k0 ∧ (k, es) ∈ g)
  ∨ (k = k0 ∧ ∃ es0, (k0, es0) ∈ g ∧ es = es0 ++ [e])
  ∨ (k = k0 ∧ (k0 ∉ g.*1) ∧ es = [e]).
Proof.
  induction g as [|[k1 ks] g IH]; cbn [group_add]; intros Hnd Hin.
  - apply list_elem_of_singleton in Hin. injection Hin as -> ->.
    right. right. repeat split. apply not_elem_of_nil.
  - rewrite fmap_cons in Hnd. cbn [fst] in Hnd.
    apply NoDup_cons in Hnd as [Hk1 Hnd].
    destruct (decide (k1 = k0)) as [->|Hk].
    + apply elem_of_cons in Hin as [Hin|Hin].
      * injection Hin as -> ->. right. left. split; [done|]. exists ks. split; [left|done].
      * left. split; [|by right]. intros ->. apply Hk1.
        apply list_elem_of_fmap. by exists (k0, es).
    + apply elem_of_cons in Hin as [Hin|Hin].
      * injection Hin as -> ->. left. split; [done|left].
      * destruct (IH Hnd Hin) as [[? ?]|[[-> (es0 & ? & ->)]|(-> & ? & ->)]].
        -- left. split; [done|by right].
        -- right. left. split; [done|]. exists es0. split; [by right|done].
        -- right. right. repeat split. rewrite fmap_cons. cbn [fst].
           intros [?|?]%elem_of_cons; [congruence|done].
Qed.

Lemma grouped_step g l e :
  grouped key g l → grouped key (group_add (key e) e g) (l ++ [e]).
Proof.
  intros (Hnd & Hes & Hall). split; [|split].
  - rewrite group_add_keys_eq. case_decide; [done|].
    apply NoDup_app. repeat split; [done| |apply NoDup_singleton].
    intros x Hx Hx'%list_elem_of_singleton. by subst x.
  - intros k es H.
    apply (group_add_elem _ _ _ _ _ Hnd) in H
      as [[Hne Hin]|[[-> (es0 & Hin & ->)]|(-> & Hnin & ->)]].
    + destruct (Hes k es Hin) as [-> Hnil].
      rewrite filter_app, filter_cons, decide_False, filter_nil, app_nil_r by done.
      done.
    + destruct (Hes _ _ Hin) as [-> Hnil].
      rewrite filter_app, filter_cons, decide_True, filter_nil by done.
      split; [done|]. by destruct (filter _ l).
    + rewrite filter_app, filter_cons, decide_True, filter_nil by done.
      assert (filter (λ e0, key e0 = key e) l = []) as ->; [|done].
      destruct (filter (λ e0, key e0 = key e) l) as [|x xs] eqn:E; [done|].
      assert (x ∈ filter (λ e0, key e0 = key e) l) as [Hx Hl]%list_elem_of_filter
        by (rewrite E; left).
      exfalso. apply Hnin. rewrite <- Hx. by apply Hall.
  - intros x [Hx|Hx%list_elem_of_singleton]%elem_of_app; [|subst x];
      rewrite group_add_keys_eq.
    + case_decide; [by apply Hall|]. apply elem_of_app. left. by apply Hall.
    + case_decide; [done|]. apply elem_of_app. right. left.
Qed.

Lemma grouped_foldl g l0 l :
  grouped key g l0 →
  grouped key (foldl (λ groups entry, group_add (key entry) entry groups) g l) (l0 ++ l).
Proof.
  revert g l0. induction l as [|e l IH]; intros g l0 Hg; simpl.
  - by rewrite app_nil_r.
  - rewrite (cons_middle e l0 l), app_assoc. apply IH. by apply grouped_step.
Qed.
End Grouping.

Lemma file_groups_grouped l : grouped (λ e, get e FILE) (file_groups l) l.
Proof.
  apply (grouped_foldl (λ e, get e FILE) [] [] l).
  split; [constructor|]. split; [intros k es H|intros e H]; by apply elem_of_nil in H.
Qed.

(** ** The stable sort of the query and the loop of Deduplicate *)

Lemma file_le_same r x : get r FILE = get x FILE → file_le r x.
Proof.
  unfold file_le. intros ->. destruct (get x FILE); [|done].
  apply (reflexivity (R := String.le)).
Qed.

(** The sort of [ORDER BY "FILE"] keeps the rows of one FILE value in the
    table's order. *)
Lemma filter_insert_by_file k r l :
  filter (λ e, get e FILE = k) (insert_by_file r l)
  = filter (λ e, get e FILE = k) (r :: l).
Proof.
  induction l as [|x l IH]; [done|]. cbn [insert_by_file].
  destruct (decide (file_le r x)) as [Hle|Hle]; [done|].
  rewrite filter_cons, IH, !filter_cons.
  destruct (decide (get x FILE = k)) as [Hx|Hx]; [|done].
  destruct (decide (get r FILE = k)) as [Hr|Hr]; [|done].
  exfalso. apply Hle, file_le_same. congruence.
Qed.

Lemma filter_order_by_file k l :
  filter (λ e, get e FILE = k) (order_by_file l) = filter (λ e, get e FILE = k) l.
Proof.
  induction l as [|x l IH]; [done|]. cbn [order_by_file foldr].
  rewrite filter_insert_by_file, !filter_cons. fold (order_by_file l). by rewrite IH.
Qed.

Lemma filter_file_select_eq v f t :
  filter (λ e, get e FILE = Some f) (sql_select_vendor v t) = filter (at_key v f) t.
Proof.
  unfold sql_select_vendor. rewrite filter_order_by_file, list_filter_filter.
  apply list_filter_iff. intros r. unfold at_key, of_vendor. rewrite get_Some. tauto.
Qed.

Lemma NoDup_fmap_filter_length {A B} `{EqDecision B} (f : A → B) k (l : list A) :
  NoDup (f <$> l) → (length (filter (λ e, f e = k) l) ≤ 1)%nat.
Proof.
  induction l as [|x l IH]; [simpl; lia|].
  rewrite fmap_cons. intros [Hx Hnd]%NoDup_cons. rewrite filter_cons.
  case_decide as Hk; [|by apply IH]. simpl.
  assert (filter (λ e, f e = k) l = []) as ->; [|simpl; lia].
  destruct (filter (λ e, f e = k) l) as [|y ys] eqn:E; [done|].
  assert (y ∈ filter (λ e, f e = k) l) as [Hy Hl]%list_elem_of_filter by (rewrite E; left).
  exfalso. apply Hx. apply list_elem_of_fmap. exists y. split; [congruence|done].
Qed.

Lemma dedup_loop_skip v groups s :
  (∀ k es, (k, es) ∈ groups → (length es ≤ 1)%nat) → dedup_loop v groups s = (Ret true, s).
Proof.
  induction groups as [|[k es] groups IH]; intros H; [done|]. cbn [dedup_loop].
  rewrite decide_False.
  - apply IH. intros k' es' Hin. apply (H k' es'). by right.
  - specialize (H k es). assert ((k, es) ∈ (k, es) :: groups) as Hin by left.
    apply H in Hin. lia.
Qed.

Lemma dedup_loop_first v groups fv entries s :
  NoDup (groups.*1) → (fv, entries) ∈ groups → (1 < length entries)%nat →
  (∀ k es, (k, es) ∈ groups → k ≠ fv → (length es ≤ 1)%nat) →
  dedup_loop v groups s = dedup_loop v [(fv, entries)] s.
Proof.
  induction groups as [|[k es] groups IH]; intros Hnd Hin Hlen Hothers.
  - by apply elem_of_nil in Hin.
  - rewrite fmap_cons in Hnd. cbn [fst] in Hnd. apply NoDup_cons in Hnd as [Hk Hnd].
    destruct (decide (k = fv)) as [->|Hne].
    + assert (es = entries) as ->.
      { apply elem_of_cons in Hin as [Hin|Hin]; [congruence|].
        exfalso. apply Hk. apply list_elem_of_fmap. by exists (fv, entries). }
      cbn [dedup_loop]. by rewrite !decide_True.
    + cbn [dedup_loop]. rewrite decide_False.
      * apply elem_of_cons in Hin as [Hin|Hin]; [congruence|].
        cbn [dedup_loop] in IH. apply IH; [done..|].
        intros k' es' H'. apply Hothers. by right.
      * assert (length es ≤ 1)%nat; [|lia]. apply (Hothers k es); [left|done].
Qed.

(** X3. The groups that [_check_and_fix_duplicates] forms from the rows of
    a vendor: no FILE value has two groups; the group of a tier holds
    exactly the vendor's rows of that tier, in the table's order (the ORDER
    BY of the query is stable), and is not empty; and every row of the
    vendor has the group of its FILE value. *)
Theorem duplicate_groups_by_file v t :
  let groups := file_groups (sql_select_vendor v t) in
  NoDup (groups.*1)
  ∧ (∀ f entries, (Some f, entries) ∈ groups →
       entries = filter (at_key v f) t ∧ entries ≠ [])
  ∧ (∀ r, r ∈ t → of_vendor v r → get r FILE ∈ groups.*1).
Proof.
  intros groups.
  destruct (file_groups_grouped (sql_select_vendor v t)) as (Hnd & Hes & Hall).
  split; [done|]. split.
  - intros f entries Hin. destruct (Hes _ _ Hin) as [-> Hne].
    by rewrite <- filter_file_select_eq.
  - intros r Hr Hv. apply Hall. by apply elem_of_sql_select_vendor.
Qed.

(** X4. Whatever the storage does, Deduplicate leaves the table and the
    recorded error as they are when no two rows of the vendor share a FILE
    value; it returns without raising, and with [True] on a store whose
    calls all run. *)
Theorem deduplicate_without_duplicates v s :
  NoDup ((λ r, get r FILE) <$> filter (of_vendor v) (rows s)) →
  let r := _check_and_fix_duplicates v s in
  rows r.2 = rows s ∧ last_error r.2 = last_error s
  ∧ (r.1 = Ret true ∨ r.1 = Ret false)
  ∧ (script s = [] → r = (Ret true, s)).
Proof.
  intros Hnd.
  assert (∀ s0, dedup_loop v (file_groups (sql_select_vendor v (rows s))) s0
                = (Ret true, s0)) as Hloop.
  { intros s0. apply dedup_loop_skip.
    intros k es Hin. destruct (file_groups_grouped (sql_select_vendor v (rows s)))
      as (_ & Hes & _).
    destruct (Hes k es Hin) as [-> _]. apply NoDup_fmap_filter_length.
    unfold sql_select_vendor. by rewrite order_by_file_Permutation. }
  enough (wp (_check_and_fix_duplicates v)
            (λ r s', rows s' = rows s ∧ last_error s' = last_error s
                     ∧ (r = Ret true ∨ r = Ret false)) s) as (? & ? & ?).
  { repeat split; [done..|].
    intros Hs. destruct s as [t os e]. simpl in Hs. subst os.
    unfold _check_and_fix_duplicates, get_vendor_combinations.
    apply try_except_eq. erewrite bind_eq by apply sql_query_calm. apply Hloop. }
  unfold _check_and_fix_duplicates, get_vendor_combinations.
  apply wp_try_except, wp_bind, wp_sql_query. intros s1 [E1 E2].
  split; [|by repeat split; [..|right]].
  eapply wp_eq; [apply Hloop|]. repeat split; [done..|by left].
Qed.

(** ** The repair of one duplicated tier *)

Lemma sql_cell_keeps x : null_like x = false → sql_cell x = x.
Proof. unfold sql_cell. by intros ->. Qed.

Lemma sql_count_app v f t1 t2 :
  sql_count v f (t1 ++ t2) = sql_count v f t1 + sql_count v f t2.
Proof. unfold sql_count. by rewrite filter_app, length_app. Qed.

Lemma merge_group_at_key v f entries :
  null_like (Some v) = false → null_like (Some f) = false →
  at_key v f (sql_cell <$> merge_group v (Some f) entries).
Proof.
  intros Hv Hf. unfold at_key, merge_group. split.
  - rewrite lookup_fmap, lookup_insert_ne by done.
    rewrite lookup_insert_eq. simpl. by rewrite sql_cell_keeps.
  - rewrite lookup_fmap, lookup_insert_eq. simpl. by rewrite sql_cell_keeps.
Qed.

(** X5. On a store whose calls all run, for a vendor that holds one tier
    more than once and every other tier at most once, Deduplicate deletes
    the rows of that tier, inserts the merged row, and returns [True]; the
    merged row carries the key, and the key is then held exactly once. *)
Theorem deduplicate_one_tier v f t e :
  null_like (Some v) = false → null_like (Some f) = false →
  1 < sql_count v f t →
  NoDup ((λ r, get r FILE) <$> filter (of_vendor v) (sql_delete v f t)) →
  let merged := sql_cell <$> merge_group v (Some f) (filter (at_key v f) t) in
  _check_and_fix_duplicates v (mkStore t [] e)
  = (Ret true, mkStore (sql_delete v f t ++ [merged]) [] e)
  ∧ at_key v f merged
  ∧ sql_count v f (sql_delete v f t ++ [merged]) = 1.
Proof.
  intros Hv Hf Hdup Hnodup merged.
  assert (∀ k, k ≠ Some f →
            (length (filter (λ r, get r FILE = k) (filter (of_vendor v) t)) ≤ 1)%nat)
    as Hothers.
  { intros k Hk.
    assert (filter (λ r, get r FILE = k) (filter (of_vendor v) t)
            = filter (λ r, get r FILE = k) (filter (of_vendor v) (sql_delete v f t)))
      as ->; [|by apply NoDup_fmap_filter_length].
    unfold sql_delete. rewrite !list_filter_filter. apply list_filter_iff.
    intros r. unfold at_key, of_vendor. split; [|tauto].
    intros [HF Hr]. split_and!; try done. intros [_ HF']. apply Hk.
    rewrite <- HF. by apply get_Some. }
  assert (at_key v f merged) as Hkey by by apply merge_group_at_key.
  assert (sql_count v f (sql_delete v f t ++ [merged]) = 1) as Hcount.
  { rewrite sql_count_app, sql_count_delete. unfold sql_count.
    by rewrite filter_cons, decide_True. }
  split; [|done].
  destruct (file_groups_grouped (sql_select_vendor v t)) as (Hnd & Hes & Hall).
  set (entries := filter (at_key v f) t) in *.
  assert ((Some f, entries) ∈ file_groups (sql_select_vendor v t)) as Hin.
  { assert (∃ r, r ∈ entries) as [r Hr].
    { unfold sql_count in Hdup. fold entries in Hdup.
      destruct entries as [|r ?]; [simpl in Hdup; lia|]. exists r. left. }
    apply list_elem_of_filter in Hr as [[Hrv HrF] Hrt].
    assert (get r FILE ∈ (file_groups (sql_select_vendor v t)).*1) as Hk.
    { apply Hall. by apply elem_of_sql_select_vendor. }
    apply list_elem_of_fmap in Hk as ([k es] & Hk & Hg). simpl in Hk.
    assert (k = Some f) as -> by (rewrite <- Hk; by apply get_Some).
    destruct (Hes _ _ Hg) as [Hes' _]. rewrite filter_file_select_eq in Hes'.
    by rewrite Hes' in Hg. }
  unfold _check_and_fix_duplicates, get_vendor_combinations.
  apply try_except_eq. erewrite bind_eq by apply sql_query_calm.
  rewrite (dedup_loop_first v _ (Some f) entries); [|done..|].
  - cbn [dedup_loop]. rewrite decide_True by done. fold merged. cbn [py_str default].
    erewrite bind_eq by apply execute_dml_calm. cbn [negb].
    erewrite bind_eq by apply sql_query_calm.
    erewrite bind_eq by apply commit_calm.
    erewrite bind_eq by apply insert_single_vendor_calm. cbn [negb].
    erewrite bind_eq by apply sql_query_calm. cbv beta.
    unfold sql_insert. change (id f) with f. fold merged. rewrite Hcount, decide_False by lia.
    erewrite bind_eq by apply commit_calm. done.
  - intros k es Hg Hne. destruct (Hes _ _ Hg) as [-> _].
    unfold sql_select_vendor. rewrite filter_order_by_file. by apply Hothers.
Qed.

(** The value a field has after one more row was absorbed. *)
Lemma get_absorb merged entry field :
  field ≠ FILE → field ≠ VENDOR_NUMBER →
  get (absorb merged entry) field
  = if filled (get merged field) then get merged field
    else if filled (get entry field) then get entry field
    else get merged field.
Proof.
  intros Hf Hv. unfold absorb, get at 1.
  destruct (filled (get merged field)) eqn:Em.
  - rewrite lookup_union_r; [done|]. apply map_lookup_filter_None. right.
    intros x _ (_ & _ & H & _). simpl in H. congruence.
  - destruct (entry !! field) as [x|] eqn:Ee.
    + destruct (filled x) eqn:Ex.
      * erewrite lookup_union_Some_l.
        -- simpl. unfold get at 1 2. rewrite Ee. simpl. by rewrite Ex.
        -- by apply map_lookup_filter_Some.
      * rewrite lookup_union_r.
        -- unfold get at 1. rewrite Ee. simpl. by rewrite Ex.
        -- apply map_lookup_filter_None. right. intros y Hy (_ & _ & _ & H).
           simpl in H. congruence.
    + rewrite lookup_union_r.
      * unfold get at 1. by rewrite Ee.
      * apply map_lookup_filter_None. by left.
Qed.

Lemma get_foldl_absorb merged entries field :
  field ≠ FILE → field ≠ VENDOR_NUMBER →
  get (foldl absorb merged entries) field
  = if filled (get merged field) then get merged field
    else default (get merged field) (first_filled ((λ e, get e field) <$> entries)).
Proof.
  intros Hf Hv. revert merged. unfold first_filled.
  induction entries as [|e es IH]; intros merged; simpl.
  - by destruct (filled _).
  - rewrite IH, get_absorb by done. rewrite filter_cons.
    destruct (filled (get merged field)) eqn:Em.
    + by rewrite Em.
    + destruct (filled (get e field)) eqn:Ee.
      * by rewrite Ee, decide_True.
      * by rewrite Em, decide_False by congruence.
Qed.

(** X6. The merge rule of Deduplicate: in every column other than the two
    key columns the merged row takes the first filled value of the group, in
    the group's order, and the value of the group's first row when no row
    has a filled one. *)
Theorem merge_group_first_filled v file_value entries field :
  field ≠ FILE → field ≠ VENDOR_NUMBER →
  get (merge_group v file_value entries) field
  = default (get (default ∅ (head entries)) field)
      (first_filled ((λ e, get e field) <$> entries)).
Proof.
  intros Hf Hv. unfold merge_group, get at 1.
  rewrite !lookup_insert_ne by done. fold (get (foldl absorb (default ∅ (head entries))
                                                  (tail entries)) field).
  rewrite get_foldl_absorb by done.
  destruct entries as [|e0 es]; [done|]. simpl.
  unfold first_filled. rewrite filter_cons.
  destruct (filled (get e0 field)) eqn:E0.
  - by rewrite decide_True.
  - by rewrite decide_False by congruence.
Qed.

(** ** The checks of the pair and the creation of a vendor *)

Lemma first_with_file_head v f t :
  first_with_file f (sql_select_vendor v t) = head (filter (at_key v f) t).
Proof. unfold first_with_file. by rewrite filter_file_select_eq. Qed.

Lemma head_filter_None v f t :
  head (filter (at_key v f) t) = None ↔ sql_count v f t = 0.
Proof. unfold sql_count. by destruct (filter (at_key v f) t). Qed.

Lemma head_filter_elem v f t r :
  head (filter (at_key v f) t) = Some r → r ∈ t ∧ at_key v f r.
Proof. intros H%head_Some_elem_of%list_elem_of_filter. tauto. Qed.

Lemma head_filter_app v f t r l :
  head (filter (at_key v f) t) = Some r →
  head (filter (at_key v f) (t ++ l)) = Some r.
Proof. rewrite filter_app. by destruct (filter (at_key v f) t). Qed.

Lemma dual_entry_true v t :
  dual_entry v t = true
  ↔ (∃ r, r ∈ t ∧ at_key v "Tier2" r) ∧ (∃ r, r ∈ t ∧ at_key v "6Months" r).
Proof.
  unfold dual_entry. by rewrite andb_true_iff, !file_exists_select.
Qed.

Lemma get_fmap_sql_cell (d : Dict) k : get (sql_cell <$> d) k = sql_cell (get d k).
Proof. unfold get. rewrite lookup_fmap. by destruct (d !! k). Qed.

(** X7. On a store whose calls all run, for a vendor with a Tier2 row and
    no 6Months row, FixMissingSecondary appends one row: the copy of the
    first Tier2 row with FILE set to 6Months and empty or blank cells
    written as NULL; the vendor then holds the pair, and a second run
    changes nothing. *)
Theorem fix_missing_secondary_creates_partner v t e tier2_entry :
  null_like (Some v) = false →
  head (filter (at_key v "Tier2") t) = Some tier2_entry →
  sql_count v "6Months" t = 0 →
  let partner := sql_cell <$> <[FILE := Some "6Months"]> tier2_entry in
  let t' := t ++ [partner] in
  _check_and_fix_missing_secondary v (mkStore t [] e) = (Ret true, mkStore t' [] e)
  ∧ at_key v "6Months" partner
  ∧ (∀ field, field ≠ FILE → get partner field = sql_cell (get tier2_entry field))
  ∧ dual_entry v t' = true
  ∧ _check_and_fix_missing_secondary v (mkStore t' [] e) = (Ret true, mkStore t' [] e).
Proof.
  intros Hv H2 H6 partner t'.
  destruct (head_filter_elem _ _ _ _ H2) as [Hin [Hk2 HF2]].
  assert (at_key v "6Months" partner) as Hkp.
  { split; subst partner.
    - rewrite lookup_fmap, lookup_insert_ne, Hk2 by done. simpl.
      by rewrite sql_cell_keeps.
    - by rewrite lookup_fmap, lookup_insert_eq. }
  split; [|split; [done|split; [|split]]].
  - unfold _check_and_fix_missing_secondary, get_vendor_combinations.
    apply try_except_eq. erewrite bind_eq by apply sql_query_calm. cbv beta.
    rewrite !first_with_file_head, H2.
    apply head_filter_None in H6. rewrite H6.
    apply insert_single_vendor_calm.
  - intros field Hf. subst partner. rewrite get_fmap_sql_cell. f_equal.
    unfold get. by rewrite lookup_insert_ne.
  - apply dual_entry_true. split.
    + exists tier2_entry. split; [apply elem_of_app; by left|done].
    + exists partner. split; [apply elem_of_app; right; left|done].
  - unfold _check_and_fix_missing_secondary, get_vendor_combinations.
    apply try_except_eq. erewrite bind_eq by apply sql_query_calm. cbv beta.
    rewrite !first_with_file_head. subst t'. rewrite (head_filter_app _ _ _ _ _ H2).
    rewrite filter_app, filter_cons, decide_True by done.
    by destruct (filter (at_key v "6Months") t).
Qed.

(** X8. Whatever the storage does, FixMissingSecondary writes nothing for a
    vendor that has no Tier2 row, and nothing for a vendor that has a
    6Months row (a lone 6Months row never gets a Tier2 partner); no
    exception escapes. *)
Theorem fix_missing_secondary_noop v s :
  sql_count v "Tier2" (rows s) = 0 ∨ 0 < sql_count v "6Months" (rows s) →
  let r := _check_and_fix_missing_secondary v s in untouched s r.1 r.2.
Proof.
  intros H r. subst r.
  change (wp (_check_and_fix_missing_secondary v) (untouched s) s).
  unfold _check_and_fix_missing_secondary, get_vendor_combinations.
  apply wp_try_except, wp_bind, wp_sql_query. intros s' [E1 E2].
  split; [|by repeat split; [..|right]].
  rewrite !first_with_file_head.
  destruct H as [H|H].
  - apply head_filter_None in H. rewrite H. apply wp_ret. by repeat split; [..|left].
  - assert (∃ r6, head (filter (at_key v "6Months") (rows s)) = Some r6) as [r6 E6].
    { unfold sql_count in H. destruct (filter _ (rows s)); simpl in *; [lia|eauto]. }
    rewrite E6. destruct (head (filter (at_key v "Tier2") (rows s)));
      apply wp_ret; by repeat split; [..|left].
Qed.

Lemma agree_no_mismatches tier2_entry sixmonths_entry :
  (∀ field, field ≠ FILE → agree field tier2_entry sixmonths_entry) →
  mismatches tier2_entry sixmonths_entry = ∅.
Proof.
  intros H. unfold mismatches. apply map_empty_filter_2.
  intros k x _ [Hk Hm]. simpl in *. by apply Hm, H.
Qed.

Section Resync.
Variable parse_date : string → option string.
Variable normalize_email : string → string.

(** X9. Whatever the storage does, ResyncDualPair writes nothing when the
    vendor lacks one tier of the pair, and nothing when the first Tier2 row
    and the first 6Months row agree on every column other than FILE (NULL
    and empty are one, surrounding blanks are ignored); no exception
    escapes. *)
Theorem resync_noop v s :
  sql_count v "Tier2" (rows s) = 0 ∨ sql_count v "6Months" (rows s) = 0
  ∨ (∃ tier2_entry sixmonths_entry,
       head (filter (at_key v "Tier2") (rows s)) = Some tier2_entry
       ∧ head (filter (at_key v "6Months") (rows s)) = Some sixmonths_entry
       ∧ ∀ field, field ≠ FILE → agree field tier2_entry sixmonths_entry) →
  let r := _check_and_fix_unsynced_dual parse_date normalize_email v s in
  untouched s r.1 r.2.
Proof.
  intros H r. subst r.
  change (wp (_check_and_fix_unsynced_dual parse_date normalize_email v) (untouched s) s).
  unfold _check_and_fix_unsynced_dual, get_vendor_combinations.
  apply wp_try_except, wp_bind, wp_sql_query. intros s' [E1 E2].
  split; [|by repeat split; [..|right]].
  rewrite !first_with_file_head.
  assert (∀ b, wp (ret b) (λ r s'0,
            match r with
            | Ret a => untouched s (Ret a) s'0
            | Exc => untouched s (Ret false) s'0
            end) s') as Hret.
  { intros b. apply wp_ret. split; [done|]. split; [done|]. destruct b; auto. }
  destruct H as [H|[H|(r2 & r6 & H2 & H6 & Hag)]].
  - apply head_filter_None in H. rewrite H. apply Hret.
  - apply head_filter_None in H. rewrite H.
    destruct (head (filter (at_key v "Tier2") (rows s))); apply Hret.
  - rewrite H2, H6. rewrite decide_False; [apply Hret|].
    intros Hne. by apply Hne, agree_no_mismatches.
Qed.
End Resync.

Lemma rows_to_insert_length d : (length (rows_to_insert d) ≤ 2)%nat.
Proof. unfold rows_to_insert. case_decide; simpl; lia. Qed.

Lemma no_error_true (e : option string) : e = None → (true = false ↔ is_Some e).
Proof. intros ->. split; [done|]. by intros [x Hx]. Qed.

Lemma error_false (e : option string) x : e = Some x → (false = false ↔ is_Some e).
Proof. intros ->. split; eauto. Qed.

(** What [insert_vendor] leaves behind, whatever the storage does. *)
Lemma insert_vendor_outcome vendor_data s :
  ∃ b added,
    (insert_vendor vendor_data s).1 = Ret b
    ∧ rows (insert_vendor vendor_data s).2 = rows s ++ added
    ∧ added `sublist_of` rows_to_insert vendor_data
    ∧ (last_error s = None →
       (b = false ↔ is_Some (last_error (insert_vendor vendor_data s).2))).
Proof.
  set (Q := λ (l : list Dict) (r : result bool) (s' : Store),
         ∃ b added, r = Ret b ∧ rows s' = rows s ++ added ∧ added `sublist_of` l
           ∧ (last_error s = None → (b = false ↔ is_Some (last_error s')))).
  change (wp (insert_vendor vendor_data) (Q (rows_to_insert vendor_data)) s).
  assert (∀ l b added r s',
            r = Ret b → rows s' = rows s ++ added → added `sublist_of` l →
            (last_error s = None → (b = false ↔ is_Some (last_error s'))) →
            Q l r s') as HQ.
  { intros l b added r s' ? ? ? ?. by exists b, added. }
  unfold insert_vendor, rows_to_insert, _insert_dual_entry_vendor.
  case_decide as HF; cbn [create_dual_entry_data fst snd].
  - apply wp_bind, wp_insert_single_vendor.
    + intros s1 Hr1 He1. apply wp_insert_single_vendor.
      * intros s2 Hr2 He2.
        assert (last_error s = None → true = false ↔ is_Some (last_error s2)) as Hok.
        { intros Hn. apply no_error_true. congruence. }
        destruct Hr1 as [Hr1|Hr1], Hr2 as [Hr2|Hr2]; unfold sql_insert in *.
        -- eapply (HQ _ true [_; _]); [done| |done|done].
           rewrite Hr2, Hr1, <- app_assoc. done.
        -- eapply (HQ _ true [_]); [done| |apply sublist_skip, sublist_nil_l|done].
           by rewrite Hr2, Hr1.
        -- eapply (HQ _ true [_]);
             [done| |apply sublist_cons, sublist_skip, sublist_nil_l|done].
           by rewrite Hr2, Hr1.
        -- eapply (HQ _ true []); [done| |apply sublist_nil_l|done].
           by rewrite Hr2, Hr1, app_nil_r.
      * intros s2 Hr2 He2.
        assert (last_error s = None → false = false ↔ is_Some (last_error s2)) as Hko.
        { intros _. by eapply error_false. }
        destruct Hr1 as [Hr1|Hr1]; unfold sql_insert in *.
        -- eapply (HQ _ false [_]); [done| |apply sublist_skip, sublist_nil_l|done].
           by rewrite Hr2, Hr1.
        -- eapply (HQ _ false []); [done| |apply sublist_nil_l|done].
           by rewrite Hr2, Hr1, app_nil_r.
    + intros s1 Hr1 He1. apply wp_ret.
      eapply (HQ _ false []); [done| |apply sublist_nil_l|].
      * by rewrite Hr1, app_nil_r.
      * intros _. by eapply error_false.
  - apply wp_insert_single_vendor.
    + intros s1 Hr1 He1.
      assert (last_error s = None → true = false ↔ is_Some (last_error s1)) as Hok.
      { intros Hn. apply no_error_true. congruence. }
      destruct Hr1 as [Hr1|Hr1]; unfold sql_insert in *.
      * by eapply (HQ _ true [_]).
      * eapply (HQ _ true []); [done| |apply sublist_nil_l|done].
        by rewrite Hr1, app_nil_r.
    + intros s1 Hr1 He1.
      eapply (HQ _ false []); [done| |apply sublist_nil_l|].
      * by rewrite Hr1, app_nil_r.
      * intros _. by eapply error_false.
Qed.

(** X10. Whatever the storage does, [insert_vendor] returns without
    raising and only appends: the table it leaves is the old table followed
    by some of the rows it set out to insert (both rows of the pair for a
    Tier2 record, the record itself otherwise), and, from a store with no
    error recorded, it returns [False] exactly when it records one. *)
Theorem insert_vendor_only_appends vendor_data s :
  ∃ b added,
    (insert_vendor vendor_data s).1 = Ret b
    ∧ rows (insert_vendor vendor_data s).2 = rows s ++ added
    ∧ added `sublist_of` rows_to_insert vendor_data
    ∧ (last_error s = None →
       (b = false ↔ is_Some (last_error (insert_vendor vendor_data s).2))).
Proof. apply insert_vendor_outcome. Qed.

Lemma at_key_sql_cell v f (d : Dict) :
  null_like (Some v) = false → null_like (Some f) = false →
  get d VENDOR_NUMBER = Some v → d !! FILE = Some (Some f) →
  at_key v f (sql_cell <$> d).
Proof.
  intros Hv Hf Hdv HdF. apply get_Some in Hdv. unfold at_key.
  rewrite !lookup_fmap, Hdv, HdF. simpl. by rewrite !sql_cell_keeps.
Qed.

Lemma key_of_at_key v f r : at_key v f r → key_of r = Some (v, f).
Proof.
  intros [Hv Hf]. unfold key_of, get. by rewrite Hv, Hf.
Qed.

Lemma duplicates_of_two_rows v f t :
  (1 < sql_count v f t)%nat → ¬ no_true_duplicates t.
Proof.
  unfold sql_count, no_true_duplicates. induction t as [|r t IH]; [simpl; lia|].
  rewrite filter_cons. case_decide as Hk.
  - intros Hlen Hnd. simpl in Hlen. cbn [omap list_omap] in Hnd.
    rewrite (key_of_at_key _ _ _ Hk) in Hnd. apply NoDup_cons in Hnd as [Hnin _].
    apply Hnin. destruct (filter (at_key v f) t) as [|r' l] eqn:E; [simpl in Hlen; lia|].
    assert (r' ∈ filter (at_key v f) t) as [Hk' Hin]%list_elem_of_filter
      by (rewrite E; left).
    apply list_elem_of_omap. exists r'. split; [done|]. by apply key_of_at_key.
  - intros Hlen Hnd. apply (IH Hlen). cbn [omap list_omap] in Hnd.
    destruct (key_of r); [by apply NoDup_cons in Hnd as [_ ?]|done].
Qed.

(** X11. On a store whose calls all run, [insert_vendor] of a Tier2 record
    appends a Tier2 row and a 6Months row of the record's vendor that agree
    on every column other than FILE, returns [True], and the vendor then
    holds the pair. *)
Theorem insert_vendor_tier2_creates_pair v vendor_data t e :
  get vendor_data FILE = Some "Tier2" →
  get vendor_data VENDOR_NUMBER = Some v → null_like (Some v) = false →
  let tier2_row := sql_cell <$> <[FILE := Some "Tier2"]> vendor_data in
  let sixmonths_row := sql_cell <$> <[FILE := Some "6Months"]> vendor_data in
  let t' := t ++ [tier2_row; sixmonths_row] in
  insert_vendor vendor_data (mkStore t [] e) = (Ret true, mkStore t' [] e)
  ∧ at_key v "Tier2" tier2_row ∧ at_key v "6Months" sixmonths_row
  ∧ (∀ field, field ≠ FILE → get tier2_row field = get sixmonths_row field)
  ∧ dual_entry v t' = true.
Proof.
  intros HF Hv Hnv tier2_row sixmonths_row t'.
  assert (at_key v "Tier2" tier2_row) as H2.
  { apply at_key_sql_cell; [done..| |apply lookup_insert_eq].
    unfold get. by rewrite lookup_insert_ne. }
  assert (at_key v "6Months" sixmonths_row) as H6.
  { apply at_key_sql_cell; [done..| |apply lookup_insert_eq].
    unfold get. by rewrite lookup_insert_ne. }
  split; [|split; [done|split; [done|split]]].
  - unfold insert_vendor, _insert_dual_entry_vendor. rewrite decide_True by done.
    cbn [create_dual_entry_data].
    erewrite bind_eq by apply insert_single_vendor_calm. cbv beta iota.
    rewrite insert_single_vendor_calm. unfold sql_insert. by rewrite <- app_assoc.
  - intros field Hf. subst tier2_row sixmonths_row. rewrite !get_fmap_sql_cell.
    unfold get. by rewrite !lookup_insert_ne.
  - apply dual_entry_true. split.
    + exists tier2_row. split; [|done]. apply elem_of_app. right. left.
    + exists sixmonths_row. split; [|done]. apply elem_of_app. right. right. left.
Qed.

(** X12. [insert_vendor] does not look for the key it inserts: on a store
    whose calls all run it succeeds whatever the table holds, the key of the
    record is held once more than before, and when the key was already held
    the table has a true duplicate afterwards. *)
Theorem insert_vendor_never_checks_the_key v f vendor_data t e :
  get vendor_data VENDOR_NUMBER = Some v → get vendor_data FILE = Some f →
  null_like (Some v) = false → null_like (Some f) = false →
  let t' := t ++ rows_to_insert vendor_data in
  insert_vendor vendor_data (mkStore t [] e) = (Ret true, mkStore t' [] e)
  ∧ sql_count v f t' = sql_count v f t + 1
  ∧ (0 < sql_count v f t → ¬ no_true_duplicates t').
Proof.
  intros Hv HF Hnv Hnf t'.
  assert (sql_count v f t' = sql_count v f t + 1) as Hcount.
  { subst t'. rewrite sql_count_app. f_equal. unfold rows_to_insert, sql_count.
    rewrite HF. case_decide as H2.
    - injection H2 as ->. cbn [create_dual_entry_data fst snd].
      rewrite filter_cons, decide_True.
      + rewrite filter_cons, decide_False; [done|].
        intros [_ H]. rewrite lookup_fmap, lookup_insert_eq in H. by vm_compute in H.
      + apply at_key_sql_cell; [done..| |apply lookup_insert_eq].
        unfold get. by rewrite lookup_insert_ne.
    - rewrite filter_cons, decide_True; [done|].
      apply at_key_sql_cell; [done..|]. by apply get_Some. }
  split; [|split; [done|]].
  - subst t'. unfold insert_vendor, _insert_dual_entry_vendor, rows_to_insert.
    case_decide.
    + cbn [create_dual_entry_data fst snd].
      erewrite bind_eq by apply insert_single_vendor_calm. cbv beta iota.
      rewrite insert_single_vendor_calm. unfold sql_insert. by rewrite <- app_assoc.
    + apply insert_single_vendor_calm.
  - intros Hpos. apply (duplicates_of_two_rows v f). lia.
Qed.

(** X13. The two INSERTs of a new pair are not one transaction: when the
    first INSERT runs and the second raises, [insert_vendor] returns
    [False] with the error recorded, and the Tier2 row stays in the table
    without its 6Months partner. *)
Theorem insert_vendor_pair_not_atomic vendor_data t c rest e :
  get vendor_data FILE = Some "Tier2" →
  insert_vendor vendor_data (mkStore t (Applied :: c :: Failed :: rest) e)
  = (Ret false,
     mkStore (t ++ [sql_cell <$> <[FILE := Some "Tier2"]> vendor_data]) rest
       (Some "INSERT failed")).
Proof.
  intros HF. unfold insert_vendor, _insert_dual_entry_vendor.
  rewrite decide_True by done. cbn [create_dual_entry_data].
  by destruct c.
Qed.

(** ** The invariant "the vendor has no row of the tier" *)

Lemma no_rows_at_count v f t : no_rows_at v f t ↔ sql_count v f t = 0.
Proof.
  unfold no_rows_at, sql_count. rewrite length_zero_iff_nil.
  induction t as [|r t IH]; [done|].
  rewrite Forall_cons, filter_cons. case_decide; [|tauto].
  split; [tauto|discriminate].
Qed.

Lemma no_rows_at_elem v f t r : no_rows_at v f t → r ∈ t → ¬ at_key v f r.
Proof. unfold no_rows_at. rewrite Forall_forall. auto. Qed.

Lemma no_rows_at_delete v f f' t : no_rows_at v f t → no_rows_at v f (sql_delete v f' t).
Proof.
  unfold no_rows_at, sql_delete. rewrite !Forall_forall.
  intros H r [_ Hr]%list_elem_of_filter. by apply H.
Qed.

Lemma no_rows_at_deleted v f t : no_rows_at v f (sql_delete v f t).
Proof. apply no_rows_at_count, sql_count_delete. Qed.

Lemma no_rows_at_update v f f' sets t :
  sets !! FILE ≠ Some (Some f) →
  no_rows_at v f t → no_rows_at v f (sql_update v f' sets t).
Proof.
  intros Hsets Ht. unfold no_rows_at, sql_update. rewrite Forall_fmap.
  eapply Forall_impl; [exact Ht|]. intros r Hr. simpl.
  case_decide as Hk; [|done]. intros [_ HF]. apply Hr.
  destruct Hk as [HV _]. split; [done|].
  apply lookup_union_Some_raw in HF as [HF|[_ HF]]; [congruence|done].
Qed.

(** An UPDATE that assigns another FILE leaves no row at its key. *)
Lemma no_rows_at_moved v f new_file sets t :
  sets !! FILE = Some (Some new_file) → new_file ≠ f →
  no_rows_at v f (sql_update v f sets t).
Proof.
  intros Hsets Hne. unfold no_rows_at, sql_update. rewrite Forall_fmap.
  apply Forall_forall. intros r _. simpl.
  case_decide as Hk; [|done]. intros [_ HF].
  rewrite (lookup_union_Some_l _ _ _ _ Hsets) in HF. congruence.
Qed.

Lemma no_rows_at_insert v f row t :
  ¬ at_key v f row → no_rows_at v f t → no_rows_at v f (sql_insert row t).
Proof. intros Hrow Ht. apply Forall_app. split; [done|]. by apply Forall_singleton. Qed.

Lemma sql_cell_Some x y : sql_cell x = Some y → x = Some y.
Proof. unfold sql_cell. by destruct (null_like x). Qed.

Lemma no_rows_at_dedup_loop v f groups :
  (∀ fv es, (fv, es) ∈ groups → fv ≠ Some f) →
  inv (no_rows_at v f) (dedup_loop v groups).
Proof.
  induction groups as [|[fv es] groups IH]; intros Hg; simpl; [apply inv_ret|].
  case_decide; [|apply IH; intros fv' es' H'; apply (Hg fv' es'); by right].
  apply inv_bind; [apply inv_execute_dml; intros t; apply no_rows_at_delete|].
  intros []; simpl; [|apply inv_ret].
  apply inv_bind; [apply inv_sql_query|]. intros _.
  apply inv_bind; [apply inv_commit|]. intros _.
  apply inv_bind.
  - apply inv_execute_dml. intros t. apply no_rows_at_insert.
    intros [_ HF]. unfold merge_group in HF.
    rewrite lookup_fmap, lookup_insert_eq in HF. simpl in HF.
    apply (Hg fv es); [left|]. apply sql_cell_Some. congruence.
  - intros []; simpl; [|apply inv_ret].
    apply inv_bind; [apply inv_sql_query|]. intros n.
    case_decide; [apply inv_ret|].
    apply inv_bind; [apply inv_commit|]. intros _. apply inv_ret.
Qed.

Lemma no_rows_at_duplicates v f : inv (no_rows_at v f) (_check_and_fix_duplicates v).
Proof.
  unfold _check_and_fix_duplicates, get_vendor_combinations.
  apply inv_try_except, inv_bind_query. intros t Ht.
  apply no_rows_at_dedup_loop. intros fv es Hin ->.
  apply file_groups_keys in Hin as (e & [He Hv]%elem_of_sql_select_vendor & Hf).
  apply (no_rows_at_elem _ _ _ _ Ht He). split; [done|]. by apply get_Some.
Qed.

Lemma no_rows_at_missing_secondary v f :
  f ≠ "6Months" → inv (no_rows_at v f) (_check_and_fix_missing_secondary v).
Proof.
  intros Hf. unfold _check_and_fix_missing_secondary.
  apply inv_try_except, inv_bind; [apply inv_sql_query|]. intros l.
  destruct (first_with_file "Tier2" l) as [tier2_entry|]; [|apply inv_ret].
  destruct (first_with_file "6Months" l); [apply inv_ret|].
  apply inv_execute_dml. intros t. apply no_rows_at_insert.
  intros [_ HF]. rewrite lookup_fmap, lookup_insert_eq in HF. vm_compute in HF.
  apply Hf. by injection HF.
Qed.

Section TierInvariant.
Variable parse_date : string → option string.
Variable normalize_email : string → string.

Lemma no_rows_at_update_single v f f' updates :
  inv (no_rows_at v f) (_update_single_vendor parse_date v f' updates).
Proof.
  apply inv_update_single_vendor. intros t. apply no_rows_at_update.
  by rewrite set_clauses_file.
Qed.

Lemma no_rows_at_update_dual v f f' updates :
  inv (no_rows_at v f) (_update_dual_entry_vendor parse_date v f' updates).
Proof.
  apply inv_update_dual_entry_vendor. intros f0 t. apply no_rows_at_update.
  by rewrite set_clauses_file.
Qed.

Lemma no_rows_at_update_vendor v f f' updates :
  inv (no_rows_at v f) (update_vendor parse_date v f' updates).
Proof.
  apply inv_update_vendor. intros f0 t. apply no_rows_at_update.
  by rewrite set_clauses_file.
Qed.

Lemma no_rows_at_make_explicit v f original_file new_file updates :
  new_file ≠ f →
  inv (no_rows_at v f)
    (_make_explicit_tier_change parse_date v original_file new_file updates).
Proof.
  intros Hnew. unfold _make_explicit_tier_change. apply inv_bind.
  - apply inv_execute_dml. intros t. apply no_rows_at_update.
    rewrite lookup_insert_eq. congruence.
  - intros []; simpl; [|apply inv_ret].
    apply inv_try_except, inv_bind; [apply inv_sql_query|].
    intros n. case_decide; [|apply inv_ret].
    apply inv_bind; [apply inv_sql_query|]. intros _. apply inv_ret.
Qed.

Lemma no_rows_at_within v f original_file new_file updates :
  new_file ≠ f →
  inv (no_rows_at v f)
    (_change_within_dual_entry parse_date v original_file new_file updates).
Proof.
  intros Hnew. unfold _change_within_dual_entry.
  apply inv_try_except, inv_bind; [apply inv_sql_query|]. intros l.
  destruct (first_with_file "Tier2" l); [|by apply no_rows_at_make_explicit].
  destruct (first_with_file "6Months" l); [|by apply no_rows_at_make_explicit].
  apply inv_bind; [apply inv_execute_dml; intros t; apply no_rows_at_delete|].
  intros []; simpl; [|apply inv_ret].
  apply inv_bind; [apply inv_sql_query|]. intros n.
  case_decide; [apply inv_ret|].
  apply inv_bind; [apply inv_commit|]. intros _.
  apply inv_bind; [apply no_rows_at_update_single|].
  intros []; simpl; [|apply inv_ret].
  apply inv_bind; [apply inv_sql_query|]. intros n'.
  case_decide; [apply inv_ret|].
  apply inv_bind; [apply inv_commit|]. intros _. apply inv_ret.
Qed.

Lemma no_rows_at_to_tier2 v f original_file updates :
  f ≠ "Tier2" → f ≠ "6Months" →
  inv (no_rows_at v f)
    (_change_to_tier2_with_dual_entry parse_date v original_file updates).
Proof.
  intros H2 H6. unfold _change_to_tier2_with_dual_entry.
  assert (∀ d f0, f0 ≠ f →
            inv (no_rows_at v f) (_insert_single_vendor (<[FILE := Some f0]> d))) as Hins.
  { intros d f0 Hf0. apply inv_execute_dml. intros t. apply no_rows_at_insert.
    intros [_ HF]. rewrite lookup_fmap, lookup_insert_eq in HF. simpl in HF.
    apply Hf0. injection HF as HF. apply sql_cell_Some in HF. congruence. }
  apply inv_try_except, inv_bind; [apply inv_sql_query|]. intros l.
  apply inv_bind; [apply inv_sql_query|]. intros [current|]; [|apply inv_ret].
  cbv zeta. unfold create_dual_entry_data.
  destruct (file_exists "6Months" l).
  - apply inv_bind; [apply no_rows_at_update_single|].
    intros []; simpl; [|apply inv_ret].
    apply inv_bind; [by apply Hins|].
    intros []; simpl; [|apply inv_ret].
    apply inv_bind.
    { case_decide; [|apply inv_ret].
      apply inv_execute_dml. intros t. apply no_rows_at_delete. }
    intros []; simpl; [|apply inv_ret].
    apply inv_bind; [apply inv_commit|]. intros _. apply inv_ret.
  - apply inv_bind; [by apply Hins|]. intros ok.
    apply inv_bind.
    { destruct ok; [by apply Hins|apply inv_ret]. }
    intros []; simpl; [|apply inv_ret].
    apply inv_bind; [apply inv_execute_dml; intros t; apply no_rows_at_delete|].
    intros []; simpl; [|apply inv_ret].
    apply inv_bind; [apply inv_commit|]. intros _. apply inv_ret.
Qed.

Lemma no_rows_at_unsynced v f :
  inv (no_rows_at v f) (_check_and_fix_unsynced_dual parse_date normalize_email v).
Proof.
  unfold _check_and_fix_unsynced_dual.
  apply inv_try_except, inv_bind; [apply inv_sql_query|]. intros l.
  destruct (first_with_file "Tier2" l); [|apply inv_ret].
  destruct (first_with_file "6Months" l); [|apply inv_ret].
  case_decide; [apply no_rows_at_update_dual|apply inv_ret].
Qed.

Lemma no_rows_at_change_vendor_tier v f original_file new_file updates :
  new_file ≠ f → (new_file = "Tier2" → f ≠ "6Months") →
  inv (no_rows_at v f)
    (change_vendor_tier parse_date normalize_email v original_file new_file updates).
Proof.
  intros Hnew H6. unfold change_vendor_tier. case_decide as Hd.
  - subst new_file. apply inv_bind; [apply inv_sql_query|]. intros l.
    destruct (_ && _).
    + destruct (in_pair original_file); by apply no_rows_at_within.
    + apply no_rows_at_to_tier2; [congruence|auto].
  - destruct (in_pair original_file && in_pair new_file
              && bool_decide (original_file ≠ new_file)).
    + apply inv_bind; [apply inv_sql_query|]. intros l.
      destruct (_ && _); [by apply no_rows_at_within|].
      apply inv_bind; [by apply no_rows_at_make_explicit|].
      intros []; apply inv_ret.
    + apply inv_bind; [by apply no_rows_at_make_explicit|].
      intros []; simpl; [|apply inv_ret].
      apply inv_bind.
      { destruct (_ && _); [|apply inv_ret].
        apply inv_execute_dml. intros t. apply no_rows_at_delete. }
      intros _. apply inv_bind; [apply no_rows_at_duplicates|]. intros _.
      apply inv_bind; [apply no_rows_at_unsynced|]. intros _. apply inv_ret.
Qed.

(** X14. Whatever the storage does, a vendor that holds no row of a tier
    holds none after an operation of the engine, unless the operation is a
    ChangeTier towards that tier, or the tier is 6Months and the operation
    creates the pair (a ChangeTier towards Tier2, or FixMissingSecondary).
    In particular no operation but a ChangeTier towards Tier1 gives a vendor
    a Tier1 row. *)
Theorem tier_rows_not_created v f op s :
  (∀ original_file updates, op ≠ ChangeTier original_file f updates) →
  (f = "6Months" →
   op ≠ FixMissingSecondary ∧ ∀ original_file updates, op ≠ ChangeTier original_file "Tier2" updates) →
  no_rows_at v f (rows s) →
  no_rows_at v f (rows (run parse_date normalize_email v op s).2).
Proof.
  intros Hop H6. revert s.
  change (inv (no_rows_at v f) (run parse_date normalize_email v op)).
  destruct op as [tier u|o n u| | |]; simpl.
  - apply no_rows_at_update_vendor.
  - apply no_rows_at_change_vendor_tier.
    + intros ->. by apply (Hop o u).
    + intros -> ->. destruct (H6 eq_refl) as [_ H]. by apply (H o u).
  - apply no_rows_at_duplicates.
  - apply no_rows_at_unsynced.
  - apply no_rows_at_missing_secondary. intros ->. by destruct (H6 eq_refl) as [? _].
Qed.

End TierInvariant.

(** ** Empty and blank strings are stored as NULL *)

Lemma sql_cell_idemp x : sql_cell (sql_cell x) = sql_cell x.
Proof. unfold sql_cell. destruct (null_like x) eqn:E; [done|]. by rewrite E. Qed.

Lemma no_blank_cells_update v f sets t :
  map_Forall (λ (_ : string) (x : Value), sql_cell x = x) sets →
  no_blank_cells t → no_blank_cells (sql_update v f sets t).
Proof.
  intros Hsets Ht. unfold no_blank_cells, sql_update. rewrite Forall_fmap.
  eapply Forall_impl; [exact Ht|]. intros r Hr. simpl.
  case_decide; [|done]. intros k x [Hx|[_ Hx]]%lookup_union_Some_raw.
  - by apply (Hsets k).
  - by apply (Hr k).
Qed.

Lemma no_blank_cells_delete v f t : no_blank_cells t → no_blank_cells (sql_delete v f t).
Proof.
  unfold no_blank_cells, sql_delete. rewrite !Forall_forall.
  intros H r [_ Hr]%list_elem_of_filter. by apply H.
Qed.

Lemma no_blank_cells_insert (vendor_data : Dict) t :
  no_blank_cells t → no_blank_cells (sql_insert (sql_cell <$> vendor_data) t).
Proof.
  intros Ht. apply Forall_app. split; [done|]. apply Forall_singleton.
  intros k x. rewrite lookup_fmap. destruct (vendor_data !! k) as [y|]; [|done].
  simpl. intros [= <-]. apply sql_cell_idemp.
Qed.

Section BlankCells.
Variable parse_date : string → option string.
Variable normalize_email : string → string.

Lemma set_clauses_no_blank updates :
  map_Forall (λ (_ : string) (x : Value), sql_cell x = x) (set_clauses parse_date updates).
Proof.
  intros k x. unfold set_clauses. rewrite map_lookup_imap.
  destruct (updates !! k) as [value|]; [|done]. simpl. unfold set_clause.
  repeat case_decide; try done;
    repeat match goal with
    | |- context [if ?b then _ else _] => destruct b
    end; try done;
    try (intros [= <-]; apply sql_cell_idemp).
  all: destruct (parse_date (py_str value)) as [d|]; [|done]; simpl;
    intros [= <-]; apply sql_cell_idemp.
Qed.

Lemma no_blank_cells_kept v : kept_by_statements parse_date v no_blank_cells.
Proof.
  split; [|split].
  - intros f updates t. apply no_blank_cells_update, set_clauses_no_blank.
  - intros f t. apply no_blank_cells_delete.
  - intros vendor_data t. apply no_blank_cells_insert.
Qed.

(** X15. Whatever the storage does, the engine stores no empty or blank
    string: when every cell of the table is NULL or a string with a
    character other than a blank, the same holds after every operation,
    provided the target of a ChangeTier is itself such a string. *)
Theorem blank_strings_stored_as_null v op s :
  (∀ original_file new_file updates,
     op = ChangeTier original_file new_file updates → null_like (Some new_file) = false) →
  no_blank_cells (rows s) →
  no_blank_cells (rows (run parse_date normalize_email v op s).2).
Proof.
  intros Hop. revert s.
  change (inv no_blank_cells (run parse_date normalize_email v op)).
  apply kept_run; [apply no_blank_cells_kept|].
  intros o n u Hn f updates t. apply no_blank_cells_update.
  apply map_Forall_insert_2; [|apply set_clauses_no_blank].
  apply sql_cell_keeps. by apply (Hop o n u).
Qed.

End BlankCells.

(** ** The paths of a tier change *)

(** ** Methods that catch their exceptions *)

Lemma try_except_returns {A} (m : M A) (d : A) s : ∃ a, (try_except m d s).1 = Ret a.
Proof. unfold try_except. destruct (m s) as [[a|] s']; eauto. Qed.

Lemma execute_dml_returns f op s : ∃ b, (_execute_dml f op s).1 = Ret b.
Proof.
  apply (wp_execute_dml f op (λ r _, ∃ b, r = Ret b)); eauto.
Qed.

(** A method that keeps [P] and returns: its continuation runs on a table
    that satisfies [P]. *)
Lemma wp_bind_inv {A B} (P : list Dict → Prop) (m : M A) (k : A → M B) Q s :
  inv P m → (∀ s0, ∃ a, (m s0).1 = Ret a) → P (rows s) →
  (∀ a s', P (rows s') → wp (k a) Q s') →
  wp (bind m k) Q s.
Proof.
  intros Hinv Hret Hs Hk. apply wp_bind.
  specialize (Hinv s Hs). destruct (Hret s) as [a Ha].
  unfold wp in *. rewrite Ha. by apply Hk.
Qed.

Lemma inv_and {A} (P1 P2 : list Dict → Prop) (m : M A) :
  inv P1 m → inv P2 m → inv (λ t, P1 t ∧ P2 t) m.
Proof. intros H1 H2 s [? ?]. unfold wp. split; [by apply H1|by apply H2]. Qed.

Section TierChange.
Variable parse_date : string → option string.
Variable normalize_email : string → string.

(** The checks that end the regular path keep [P] and the path then
    returns [True]. *)
Lemma regular_path_checks (P : list Dict → Prop) v s :
  inv P (_check_and_fix_duplicates v) →
  inv P (_check_and_fix_unsynced_dual parse_date normalize_email v) →
  P (rows s) →
  wp (let* _ := _check_and_fix_duplicates v in
      let* _ := _check_and_fix_unsynced_dual parse_date normalize_email v in
      ret true)
    (λ r s', r = Ret true ∧ P (rows s')) s.
Proof.
  intros Hd Hu Hs.
  apply (wp_bind_inv P); [done|intros; apply try_except_returns|done|].
  intros _ s1 H1.
  apply (wp_bind_inv P); [done|intros; apply try_except_returns|done|].
  intros _ s2 H2. by apply wp_ret.
Qed.

(** X16. The regular path of [change_vendor_tier], on a store whose calls
    all run, between two different tiers: the call returns [True] exactly
    when the UPDATE of the explicit change leaves a row at the new key;
    afterwards the vendor has no row of the original tier; and when the
    original tier is one of the pair and the call succeeds, the vendor has no
    Tier2 row and no 6Months row left. *)
Theorem regular_change_moves_the_row v original_file new_file updates t e :
  ¬ special_path original_file new_file → original_file ≠ new_file →
  let t1 := sql_update v original_file
              (<[FILE := Some new_file]> (set_clauses parse_date (delete FILE updates))) t in
  let r := change_vendor_tier parse_date normalize_email v original_file new_file updates
             (mkStore t [] e) in
  r.1 = Ret (bool_decide (sql_count v new_file t1 ≠ 0))
  ∧ no_rows_at v original_file (rows r.2)
  ∧ (in_pair original_file = true → sql_count v new_file t1 ≠ 0 →
     no_rows_at v "Tier2" (rows r.2) ∧ no_rows_at v "6Months" (rows r.2)).
Proof.
  intros Hsp Hne t1 r.
  assert (new_file ≠ "Tier2") as Hn2 by (intros ->; apply Hsp; by left).
  assert (in_pair original_file = true → in_pair new_file = false) as Hleave.
  { intros Ho. destruct (in_pair new_file) eqn:Hn; [|done].
    exfalso. apply Hsp. by right. }
  assert (no_rows_at v original_file t1) as Hmoved.
  { apply (no_rows_at_moved v original_file new_file); [apply lookup_insert_eq|congruence]. }
  enough (wp (change_vendor_tier parse_date normalize_email v original_file new_file updates)
            (λ r s', r = Ret (bool_decide (sql_count v new_file t1 ≠ 0))
                     ∧ no_rows_at v original_file (rows s')
                     ∧ (in_pair original_file = true → sql_count v new_file t1 ≠ 0 →
                        no_rows_at v "Tier2" (rows s') ∧ no_rows_at v "6Months" (rows s')))
            (mkStore t [] e)) as H by exact H.
  unfold change_vendor_tier. rewrite decide_False by done.
  assert (in_pair original_file && in_pair new_file
          && bool_decide (original_file ≠ new_file) = false) as ->.
  { destruct (in_pair original_file) eqn:Ho; [|done]. by rewrite Hleave. }
  apply wp_bind. eapply wp_eq; [apply make_explicit_tier_change_calm|]. fold t1.
  destruct (decide (sql_count v new_file t1 = 0)) as [Hc|Hc].
  { rewrite bool_decide_eq_false_2 by (rewrite Hc; auto). simpl. apply wp_ret.
    split; [done|]. split; [done|]. intros _ H. by destruct H. }
  rewrite bool_decide_eq_true_2 by done. cbn [negb].
  destruct (in_pair original_file) eqn:Ho.
  - rewrite Hleave by done. cbn [negb andb].
    apply wp_bind. unfold _delete_orphaned_secondary.
    eapply wp_eq; [apply execute_dml_calm|].
    set (sibling := if decide (original_file = "Tier2") then "6Months" else "Tier2").
    eapply wp_mono.
    { apply (regular_path_checks
               (λ t0, no_rows_at v original_file t0 ∧ no_rows_at v sibling t0)).
      - apply inv_and; apply no_rows_at_duplicates.
      - apply inv_and; apply no_rows_at_unsynced.
      - split; [by apply no_rows_at_delete|apply no_rows_at_deleted]. }
    intros r0 s' (-> & H1 & H2). split; [done|]. split; [done|]. intros _ _.
    subst sibling. apply in_pair_cases in Ho as [-> | ->].
    + by rewrite decide_True in H2.
    + by rewrite decide_False in H2.
  - cbn [andb]. apply wp_bind, wp_ret.
    eapply wp_mono.
    { apply (regular_path_checks (no_rows_at v original_file));
        [apply no_rows_at_duplicates|apply no_rows_at_unsynced|done]. }
    intros r0 s' (-> & H1). split; [done|]. split; [done|]. intros; discriminate.
Qed.

(** The table of the dual-entry creation path, on a store whose calls all
    run. *)
Lemma dual_entry_creation_calm v original_file updates current t e :
  dual_entry v t = false →
  head (filter (at_key v original_file) t) = Some current →
  change_vendor_tier parse_date normalize_email v original_file "Tier2" updates
    (mkStore t [] e)
  = (Ret true,
     mkStore (dual_entry_created parse_date v original_file updates current t) [] e).
Proof.
  intros Hpair Hcur. unfold change_vendor_tier.
  rewrite decide_True by done.
  unfold get_vendor_combinations.
  erewrite bind_eq by apply sql_query_calm.
  unfold dual_entry in Hpair. rewrite Hpair.
  unfold _change_to_tier2_with_dual_entry, get_vendor_combinations, get_vendor,
    dual_entry_created.
  apply try_except_eq.
  erewrite bind_eq by apply sql_query_calm.
  erewrite bind_eq by apply sql_query_calm.
  rewrite Hcur. cbv zeta. unfold create_dual_entry_data.
  destruct (file_exists "6Months" (sql_select_vendor v t)).
  - erewrite bind_eq by apply update_single_vendor_calm. cbn [negb].
    erewrite bind_eq by apply insert_single_vendor_calm. cbn [negb].
    destruct (decide (original_file = "6Months")) as [->|Hne].
    + rewrite decide_False by (intros H; by apply H).
      erewrite bind_eq by reflexivity. cbn [negb].
      erewrite bind_eq by apply commit_calm. done.
    + rewrite decide_True by done.
      erewrite bind_eq by apply execute_dml_calm. cbn [negb].
      erewrite bind_eq by apply commit_calm. done.
  - erewrite bind_eq by apply insert_single_vendor_calm.
    erewrite bind_eq by apply insert_single_vendor_calm. cbn [negb].
    erewrite bind_eq by apply execute_dml_calm. cbn [negb].
    erewrite bind_eq by apply commit_calm. done.
Qed.

Lemma elem_of_sql_delete v f t r : r ∈ sql_delete v f t ↔ r ∈ t ∧ ¬ at_key v f r.
Proof. unfold sql_delete. rewrite list_elem_of_filter. tauto. Qed.

Lemma elem_of_sql_insert row t r : r ∈ sql_insert row t ↔ r ∈ t ∨ r = row.
Proof. unfold sql_insert. rewrite elem_of_app, list_elem_of_singleton. tauto. Qed.

Lemma at_key_other_file v f f' r : at_key v f r → f ≠ f' → ¬ at_key v f' r.
Proof. intros [_ H] Hne [_ H']. congruence. Qed.

(** X17. The dual-entry creation path, on a store whose calls all run: for
    a vendor with a non-blank number that does not hold both rows of the
    pair, a ChangeTier towards Tier2 from a tier other than Tier2 whose
    original row exists returns [True], the vendor then holds the pair, and,
    unless the original tier is 6Months, no row of the original tier. *)
Theorem change_to_tier2_establishes_pair v original_file updates current t e :
  null_like (Some v) = false →
  dual_entry v t = false → original_file ≠ "Tier2" →
  head (filter (at_key v original_file) t) = Some current →
  ∃ t',
    change_vendor_tier parse_date normalize_email v original_file "Tier2" updates
      (mkStore t [] e) = (Ret true, mkStore t' [] e)
    ∧ dual_entry v t' = true
    ∧ (original_file ≠ "6Months" → no_rows_at v original_file t').
Proof.
  intros Hv Hpair Ho Hcur. eexists. split; [by apply dual_entry_creation_calm|].
  unfold dual_entry_created.
  set (data := <[VENDOR_NUMBER := Some v]> (delete FILE updates ∪ current)).
  assert (at_key v "Tier2" (sql_cell <$> <[FILE := Some "Tier2"]> data)) as K2.
  { apply at_key_sql_cell; [done..| |apply lookup_insert_eq].
    unfold get. subst data. by rewrite lookup_insert_ne, lookup_insert_eq. }
  assert (at_key v "6Months" (sql_cell <$> <[FILE := Some "6Months"]> data)) as K6.
  { apply at_key_sql_cell; [done..| |apply lookup_insert_eq].
    unfold get. subst data. by rewrite lookup_insert_ne, lookup_insert_eq. }
  destruct (head_filter_elem _ _ _ _ Hcur) as [Hin Hk].
  destruct (file_exists "6Months" (sql_select_vendor v t)) eqn:E6.
  - apply file_exists_select in E6 as (r6 & Hr6 & Hk6).
    set (sc := set_clauses parse_date (<[FILE := Some "6Months"]> data)).
    assert (at_key v "6Months" (sc ∪ r6)) as Hk6'.
    { destruct Hk6 as [Hv6 Hf6]. split.
      - apply lookup_union_Some_l. subst sc.
        rewrite set_clauses_plain by (done || (apply (bool_decide_unpack _); by vm_compute)).
        rewrite lookup_insert_ne by done. subst data. rewrite lookup_insert_eq. simpl.
        by rewrite sql_cell_keeps.
      - rewrite lookup_union_r; [done|]. apply set_clauses_file. }
    assert (sc ∪ r6 ∈ sql_update v "6Months" sc t) as Hin6.
    { unfold sql_update. apply list_elem_of_fmap. exists r6.
      by rewrite decide_True. }
    case_decide as Ho6.
    + split; [|done]. apply dual_entry_true. split.
      * eexists. split; [apply elem_of_sql_insert; by right|done].
      * eexists. split; [apply elem_of_sql_insert; left; exact Hin6|done].
    + split; [|intros _; apply no_rows_at_deleted]. apply dual_entry_true. split.
      * eexists. split; [|exact K2]. apply elem_of_sql_delete. split.
        -- apply elem_of_sql_insert. by right.
        -- by apply (at_key_other_file v "Tier2").
      * eexists. split; [|exact Hk6']. apply elem_of_sql_delete. split.
        -- apply elem_of_sql_insert. by left.
        -- by apply (at_key_other_file v "6Months").
  - assert (original_file ≠ "6Months") as Ho6.
    { intros ->. assert (file_exists "6Months" (sql_select_vendor v t) = true) as E.
      { apply file_exists_select. by exists current. }
      congruence. }
    split; [|intros _; apply no_rows_at_deleted]. apply dual_entry_true. split.
    + eexists. split; [|exact K2]. apply elem_of_sql_delete. split.
      * apply elem_of_sql_insert. left. apply elem_of_sql_insert. by right.
      * by apply (at_key_other_file v "Tier2").
    + eexists. split; [|exact K6]. apply elem_of_sql_delete. split.
      * apply elem_of_sql_insert. by right.
      * by apply (at_key_other_file v "6Months").
Qed.

(** X18. A ChangeTier towards Tier2 from a tier the vendor does not hold,
    for a vendor that does not hold both rows of the pair, returns [False]
    and writes nothing, on a store whose calls all run. *)
Theorem change_to_tier2_needs_original_row v original_file updates t e :
  dual_entry v t = false → sql_count v original_file t = 0 →
  change_vendor_tier parse_date normalize_email v original_file "Tier2" updates
    (mkStore t [] e) = (Ret false, mkStore t [] e).
Proof.
  intros Hpair Hcount. unfold change_vendor_tier. rewrite decide_True by done.
  unfold get_vendor_combinations. erewrite bind_eq by apply sql_query_calm.
  unfold dual_entry in Hpair. rewrite Hpair.
  unfold _change_to_tier2_with_dual_entry, get_vendor_combinations, get_vendor.
  apply try_except_eq.
  erewrite bind_eq by apply sql_query_calm.
  erewrite bind_eq by apply sql_query_calm.
  apply head_filter_None in Hcount. by rewrite Hcount.
Qed.

End TierChange.

(** ** The edit form *)

Lemma same_data_refl s : same_data s s.
Proof. by split. Qed.

Lemma sql_query_same_data {A} (q : list Dict → A) s :
  same_data s (sql_query q s).2.
Proof. unfold sql_query, next_outcome. by destruct s as [t [|[] os] e]. Qed.

Lemma pair_exists_outcome original s :
  ∃ both, (pair_exists original s).1 = Ret both ∧ same_data s (pair_exists original s).2.
Proof.
  unfold pair_exists, get_vendor_combinations, try_except, bind.
  pose proof (sql_query_same_data
                (sql_select_vendor (py_str (default (Some "") (original !! VENDOR_NUMBER)))) s)
    as H.
  destruct (sql_query _ s) as [[l|] s']; simpl in *; eauto.
Qed.

Section EditForm.
Variable normalize_email : string → string.
Variable email_list_ok : string → bool.

Lemma calculate_changes_same original :
  calculate_changes normalize_email original original = ∅.
Proof.
  apply map_empty. intros field. unfold calculate_changes.
  rewrite map_lookup_imap. destruct (original !! field) as [x|] eqn:E; [|done].
  simpl. case_decide; by rewrite decide_False by (intros Hne; by apply Hne).
Qed.

Lemma calculate_changes_absent original updated field :
  updated !! field = None →
  calculate_changes normalize_email original updated !! field = None.
Proof. intros H. unfold calculate_changes. by rewrite map_lookup_imap, H. Qed.

(** The FILE entry of the computed changes is the new FILE value without
    its surrounding blanks. *)
Lemma calculate_changes_file original updated x :
  calculate_changes normalize_email original updated !! FILE = Some x →
  ∃ new_value, updated !! FILE = Some new_value ∧ x = Some (strip (py_str new_value)).
Proof.
  unfold calculate_changes. rewrite map_lookup_imap.
  destruct (updated !! FILE) as [new_value|]; [|done]. simpl.
  case_decide; [|done]. intros [= <-]. eauto.
Qed.

(** What [save_vendor_changes] leaves behind: the data of the store as it
    was, and either a rejection with the session as it was, or the changes
    staged in the session. *)
Lemma save_vendor_changes_outcome original updated_data ss s :
  let r := save_vendor_changes normalize_email email_list_ok original updated_data ss s in
  let original_file := default (Some "") (original !! FILE) in
  let new_file := default original_file (updated_data !! FILE) in
  let computed := calculate_changes normalize_email original updated_data in
  same_data s r.2
  ∧ ((r.1 = Ret (Tier1Blocked, ss) ∧ new_file = Some "Tier1" ∧ original_file ≠ Some "Tier1")
     ∨ r.1 = Ret (ValidationErrors, ss)
     ∨ (r.1 = Ret (NoChanges, ss) ∧ validate_vendor_data email_list_ok updated_data = true)
     ∨ ∃ screen ss' changes,
         r.1 = Ret (screen, ss')
         ∧ (screen = TierWarning ∨ screen = ChangesSummary)
         ∧ ¬ (new_file = Some "Tier1" ∧ original_file ≠ Some "Tier1")
         ∧ validate_vendor_data email_list_ok updated_data = true
         ∧ pending_changes ss' = Some changes ∧ changes ≠ ∅
         ∧ (changes = computed
            ∨ (changes = <[FILE := new_file]> computed ∧ original_file ≠ new_file))
         ∧ original_vendor ss' = Some original
         ∧ file_changing ss' = bool_decide (original_file ≠ new_file)
         ∧ (screen = TierWarning → original_file ≠ new_file)).
Proof.
  intros r original_file new_file computed. subst r.
  unfold save_vendor_changes. fold original_file. fold new_file. fold computed.
  case_decide as Hblock.
  { split; [apply same_data_refl|]. left. by destruct Hblock. }
  destruct (validate_vendor_data email_list_ok updated_data) eqn:Hvalid; cbn [negb].
  2:{ split; [apply same_data_refl|]. right. by left. }
  set (changing := bool_decide (original_file ≠ new_file)).
  set (changes := if changing && bool_decide (computed !! FILE = None)
                  then <[FILE := new_file]> computed else computed).
  assert (changes = computed ∨ (changes = <[FILE := new_file]> computed
                                ∧ original_file ≠ new_file)) as Hchanges.
  { subst changes. destruct changing eqn:Hc; [|by left].
    destruct (bool_decide (computed !! FILE = None)); [|by left].
    right. split; [done|]. by apply bool_decide_eq_true in Hc. }
  case_decide as Hempty.
  { split; [apply same_data_refl|]. right. right. left. by split. }
  match goal with
  | |- context [bind ?m ?k] =>
      assert (∃ w s1, m s = (Ret w, s1) ∧ same_data s s1
                      ∧ (w ≠ None → changing = true)) as (w & s1 & Ew & Hs & Hw);
        [|rewrite (bind_eq m k s w s1 Ew)]
  end.
  { destruct changing; [|by exists None, s].
    repeat match goal with
    | |- context [if ?b then _ else _] => destruct b
    end;
      try (eexists _, s; split; [reflexivity|]; split; [apply same_data_refl|done]);
      destruct (pair_exists_outcome original s) as (both & Eb & Hb);
      unfold bind; destruct (pair_exists original s) as [[both'|] s1];
      simpl in Eb; try discriminate; simpl;
      (eexists _, s1; split; [reflexivity|]; split; [exact Hb|done]). }
  destruct w as [w|]; simpl.
  - split; [done|]. right. right. right.
    exists TierWarning, (mkSession (Some "warning") (Some w) (Some changes)
                           (Some original) changing), changes.
    split_and!; try done; [by left|].
    intros _. apply (bool_decide_eq_true (original_file ≠ new_file)). by apply Hw.
  - split; [done|]. right. right. right.
    exists ChangesSummary, (mkSession (tier_change_state ss) (tier_change_warning ss)
                              (Some changes) (Some original) changing), changes.
    split_and!; try done; by right.
Qed.

(** X19. Whatever the storage does, [save_vendor_changes] only stages: it
    returns without raising and leaves the table and the recorded error as
    they are; when it ends with the Tier1 block, the validation errors or
    "no changes", the session is as before; when it ends with the tier
    warning or the summary, the session holds the original record and a
    non-empty set of pending changes. *)
Theorem save_vendor_changes_reads_only original updated_data ss s :
  let r := save_vendor_changes normalize_email email_list_ok original updated_data ss s in
  rows r.2 = rows s ∧ last_error r.2 = last_error s
  ∧ ∃ screen ss', r.1 = Ret (screen, ss')
      ∧ (screen ∈ [Tier1Blocked; ValidationErrors; NoChanges] → ss' = ss)
      ∧ (screen ∈ [TierWarning; ChangesSummary] →
         original_vendor ss' = Some original
         ∧ ∃ changes, pending_changes ss' = Some changes ∧ changes ≠ ∅).
Proof.
  intros r.
  destruct (save_vendor_changes_outcome original updated_data ss s)
    as [[Hr He] H].
  fold r in Hr, He, H. split; [done|]. split; [done|].
  assert (∀ screen : Screen, screen ∈ [TierWarning; ChangesSummary] →
            screen ∈ [Tier1Blocked; ValidationErrors; NoChanges] → False) as Hdisj.
  { intros screen H1 H2. rewrite !elem_of_cons, elem_of_nil in H1.
    rewrite !elem_of_cons, elem_of_nil in H2.
    destruct H1 as [->|[->|[]]], H2 as [?|[?|[?|[]]]]; discriminate. }
  destruct H as [(E & _)|[E|[[E _]|(screen & ss' & changes & E & Hscreen & _ & _ & Hp & Hne
                                     & _ & Ho & _)]]].
  - exists Tier1Blocked, ss. split; [done|]. split; [done|].
    intros H. exfalso. apply (Hdisj Tier1Blocked H). left.
  - exists ValidationErrors, ss. split; [done|]. split; [done|].
    intros H. exfalso. apply (Hdisj ValidationErrors H). right. left.
  - exists NoChanges, ss. split; [done|]. split; [done|].
    intros H. exfalso. apply (Hdisj NoChanges H). right. right. left.
  - exists screen, ss'. split; [done|]. split.
    + intros H. exfalso. apply (Hdisj screen); [|done].
      destruct Hscreen as [-> | ->]; [left|right; left].
    + intros _. split; [done|]. by exists changes.
Qed.

(** X20. Submitting a valid record as it is: [save_vendor_changes] reports
    "no changes", whatever the record's tier (Tier1 included), and leaves
    the session and the store untouched. *)
Theorem save_unchanged_form original ss s :
  validate_vendor_data email_list_ok original = true →
  save_vendor_changes normalize_email email_list_ok original original ss s
  = (Ret (NoChanges, ss), s).
Proof.
  intros Hvalid. unfold save_vendor_changes.
  assert (default (default (Some "") (original !! FILE)) (original !! FILE)
          = default (Some "") (original !! FILE)) as -> by by destruct (original !! FILE).
  rewrite decide_False by tauto. rewrite Hvalid. cbn [negb].
  rewrite bool_decide_eq_false_2 by (intros H; by apply H). cbn [andb].
  by rewrite calculate_changes_same, decide_True.
Qed.

End EditForm.

(** ** Confirming the staged changes *)

Lemma inv_raise {A} (P : list Dict → Prop) : inv P (@raise A).
Proof. by intros s Hs. Qed.

Lemma file_options_strip f : f ∈ file_options → strip f = f.
Proof.
  unfold file_options. rewrite !elem_of_cons, elem_of_nil.
  intros [->|[->|[->|[->|[]]]]]; reflexivity.
Qed.

Section EditFlow.
Variable parse_date : string → option string.
Variable normalize_email : string → string.
Variable email_list_ok : string → bool.

(** [confirm_vendor_changes] keeps what the engine call it dispatches to
    keeps. *)
Lemma confirm_vendor_changes_inv (P : list Dict → Prop) ss :
  (∀ changes original vendor_number original_file,
     pending_changes ss = Some changes → original_vendor ss = Some original →
     original !! VENDOR_NUMBER = Some vendor_number →
     original !! FILE = Some original_file →
     let new_file := default original_file (changes !! FILE) in
     if file_changing ss && bool_decide (original_file ≠ new_file)
     then inv P (change_vendor_tier parse_date normalize_email (py_str vendor_number)
                   (py_str original_file) (py_str new_file) changes)
     else inv P (update_vendor parse_date (py_str vendor_number)
                   (py_str original_file) changes)) →
  inv P (confirm_vendor_changes parse_date normalize_email ss).
Proof.
  intros H. unfold confirm_vendor_changes. apply inv_try_except.
  destruct (pending_changes ss) as [changes|]; [|apply inv_raise].
  destruct (original_vendor ss) as [original|]; [|apply inv_raise].
  unfold subscript.
  destruct (original !! VENDOR_NUMBER) as [vendor_number|] eqn:Ev; [|apply inv_raise].
  destruct (original !! FILE) as [original_file|] eqn:Ef; [|apply inv_raise].
  specialize (H changes original vendor_number original_file eq_refl eq_refl Ev Ef).
  cbv zeta in *.
  apply inv_bind.
  { destruct (file_changing ss && _); by apply inv_try_except. }
  intros []; [|apply inv_ret].
  apply inv_bind; [|intros; apply inv_ret].
  apply inv_try_except, inv_bind; [apply inv_sql_query|]. intros. apply inv_ret.
Qed.

(** X21. The edit flow keeps the Tier1 guard end to end: when
    [save_vendor_changes] stages the changes of a submission whose FILE is
    one of the options of the form, and [confirm_vendor_changes] then runs
    on the session it wrote, a vendor that held no Tier1 row holds none
    afterwards, whatever the storage does. *)
Theorem edit_flow_keeps_tier1_guard original updated_data ss s vendor_number f
    screen ss1 :
  original !! VENDOR_NUMBER = Some vendor_number →
  updated_data !! FILE = Some (Some f) → f ∈ file_options →
  let r1 := save_vendor_changes normalize_email email_list_ok original updated_data ss s in
  r1.1 = Ret (screen, ss1) → screen ∈ [TierWarning; ChangesSummary] →
  let r2 := confirm_vendor_changes parse_date normalize_email ss1 r1.2 in
  no_rows_at (py_str vendor_number) "Tier1" (rows s) →
  no_rows_at (py_str vendor_number) "Tier1" (rows r2.2).
Proof.
  intros Hvn Hf Hopt r1 E1 Hscreen r2 Hs.
  destruct (save_vendor_changes_outcome normalize_email email_list_ok
              original updated_data ss s) as [[Hrows _] Hout].
  fold r1 in Hrows, Hout. cbv zeta in Hout. rewrite Hf in Hout. cbn [default] in Hout.
  assert (∃ changes,
            pending_changes ss1 = Some changes ∧ original_vendor ss1 = Some original
            ∧ (changes !! FILE = None ∨ changes !! FILE = Some (Some f))
            ∧ (f = "Tier1" → original !! FILE = Some (Some "Tier1")))
    as (changes & Hp & Ho & HcF & Hguard).
  { rewrite E1 in Hout.
    rewrite !elem_of_cons, elem_of_nil in Hscreen.
    destruct Hout as [[E _]|[E|[[E _]|(screen' & ss' & changes & E & _ & Hblock & _
                                       & Hp & _ & Hch & Ho & _)]]];
      try (injection E as -> _; destruct Hscreen as [?|[?|[]]]; discriminate).
    injection E as -> ->. exists changes. split; [done|]. split; [done|]. split.
    - destruct Hch as [->|[-> _]]; [|right; apply lookup_insert_eq].
      destruct (calculate_changes normalize_email original updated_data !! FILE)
        as [x|] eqn:Ex; [|by left].
      right. apply calculate_changes_file in Ex as (new_value & Hnv & ->).
      rewrite Hf in Hnv. injection Hnv as <-. simpl. by rewrite file_options_strip.
    - intros ->. destruct (original !! FILE) as [[x|]|]; simpl in Hblock;
        try (exfalso; apply Hblock; by split).
      destruct (decide (x = "Tier1")) as [->|Hx]; [done|].
      exfalso. apply Hblock. split; [done|congruence]. }
  subst r2. revert Hs. rewrite <- Hrows.
  apply (confirm_vendor_changes_inv (no_rows_at (py_str vendor_number) "Tier1") ss1).
  intros changes' original' vendor_number' original_file Hp' Ho' Hvn' Hof new_file.
  rewrite Hp in Hp'. injection Hp' as <-. rewrite Ho in Ho'. injection Ho' as <-.
  rewrite Hvn in Hvn'. injection Hvn' as <-.
  destruct (file_changing ss1 && bool_decide (original_file ≠ new_file)) eqn:Htc;
    [|apply no_rows_at_update_vendor].
  apply andb_true_iff in Htc as [_ Hne%bool_decide_eq_true].
  subst new_file. destruct HcF as [Hc|Hc]; rewrite Hc in Hne |- *; simpl in *; [done|].
  apply no_rows_at_change_vendor_tier.
  - intros ->. apply Hne. specialize (Hguard eq_refl). congruence.
  - intros -> ?. discriminate.
Qed.

(** X22. An edit that does not change FILE and submits no 'Vendor Number'
    changes no key, end to end and whatever the storage does: after
    [save_vendor_changes] and [confirm_vendor_changes] the FILE and the
    Vendor Number of every row of the table are as before. *)
Theorem field_edit_keeps_keys original updated_data ss s screen ss1 :
  updated_data !! VENDOR_NUMBER = None →
  updated_data !! FILE = original !! FILE →
  let r1 := save_vendor_changes normalize_email email_list_ok original updated_data ss s in
  r1.1 = Ret (screen, ss1) → screen ∈ [TierWarning; ChangesSummary] →
  let r2 := confirm_vendor_changes parse_date normalize_email ss1 r1.2 in
  column FILE (rows r2.2) = column FILE (rows s)
  ∧ column VENDOR_NUMBER (rows r2.2) = column VENDOR_NUMBER (rows s).
Proof.
  intros Hvn HF r1 E1 Hscreen r2.
  destruct (save_vendor_changes_outcome normalize_email email_list_ok
              original updated_data ss s) as [[Hrows _] Hout].
  fold r1 in Hrows, Hout. cbv zeta in Hout.
  assert (default (default (Some "") (original !! FILE)) (updated_data !! FILE)
          = default (Some "") (original !! FILE)) as Hsame.
  { rewrite HF. by destruct (original !! FILE). }
  rewrite Hsame in Hout.
  assert (pending_changes ss1
          = Some (calculate_changes normalize_email original updated_data)
          ∧ file_changing ss1 = false) as [Hp Hfc].
  { rewrite E1 in Hout.
    rewrite !elem_of_cons, elem_of_nil in Hscreen.
    destruct Hout as [[E _]|[E|[[E _]|(screen' & ss' & changes & E & _ & _ & _
                                       & Hp & _ & Hch & _ & Hfc & _)]]];
      try (injection E as -> _; destruct Hscreen as [?|[?|[]]]; discriminate).
    injection E as -> ->. destruct Hch as [->|[_ Hne]]; [|done].
    split; [done|]. rewrite Hfc. by apply bool_decide_eq_false_2; intros Hne; apply Hne. }
  subst r2.
  set (P := λ t, column FILE t = column FILE (rows s)
                 ∧ column VENDOR_NUMBER t = column VENDOR_NUMBER (rows s)).
  assert (P (rows r1.2)) as HP by by rewrite Hrows.
  revert HP.
  apply (confirm_vendor_changes_inv P ss1).
  intros changes original' vendor_number original_file Hp' _ _ _ new_file.
  rewrite Hfc. cbn [andb]. rewrite Hp in Hp'. injection Hp' as <-.
  apply inv_update_vendor. intros f' t [H1 H2]. split.
  - rewrite <- H1. apply sql_update_column, set_clauses_file.
  - rewrite <- H2. apply sql_update_column, set_clauses_absent.
    by apply calculate_changes_absent.
Qed.

End EditFlow.

(** ** The new-entry form *)

Lemma new_vendor_data_keys vendor_number selected widget :
  new_vendor_data vendor_number selected widget !! VENDOR_NUMBER = Some (Some vendor_number)
  ∧ new_vendor_data vendor_number selected widget !! FILE
    = Some (Some (new_entry_file selected)).
Proof.
  unfold new_vendor_data, get_editable_fields. cbn [foldl]. split.
  - rewrite !lookup_insert_ne by done. by rewrite lookup_singleton_eq.
  - rewrite !lookup_insert_ne by done. by rewrite lookup_insert_eq.
Qed.

Lemma new_entry_file_not_tier1 selected : new_entry_file selected ≠ "Tier1".
Proof. unfold new_entry_file. case_decide; [done|congruence]. Qed.

Lemma rows_to_insert_file vendor_data row :
  row ∈ rows_to_insert vendor_data →
  get row FILE = Some "Tier2" ∨ get row FILE = Some "6Months"
  ∨ get row FILE = sql_cell (get vendor_data FILE).
Proof.
  unfold rows_to_insert. case_decide.
  - cbn [create_dual_entry_data fst snd]. rewrite !elem_of_cons, elem_of_nil.
    intros [->|[->|[]]]; rewrite get_fmap_sql_cell; unfold get;
      rewrite lookup_insert_eq; [by left|right; by left].
  - intros ->%list_elem_of_singleton. right. right. apply get_fmap_sql_cell.
Qed.

Lemma insert_vendor_calm vendor_data t e :
  insert_vendor vendor_data (mkStore t [] e)
  = (Ret true, mkStore (t ++ rows_to_insert vendor_data) [] e).
Proof.
  unfold insert_vendor, _insert_dual_entry_vendor, rows_to_insert. case_decide.
  - cbn [create_dual_entry_data fst snd].
    erewrite bind_eq by apply insert_single_vendor_calm. cbv beta iota.
    rewrite insert_single_vendor_calm. unfold sql_insert. by rewrite <- app_assoc.
  - apply insert_single_vendor_calm.
Qed.

Section NewEntryForm.
Variable email_list_ok : string → bool.

(** What [save_new_vendor] leaves behind. *)
Lemma save_new_vendor_outcome vendor_data file_value s :
  let r := save_new_vendor email_list_ok vendor_data file_value s in
  ∃ screen added,
    r.1 = Ret screen ∧ rows r.2 = rows s ++ added
    ∧ added `sublist_of` rows_to_insert vendor_data
    ∧ (screen = NewTier1Blocked → file_value = "Tier1")
    ∧ (added ≠ [] →
       file_value ≠ "Tier1"
       ∧ validate_vendor_data email_list_ok vendor_data = true
       ∧ missing_fields vendor_data = []).
Proof.
  intros r. subst r. unfold save_new_vendor, try_except.
  case_decide as Ht.
  { exists NewTier1Blocked, []. rewrite app_nil_r.
    split_and!; try done. apply sublist_nil_l. }
  destruct (validate_vendor_data email_list_ok vendor_data) eqn:Hvalid; cbn [negb].
  2:{ exists NewValidationErrors, []. rewrite app_nil_r.
      split_and!; try done. apply sublist_nil_l. }
  case_decide as Hm.
  { exists RequiredMissing, []. rewrite app_nil_r.
    split_and!; try done. apply sublist_nil_l. }
  destruct (insert_vendor_outcome vendor_data s) as (b & added & Eb & Er & Hsub & _).
  unfold bind. destruct (insert_vendor vendor_data s) as [[b'|] s1]; simpl in *;
    [|discriminate].
  injection Eb as ->.
  destruct b; simpl; eexists _, added; split_and!; try done.
Qed.

(** X23. Whatever the storage does, [save_new_vendor] returns without
    raising and only appends rows it set out to insert; and it appends a
    row only if its [file_value] is not Tier1, the record passes the
    validation, every required field of the record is non-empty, and the
    Vendor Number has at least three characters between its surrounding
    blanks. *)
Theorem save_new_vendor_writes_checked_data vendor_data file_value s :
  let r := save_new_vendor email_list_ok vendor_data file_value s in
  (∃ screen, r.1 = Ret screen)
  ∧ ∃ added,
      rows r.2 = rows s ++ added
      ∧ added `sublist_of` rows_to_insert vendor_data
      ∧ (added ≠ [] →
         file_value ≠ "Tier1"
         ∧ validate_vendor_data email_list_ok vendor_data = true
         ∧ (∀ field, field ∈ get_required_fields →
              truthy (get vendor_data field) = true)
         ∧ ∃ number, get vendor_data VENDOR_NUMBER = Some number
                     ∧ (3 ≤ py_len (strip number))%nat).
Proof.
  intros r.
  destruct (save_new_vendor_outcome vendor_data file_value s)
    as (screen & added & E & Er & Hsub & _ & Hadded).
  fold r in E, Er. split; [by exists screen|].
  exists added. split; [done|]. split; [done|].
  intros Hne. destruct (Hadded Hne) as (Ht & Hvalid & Hm).
  assert (∀ field, field ∈ get_required_fields → truthy (get vendor_data field) = true)
    as Hreq.
  { intros field Hfield. destruct (truthy (get vendor_data field)) eqn:E1; [done|].
    assert (field ∈ missing_fields vendor_data) as Hin.
    { unfold missing_fields. by apply list_elem_of_filter. }
    rewrite Hm in Hin. by apply elem_of_nil in Hin. }
  split_and!; try done.
  assert (truthy (get vendor_data VENDOR_NUMBER) = true) as Htv.
  { apply Hreq. unfold get_required_fields. left. }
  destruct (get vendor_data VENDOR_NUMBER) as [number|] eqn:En; [|done].
  exists number. split; [done|].
  apply get_Some in En.
  unfold validate_vendor_data in Hvalid. apply bool_decide_eq_true in Hvalid.
  specialize (Hvalid VENDOR_NUMBER (Some number) En). simpl in Hvalid.
  unfold field_valid in Hvalid. rewrite Htv in Hvalid.
  rewrite decide_False in Hvalid
    by (apply (bool_decide_unpack (VENDOR_NUMBER ∉ email_fields)); vm_compute; exact I).
  rewrite decide_True in Hvalid by done.
  by apply bool_decide_eq_true in Hvalid.
Qed.

(** X24. Whatever is selected and entered and whatever the storage does,
    the submission of the new-entry form never ends with the Tier1 block of
    [save_new_vendor] (the form has replaced a selected Tier1 by Tier2), and
    no row it appends has FILE Tier1. *)
Theorem new_entry_form_never_stores_tier1 vendor_number selected widget s :
  let r := submit_new_entry email_list_ok vendor_number selected widget s in
  r.1 ≠ Ret NewTier1Blocked
  ∧ ∃ added, rows r.2 = rows s ++ added
             ∧ Forall (λ row, get row FILE ≠ Some "Tier1") added.
Proof.
  intros r. subst r. unfold submit_new_entry.
  destruct (save_new_vendor_outcome
              (new_vendor_data vendor_number selected widget)
              (new_entry_file selected) s)
    as (screen & added & E & Er & Hsub & Hblocked & _).
  split.
  - rewrite E. intros [= ->]. by apply (new_entry_file_not_tier1 selected), Hblocked.
  - exists added. split; [done|]. apply Forall_forall. intros row Hrow.
    assert (row ∈ rows_to_insert (new_vendor_data vendor_number selected widget)) as Hin.
    { by eapply elem_of_sublist. }
    destruct (new_vendor_data_keys vendor_number selected widget) as [_ HF].
    apply rows_to_insert_file in Hin as [-> | [-> | ->]]; [done..|].
    unfold get. rewrite HF. simpl. intros H%sql_cell_Some.
    injection H as H. by apply (new_entry_file_not_tier1 selected).
Qed.

(** X25. Selecting Tier1 on the new-entry form creates the Tier2 pair: for
    entries that pass the checks and a non-blank vendor number, on a store
    whose calls all run, the submission inserts a Tier2 row and a 6Months
    row, reports the creation of both, and the vendor holds the pair. *)
Theorem new_entry_tier1_creates_pair vendor_number widget t e :
  let vendor_data := new_vendor_data vendor_number "Tier1" widget in
  validate_vendor_data email_list_ok vendor_data = true →
  missing_fields vendor_data = [] →
  null_like (Some vendor_number) = false →
  let t' := t ++ [sql_cell <$> <[FILE := Some "Tier2"]> vendor_data;
                  sql_cell <$> <[FILE := Some "6Months"]> vendor_data] in
  vendor_data !! FILE = Some (Some "Tier2")
  ∧ submit_new_entry email_list_ok vendor_number "Tier1" widget (mkStore t [] e)
    = (Ret (Created true), mkStore t' [] e)
  ∧ dual_entry vendor_number t' = true.
Proof.
  intros vendor_data Hvalid Hm Hv t'.
  destruct (new_vendor_data_keys vendor_number "Tier1" widget) as [Kv KF].
  fold vendor_data in Kv, KF. change (new_entry_file "Tier1") with "Tier2" in KF.
  split; [done|]. split.
  - unfold submit_new_entry, save_new_vendor. fold vendor_data.
    change (new_entry_file "Tier1") with "Tier2".
    apply try_except_eq. rewrite decide_False by done. rewrite Hvalid. cbn [negb].
    rewrite decide_False by (intros H; by apply H).
    erewrite bind_eq by apply insert_vendor_calm. cbv beta iota.
    unfold rows_to_insert. by rewrite decide_True by by apply get_Some.
  - apply dual_entry_true. split.
    + eexists. split; [apply elem_of_app; right; left|].
      apply at_key_sql_cell; [done..| |apply lookup_insert_eq].
      apply get_Some. by rewrite lookup_insert_ne.
    + eexists. split; [apply elem_of_app; right; right; left|].
      apply at_key_sql_cell; [done..| |apply lookup_insert_eq].
      apply get_Some. by rewrite lookup_insert_ne.
Qed.

(** X26. A required field that holds only blanks passes the check of
    [save_new_vendor] (it is a non-empty string) and is stored as NULL: on
    a store whose calls all run the record is created and the inserted row
    has no value in that column. *)
Theorem blank_required_field_stored_null vendor_data file_value field x t e :
  file_value ≠ "Tier1" →
  validate_vendor_data email_list_ok vendor_data = true →
  missing_fields vendor_data = [] →
  get vendor_data FILE ≠ Some "Tier2" →
  field ∈ get_required_fields → get vendor_data field = Some x → strip x = "" →
  let row := sql_cell <$> vendor_data in
  save_new_vendor email_list_ok vendor_data file_value (mkStore t [] e)
  = (Ret (Created (bool_decide (file_value = "Tier2"))), mkStore (t ++ [row]) [] e)
  ∧ truthy (get vendor_data field) = true
  ∧ get row field = None.
Proof.
  intros Ht Hvalid Hm HF Hfield Hx Hblank row. split; [|split].
  - unfold save_new_vendor. apply try_except_eq.
    rewrite decide_False by done. rewrite Hvalid. cbn [negb].
    rewrite decide_False by (intros H; by apply H).
    erewrite bind_eq by apply insert_vendor_calm. cbv beta iota.
    unfold rows_to_insert. by rewrite decide_False.
  - destruct (truthy (get vendor_data field)) eqn:E1; [done|].
    assert (field ∈ missing_fields vendor_data) as Hin.
    { unfold missing_fields. by apply list_elem_of_filter. }
    rewrite Hm in Hin. by apply elem_of_nil in Hin.
  - subst row. rewrite get_fmap_sql_cell, Hx. unfold sql_cell, null_like.
    by rewrite (bool_decide_eq_true_2 (strip x = "")), orb_true_r.
Qed.

End NewEntryForm.

(** ** The search results *)

Lemma vendor_groups_foldl l g0 :
  Forall (λ r : Dict, is_Some (r !! VENDOR_NUMBER)) l →
  foldl (λ groups vendor,
      match groups, subscript vendor VENDOR_NUMBER with
      | Some groups, Some vendor_number => Some (group_add vendor_number vendor groups)
      | _, _ => None
      end) (Some g0) l
  = Some (foldl (λ groups entry, group_add (get entry VENDOR_NUMBER) entry groups) g0 l).
Proof.
  revert g0. induction l as [|r l IH]; intros g0 Hl; [done|].
  apply Forall_cons in Hl as [[x Hx] Hl]. cbn [foldl]. unfold subscript at 2.
  rewrite Hx. unfold get at 2. rewrite Hx. cbn [default]. by apply IH.
Qed.

Lemma file_values_of_Some es :
  Forall (λ r : Dict, is_Some (r !! FILE)) es →
  file_values_of es = Some ((λ v, get v FILE) <$> es).
Proof.
  intros H. unfold file_values_of. apply mapM_Some. 
  induction H as [|r es [x Hx] H IH]; [constructor|].
  rewrite fmap_cons. constructor; [|done]. unfold subscript, get. by rewrite Hx.
Qed.

(** The second loop of [process_search_results], by what it adds to the
    three results. *)
Lemma classify_groups_spec gs :
  Forall (λ g : Value * list Dict, Forall (λ r : Dict, is_Some (r !! FILE)) g.2) gs →
  ∀ h t2 ot, ∃ h' t2' ot',
    foldl classify_group (Some (h, t2, ot)) gs = Some (h', t2', ot')
    ∧ (∀ r, r ∈ t2' ↔
         r ∈ t2 ∨ ∃ k es, (k, es) ∈ gs ∧ r ∈ es
                  ∧ (∃ r2, r2 ∈ es ∧ get r2 FILE = Some "Tier2")
                  ∧ (∃ r6, r6 ∈ es ∧ get r6 FILE = Some "6Months")
                  ∧ (get r FILE = Some "Tier2" ∨ get r FILE = Some "6Months"))
    ∧ (∀ r, r ∈ ot' ↔
         r ∈ ot ∨ ∃ k es, (k, es) ∈ gs ∧ r ∈ es
                  ∧ ¬ ((∃ r2, r2 ∈ es ∧ get r2 FILE = Some "Tier2")
                       ∧ (∃ r6, r6 ∈ es ∧ get r6 FILE = Some "6Months")))
    ∧ (h' = true ↔
         h = true ∨ ∃ k es, (k, es) ∈ gs
                  ∧ (∃ r2, r2 ∈ es ∧ get r2 FILE = Some "Tier2")
                  ∧ (∃ r6, r6 ∈ es ∧ get r6 FILE = Some "6Months")).
Proof.
  induction gs as [|[k es] gs IH]; intros Hgs h t2 ot.
  { exists h, t2, ot. split; [done|].
    split_and!; intros; (split; [by left|]);
      intros [?|(? & ? & []%elem_of_nil & _)]; done. }
  apply Forall_cons in Hgs as [Hes Hgs]. cbn [snd] in Hes.
  cbn [foldl]. unfold classify_group at 2. cbn [snd].
  rewrite (file_values_of_Some es Hes).
  assert (∀ f, Some f ∈ (λ v, get v FILE) <$> es ↔ ∃ r, r ∈ es ∧ get r FILE = Some f)
    as Hin.
  { intros f. rewrite list_elem_of_fmap. split; intros (r & ? & ?); by exists r. }
  case_decide as Hdual.
  - destruct (IH Hgs true
                (t2 ++ filter (λ v, get v FILE ∈ [Some "Tier2"; Some "6Months"]) es) ot)
      as (h' & t2' & ot' & E & H2 & Ho & Hh).
    exists h', t2', ot'. split; [done|]. rewrite !Hin in Hdual. split_and!.
    + intros r. rewrite H2, elem_of_app, list_elem_of_filter.
      rewrite !elem_of_cons, elem_of_nil. split.
      * intros [[?|[Hf ?]]|(k' & es' & ? & ?)]; [by left| |].
        -- right. exists k, es. split; [left|]. split; [done|].
           destruct Hdual. split_and!; try done. tauto.
        -- right. exists k', es'. split; [by right|done].
      * intros [?|(k' & es' & [[= -> ->]|?]%elem_of_cons & ? & ? & ? & ?)].
        -- by left; left.
        -- left. right. tauto.
        -- right. exists k', es'. tauto.
    + intros r. rewrite Ho. split.
      * intros [?|(k' & es' & ? & ?)]; [by left|].
        right. exists k', es'. split; [by right|done].
      * intros [?|(k' & es' & [[= -> ->]|?]%elem_of_cons & ? & Hn)]; [by left|done|].
        right. by exists k', es'.
    + rewrite Hh. split; [intros _|by left].
      right. exists k, es. split; [left|done].
  - destruct (IH Hgs h t2 (ot ++ es)) as (h' & t2' & ot' & E & H2 & Ho & Hh).
    exists h', t2', ot'. split; [done|]. rewrite !Hin in Hdual. split_and!.
    + intros r. rewrite H2. split.
      * intros [?|(k' & es' & ? & ?)]; [by left|].
        right. exists k', es'. split; [by right|done].
      * intros [?|(k' & es' & [[= -> ->]|?]%elem_of_cons & ? & ? & ? & ?)];
          [by left|tauto|].
        right. exists k', es'. tauto.
    + intros r. rewrite Ho, elem_of_app. split.
      * intros [[?|?]|(k' & es' & ? & ?)]; [by left| |].
        -- right. exists k, es. split; [left|done].
        -- right. exists k', es'. split; [by right|done].
      * intros [?|(k' & es' & [[= -> ->]|?]%elem_of_cons & ? & Hn)].
        -- by left; left.
        -- left. by right.
        -- right. by exists k', es'.
    + rewrite Hh. split.
      * intros [?|(k' & es' & ? & ?)]; [by left|].
        right. exists k', es'. split; [by right|done].
      * intros [?|(k' & es' & [[= -> ->]|?]%elem_of_cons & ? & ?)];
          [by left|tauto|].
        right. by exists k', es'.
Qed.

(** X27. What [process_search_results] lists, for records that carry the
    two key columns: the result keeps the records; a record is listed as a
    dual entry exactly when its vendor number has a Tier2 and a 6Months
    record among the results and its own FILE is Tier2 or 6Months; it is
    listed as a single entry exactly when its vendor number does not have
    both; [has_dual_entries] is set exactly when some vendor number has
    both; and a record of another tier whose vendor number has both is in
    neither list. *)
Theorem process_search_results_lists df :
  Forall (λ r : Dict, is_Some (r !! VENDOR_NUMBER) ∧ is_Some (r !! FILE)) df →
  ∃ res,
    process_search_results df = Some res
    ∧ vendors res = df
    ∧ (∀ r, r ∈ tier2_entries res ↔
         r ∈ df ∧ dual_vendor df (get r VENDOR_NUMBER)
         ∧ (get r FILE = Some "Tier2" ∨ get r FILE = Some "6Months"))
    ∧ (∀ r, r ∈ other_entries res ↔
         r ∈ df ∧ ¬ dual_vendor df (get r VENDOR_NUMBER))
    ∧ (has_dual_entries res = true ↔ ∃ k, dual_vendor df k)
    ∧ (∀ r, r ∈ df → dual_vendor df (get r VENDOR_NUMBER) →
         get r FILE ≠ Some "Tier2" → get r FILE ≠ Some "6Months" →
         (r ∉ tier2_entries res) ∧ (r ∉ other_entries res)).
Proof.
  intros Hdf.
  enough (∃ res,
    process_search_results df = Some res
    ∧ vendors res = df
    ∧ (∀ r, r ∈ tier2_entries res ↔
         r ∈ df ∧ dual_vendor df (get r VENDOR_NUMBER)
         ∧ (get r FILE = Some "Tier2" ∨ get r FILE = Some "6Months"))
    ∧ (∀ r, r ∈ other_entries res ↔
         r ∈ df ∧ ¬ dual_vendor df (get r VENDOR_NUMBER))
    ∧ (has_dual_entries res = true ↔ ∃ k, dual_vendor df k))
    as (res & E & Hv & H2 & Ho & Hh).
  { exists res. split_and!; try done.
    intros r Hr Hd HF2 HF6. rewrite H2, Ho. tauto. }
  unfold process_search_results. case_decide as Hnil.
  { subst. eexists. split; [done|]. split; [done|]. cbn.
    split_and!.
    - intros r. split; [by intros ?%elem_of_nil|by intros [?%elem_of_nil _]].
    - intros r. split; [by intros ?%elem_of_nil|by intros [?%elem_of_nil _]].
    - split; [done|]. by intros (k & (r & ?%elem_of_nil & _) & _). }
  set (key := λ e : Dict, get e VENDOR_NUMBER).
  set (g := foldl (λ groups entry, group_add (key entry) entry groups) [] df).
  assert (vendor_groups df = Some g) as ->.
  { apply vendor_groups_foldl. eapply Forall_impl; [exact Hdf|]. by intros r [? _]. }
  assert (grouped key g df) as (Hnd & Hes & Hall).
  { apply (grouped_foldl key [] [] df).
    split; [constructor|]. split; [intros k es H|intros e H]; by apply elem_of_nil in H. }
  assert (∀ k es r, (k, es) ∈ g → r ∈ es ↔ r ∈ df ∧ key r = k) as Hmem.
  { intros k es r Hin. destruct (Hes k es Hin) as [-> _].
    rewrite list_elem_of_filter. tauto. }
  assert (∀ r, r ∈ df → ∃ es, (key r, es) ∈ g) as Hgroup.
  { intros r Hr. apply Hall in Hr. apply list_elem_of_fmap in Hr as ([k es] & -> & Hin).
    by exists es. }
  assert (∀ k es, (k, es) ∈ g →
            ((∃ r2, r2 ∈ es ∧ get r2 FILE = Some "Tier2")
             ∧ (∃ r6, r6 ∈ es ∧ get r6 FILE = Some "6Months"))
            ↔ dual_vendor df k) as Hdual.
  { intros k es Hin. unfold dual_vendor. split.
    - intros [(r2 & H2 & ?) (r6 & H6 & ?)].
      apply (Hmem k es) in H2 as [? ?], H6 as [? ?]; [|done..].
      split; [exists r2|exists r6]; by split_and!.
    - intros [(r2 & ? & ? & ?) (r6 & ? & ? & ?)].
      split; [exists r2|exists r6]; (split; [by apply (Hmem k es)|done]). }
  destruct (classify_groups_spec g) with (h := false) (t2 := @nil Dict) (ot := @nil Dict)
    as (h' & t2' & ot' & E & H2 & Ho & Hh).
  { apply Forall_forall. intros [k es] Hin. cbn [snd]. apply Forall_forall.
    intros r Hr. apply (Hmem k es) in Hr as [Hr _]; [|done].
    rewrite Forall_forall in Hdf. by destruct (Hdf r Hr). }
  rewrite E. eexists. split; [done|]. split; [done|]. cbn. split_and!.
  - intros r. rewrite H2. split.
    + intros [[]%elem_of_nil|(k & es & Hin & Hr & Hd2 & Hd6 & HF)].
      apply (Hmem k es) in Hr as [Hr <-]; [|done].
      split; [done|]. split; [|done]. by apply (Hdual (key r) es).
    + intros (Hr & Hd & HF). right. destruct (Hgroup r Hr) as [es Hin].
      exists (key r), es. split; [done|]. split; [by apply (Hmem (key r) es)|].
      apply (Hdual (key r) es) in Hd as [? ?]; done.
  - intros r. rewrite Ho. split.
    + intros [[]%elem_of_nil|(k & es & Hin & Hr & Hn)].
      apply (Hmem k es) in Hr as [Hr <-]; [|done].
      split; [done|]. intros Hd. by apply Hn, (Hdual (key r) es).
    + intros (Hr & Hd). right. destruct (Hgroup r Hr) as [es Hin].
      exists (key r), es. split; [done|]. split; [by apply (Hmem (key r) es)|].
      intros Hn. by apply Hd, (Hdual (key r) es).
  - rewrite Hh. split.
    + intros [?|(k & es & Hin & Hd)]; [done|]. exists k. by apply (Hdual k es).
    + intros (k & Hd). right.
      destruct Hd as [(r2 & Hr2 & Hk & HF2) H6].
      destruct (Hgroup r2 Hr2) as [es Hin]. exists (key r2), es. split; [done|].
      apply (Hdual (key r2) es); [done|]. unfold key. rewrite Hk.
      by split; [exists r2|].
Qed.

(** ** The further properties on the worked examples *)

Lemma blank_strings_stored_as_null_witness :
  (∀ original_file new_file updates,
     ChangeTier "3Months" "6Months" ∅ = ChangeTier original_file new_file updates →
     null_like (Some new_file) = false)
  ∧ no_blank_cells (rows (calm single_3months))
  ∧ no_blank_cells
      (rows (run no_date same_email "1001" (ChangeTier "3Months" "6Months" ∅)
               (calm single_3months)).2).
Proof.
  assert (∀ original_file new_file updates,
            ChangeTier "3Months" "6Months" ∅ = ChangeTier original_file new_file updates →
            null_like (Some new_file) = false) as H1.
  { intros o n u [= _ <- _]. reflexivity. }
  assert (no_blank_cells (rows (calm single_3months))) as H2.
  { apply (bool_decide_unpack _). vm_compute. exact I. }
  split; [exact H1|]. split; [exact H2|].
  exact (blank_strings_stored_as_null no_date same_email "1001"
           (ChangeTier "3Months" "6Months" ∅) (calm single_3months) H1 H2).
Defined.

Lemma tier_rows_not_created_witness :
  (∀ original_file updates,
     ChangeTier "3Months" "6Months" ∅ ≠ ChangeTier original_file "Tier1" updates)
  ∧ ("Tier1" = "6Months" →
     ChangeTier "3Months" "6Months" ∅ ≠ FixMissingSecondary
     ∧ ∀ original_file updates,
         ChangeTier "3Months" "6Months" ∅ ≠ ChangeTier original_file "Tier2" updates)
  ∧ no_rows_at "1001" "Tier1" (rows (calm single_3months))
  ∧ no_rows_at "1001" "Tier1"
      (rows (run no_date same_email "1001" (ChangeTier "3Months" "6Months" ∅)
               (calm single_3months)).2).
Proof.
  assert (∀ original_file updates,
            ChangeTier "3Months" "6Months" ∅ ≠ ChangeTier original_file "Tier1" updates)
    as H1 by (intros o u H; discriminate H).
  assert ("Tier1" = "6Months" →
          ChangeTier "3Months" "6Months" ∅ ≠ FixMissingSecondary
          ∧ ∀ original_file updates,
              ChangeTier "3Months" "6Months" ∅ ≠ ChangeTier original_file "Tier2" updates)
    as H2 by (intros H; discriminate H).
  assert (no_rows_at "1001" "Tier1" (rows (calm single_3months))) as H3.
  { apply (bool_decide_unpack _). vm_compute. exact I. }
  split; [exact H1|]. split; [exact H2|]. split; [exact H3|].
  exact (tier_rows_not_created no_date same_email "1001" "Tier1"
           (ChangeTier "3Months" "6Months" ∅) (calm single_3months) H1 H2 H3).
Defined.

Lemma deduplicate_without_duplicates_witness :
  NoDup ((λ r, get r FILE) <$> filter (of_vendor "1004") (rows (scripted scenario_d [Lost])))
  ∧ let r := _check_and_fix_duplicates "1004" (scripted scenario_d [Lost]) in
    rows r.2 = rows (scripted scenario_d [Lost])
    ∧ last_error r.2 = last_error (scripted scenario_d [Lost])
    ∧ (r.1 = Ret true ∨ r.1 = Ret false)
    ∧ (script (scripted scenario_d [Lost]) = [] → r = (Ret true, scripted scenario_d [Lost])).
Proof.
  assert (NoDup ((λ r, get r FILE)
                   <$> filter (of_vendor "1004") (rows (scripted scenario_d [Lost]))))
    as H1.
  { apply (bool_decide_unpack _). vm_compute. exact I. }
  split; [exact H1|].
  exact (deduplicate_without_duplicates "1004" (scripted scenario_d [Lost]) H1).
Defined.

Lemma deduplicate_one_tier_witness :
  null_like (Some "1003") = false ∧ null_like (Some "Tier2") = false
  ∧ 1 < sql_count "1003" "Tier2" scenario_c
  ∧ NoDup ((λ r, get r FILE)
             <$> filter (of_vendor "1003") (sql_delete "1003" "Tier2" scenario_c))
  ∧ let merged := sql_cell <$> merge_group "1003" (Some "Tier2")
                                 (filter (at_key "1003" "Tier2") scenario_c) in
    _check_and_fix_duplicates "1003" (mkStore scenario_c [] None)
    = (Ret true, mkStore (sql_delete "1003" "Tier2" scenario_c ++ [merged]) [] None)
    ∧ at_key "1003" "Tier2" merged
    ∧ sql_count "1003" "Tier2" (sql_delete "1003" "Tier2" scenario_c ++ [merged]) = 1.
Proof.
  assert (1 < sql_count "1003" "Tier2" scenario_c) as H3 by (vm_compute; lia).
  assert (NoDup ((λ r, get r FILE)
                   <$> filter (of_vendor "1003") (sql_delete "1003" "Tier2" scenario_c)))
    as H4.
  { apply (bool_decide_unpack _). vm_compute. exact I. }
  split; [reflexivity|]. split; [reflexivity|]. split; [exact H3|]. split; [exact H4|].
  exact (deduplicate_one_tier "1003" "Tier2" scenario_c None eq_refl eq_refl H3 H4).
Defined.

Lemma merge_group_first_filled_witness :
  "Vendor Name" ≠ FILE ∧ "Vendor Name" ≠ VENDOR_NUMBER
  ∧ get (merge_group "1003" (Some "Tier2") scenario_c) "Vendor Name"
    = default (get (default ∅ (head scenario_c)) "Vendor Name")
        (first_filled ((λ e, get e "Vendor Name") <$> scenario_c)).
Proof.
  assert ("Vendor Name" ≠ FILE) as H1 by (intros H; discriminate H).
  assert ("Vendor Name" ≠ VENDOR_NUMBER) as H2 by (intros H; discriminate H).
  split; [exact H1|]. split; [exact H2|].
  exact (merge_group_first_filled "1003" (Some "Tier2") scenario_c "Vendor Name" H1 H2).
Defined.

Lemma fix_missing_secondary_creates_partner_witness :
  null_like (Some "1001") = false
  ∧ head (filter (at_key "1001" "Tier2") standalone_tier2)
    = Some (row "1001" "Tier2" [("Vendor Name", Some "Acme")])
  ∧ sql_count "1001" "6Months" standalone_tier2 = 0
  ∧ let partner := sql_cell <$> <[FILE := Some "6Months"]>
                                  (row "1001" "Tier2" [("Vendor Name", Some "Acme")]) in
    let t' := standalone_tier2 ++ [partner] in
    _check_and_fix_missing_secondary "1001" (mkStore standalone_tier2 [] None)
    = (Ret true, mkStore t' [] None)
    ∧ at_key "1001" "6Months" partner
    ∧ (∀ field, field ≠ FILE →
         get partner field
         = sql_cell (get (row "1001" "Tier2" [("Vendor Name", Some "Acme")]) field))
    ∧ dual_entry "1001" t' = true
    ∧ _check_and_fix_missing_secondary "1001" (mkStore t' [] None)
      = (Ret true, mkStore t' [] None).
Proof.
  split; [reflexivity|]. split; [reflexivity|]. split; [reflexivity|].
  exact (fix_missing_secondary_creates_partner "1001" standalone_tier2 None
           (row "1001" "Tier2" [("Vendor Name", Some "Acme")]) eq_refl eq_refl eq_refl).
Defined.

Lemma fix_missing_secondary_noop_witness :
  (sql_count "1001" "Tier2" (rows (scripted standalone_6months [Lost])) = 0
   ∨ 0 < sql_count "1001" "6Months" (rows (scripted standalone_6months [Lost])))
  ∧ let r := _check_and_fix_missing_secondary "1001" (scripted standalone_6months [Lost]) in
    untouched (scripted standalone_6months [Lost]) r.1 r.2.
Proof.
  assert (sql_count "1001" "Tier2" (rows (scripted standalone_6months [Lost])) = 0
          ∨ 0 < sql_count "1001" "6Months" (rows (scripted standalone_6months [Lost])))
    as H1 by (left; reflexivity).
  split; [exact H1|].
  exact (fix_missing_secondary_noop "1001" (scripted standalone_6months [Lost]) H1).
Defined.

Lemma resync_noop_witness :
  (sql_count "1004" "Tier2" (rows (calm scenario_d)) = 0
   ∨ sql_count "1004" "6Months" (rows (calm scenario_d)) = 0
   ∨ ∃ tier2_entry sixmonths_entry,
       head (filter (at_key "1004" "Tier2") (rows (calm scenario_d))) = Some tier2_entry
       ∧ head (filter (at_key "1004" "6Months") (rows (calm scenario_d)))
         = Some sixmonths_entry
       ∧ ∀ field, field ≠ FILE → agree field tier2_entry sixmonths_entry)
  ∧ let r := _check_and_fix_unsynced_dual no_date same_email "1004" (calm scenario_d) in
    untouched (calm scenario_d) r.1 r.2.
Proof.
  assert (sql_count "1004" "Tier2" (rows (calm scenario_d)) = 0
          ∨ sql_count "1004" "6Months" (rows (calm scenario_d)) = 0
          ∨ ∃ tier2_entry sixmonths_entry,
              head (filter (at_key "1004" "Tier2") (rows (calm scenario_d)))
              = Some tier2_entry
              ∧ head (filter (at_key "1004" "6Months") (rows (calm scenario_d)))
                = Some sixmonths_entry
              ∧ ∀ field, field ≠ FILE → agree field tier2_entry sixmonths_entry) as H1.
  { right. right.
    exists (row "1004" "Tier2" [("Vendor Name", Some "Dune")]),
           (row "1004" "6Months" [("Vendor Name", Some "Dune")]).
    split; [reflexivity|]. split; [reflexivity|].
    intros field Hf. apply unmismatched_rows_agree; [|exact Hf].
    vm_compute. reflexivity. }
  split; [exact H1|].
  exact (resync_noop no_date same_email "1004" (calm scenario_d) H1).
Defined.

Lemma insert_vendor_tier2_creates_pair_witness :
  get nova_tier2 FILE = Some "Tier2"
  ∧ get nova_tier2 VENDOR_NUMBER = Some "2001"
  ∧ null_like (Some "2001") = false
  ∧ let vendor_data := nova_tier2 in
    let tier2_row := sql_cell <$> <[FILE := Some "Tier2"]> vendor_data in
    let sixmonths_row := sql_cell <$> <[FILE := Some "6Months"]> vendor_data in
    let t' := scenario_a ++ [tier2_row; sixmonths_row] in
    insert_vendor vendor_data (mkStore scenario_a [] None) = (Ret true, mkStore t' [] None)
    ∧ at_key "2001" "Tier2" tier2_row ∧ at_key "2001" "6Months" sixmonths_row
    ∧ (∀ field, field ≠ FILE → get tier2_row field = get sixmonths_row field)
    ∧ dual_entry "2001" t' = true.
Proof.
  split; [reflexivity|]. split; [reflexivity|]. split; [reflexivity|].
  exact (insert_vendor_tier2_creates_pair "2001"
           nova_tier2 scenario_a None
           eq_refl eq_refl eq_refl).
Defined.

Lemma insert_vendor_never_checks_the_key_witness :
  get (row "1001" "Tier1" [("Vendor Name", Some "Acme")]) VENDOR_NUMBER = Some "1001"
  ∧ get (row "1001" "Tier1" [("Vendor Name", Some "Acme")]) FILE = Some "Tier1"
  ∧ null_like (Some "1001") = false ∧ null_like (Some "Tier1") = false
  ∧ let vendor_data := row "1001" "Tier1" [("Vendor Name", Some "Acme")] in
    let t' := scenario_a ++ rows_to_insert vendor_data in
    insert_vendor vendor_data (mkStore scenario_a [] None) = (Ret true, mkStore t' [] None)
    ∧ sql_count "1001" "Tier1" t' = sql_count "1001" "Tier1" scenario_a + 1
    ∧ (0 < sql_count "1001" "Tier1" scenario_a → ¬ no_true_duplicates t').
Proof.
  split; [reflexivity|]. split; [reflexivity|]. split; [reflexivity|]. split; [reflexivity|].
  exact (insert_vendor_never_checks_the_key "1001" "Tier1"
           (row "1001" "Tier1" [("Vendor Name", Some "Acme")]) scenario_a None
           eq_refl eq_refl eq_refl eq_refl).
Defined.

Lemma insert_vendor_pair_not_atomic_witness :
  get nova_tier2 FILE = Some "Tier2"
  ∧ insert_vendor nova_tier2
      (mkStore scenario_a [Applied; Applied; Failed] None)
    = (Ret false,
       mkStore (scenario_a
                ++ [sql_cell <$> <[FILE := Some "Tier2"]>
                                   nova_tier2])
         [] (Some "INSERT failed")).
Proof.
  split; [reflexivity|].
  exact (insert_vendor_pair_not_atomic nova_tier2
           scenario_a Applied [] None eq_refl).
Defined.

Lemma regular_change_moves_the_row_witness :
  ¬ special_path "Tier2" "3Months" ∧ "Tier2" ≠ "3Months"
  ∧ let t1 := sql_update "1004" "Tier2"
                (<[FILE := Some "3Months"]> (set_clauses no_date (delete FILE ∅)))
                unsynced_pair in
    let r := change_vendor_tier no_date same_email "1004" "Tier2" "3Months" ∅
               (mkStore unsynced_pair [] None) in
    r.1 = Ret (bool_decide (sql_count "1004" "3Months" t1 ≠ 0))
    ∧ no_rows_at "1004" "Tier2" (rows r.2)
    ∧ (in_pair "Tier2" = true → sql_count "1004" "3Months" t1 ≠ 0 →
       no_rows_at "1004" "Tier2" (rows r.2) ∧ no_rows_at "1004" "6Months" (rows r.2)).
Proof.
  assert (¬ special_path "Tier2" "3Months") as H1.
  { intros [H|(_ & H & _)]; discriminate H. }
  assert ("Tier2" ≠ "3Months") as H2 by (intros H; discriminate H).
  split; [exact H1|]. split; [exact H2|].
  exact (regular_change_moves_the_row no_date same_email "1004" "Tier2" "3Months" ∅
           unsynced_pair None H1 H2).
Defined.

Lemma change_to_tier2_establishes_pair_witness :
  null_like (Some "1001") = false ∧ dual_entry "1001" scenario_a = false
  ∧ "Tier1" ≠ "Tier2"
  ∧ head (filter (at_key "1001" "Tier1") scenario_a)
    = Some (row "1001" "Tier1" [("Vendor Name", Some "Acme")])
  ∧ ∃ t',
      change_vendor_tier no_date same_email "1001" "Tier1" "Tier2" ∅
        (mkStore scenario_a [] None) = (Ret true, mkStore t' [] None)
      ∧ dual_entry "1001" t' = true
      ∧ ("Tier1" ≠ "6Months" → no_rows_at "1001" "Tier1" t').
Proof.
  assert ("Tier1" ≠ "Tier2") as H3 by (intros H; discriminate H).
  split; [reflexivity|]. split; [reflexivity|]. split; [exact H3|]. split; [reflexivity|].
  exact (change_to_tier2_establishes_pair no_date same_email "1001" "Tier1" ∅
           (row "1001" "Tier1" [("Vendor Name", Some "Acme")]) scenario_a None
           eq_refl eq_refl H3 eq_refl).
Defined.

Lemma change_to_tier2_needs_original_row_witness :
  dual_entry "1001" scenario_a = false ∧ sql_count "1001" "3Months" scenario_a = 0
  ∧ change_vendor_tier no_date same_email "1001" "3Months" "Tier2" ∅
      (mkStore scenario_a [] None) = (Ret false, mkStore scenario_a [] None).
Proof.
  split; [reflexivity|]. split; [reflexivity|].
  exact (change_to_tier2_needs_original_row no_date same_email "1001" "3Months" ∅
           scenario_a None eq_refl eq_refl).
Defined.

Lemma save_unchanged_form_witness :
  validate_vendor_data every_email_ok acme_3months = true
  ∧ save_vendor_changes same_email every_email_ok acme_3months acme_3months
      fresh_session (calm single_3months)
    = (Ret (NoChanges, fresh_session), calm single_3months).
Proof.
  assert (validate_vendor_data every_email_ok acme_3months = true) as H1
    by (vm_compute; reflexivity).
  split; [exact H1|].
  exact (save_unchanged_form same_email every_email_ok acme_3months
           fresh_session (calm single_3months) H1).
Defined.

Lemma edit_flow_keeps_tier1_guard_witness :
  acme_3months !! VENDOR_NUMBER = Some (Some "1001")
  ∧ form_to_6months !! FILE = Some (Some "6Months") ∧ "6Months" ∈ file_options
  ∧ (save_vendor_changes same_email every_email_ok acme_3months form_to_6months
       fresh_session (calm single_3months)).1 = Ret (ChangesSummary, staged_to_6months)
  ∧ ChangesSummary ∈ [TierWarning; ChangesSummary]
  ∧ no_rows_at "1001" "Tier1" (rows (calm single_3months))
  ∧ no_rows_at "1001" "Tier1"
      (rows (confirm_vendor_changes no_date same_email staged_to_6months
               (save_vendor_changes same_email every_email_ok acme_3months
                  form_to_6months fresh_session (calm single_3months)).2).2).
Proof.
  assert ("6Months" ∈ file_options) as H3
    by (apply (bool_decide_unpack _); vm_compute; exact I).
  assert ((save_vendor_changes same_email every_email_ok acme_3months form_to_6months
             fresh_session (calm single_3months)).1
          = Ret (ChangesSummary, staged_to_6months)) as H4
    by (vm_compute; reflexivity).
  assert (ChangesSummary ∈ [TierWarning; ChangesSummary]) as H5 by (right; left).
  assert (no_rows_at "1001" "Tier1" (rows (calm single_3months))) as H6
    by (apply (bool_decide_unpack _); vm_compute; exact I).
  split; [reflexivity|]. split; [reflexivity|]. split; [exact H3|]. split; [exact H4|].
  split; [exact H5|]. split; [exact H6|].
  exact (edit_flow_keeps_tier1_guard no_date same_email every_email_ok acme_3months
           form_to_6months fresh_session (calm single_3months) (Some "1001") "6Months"
           ChangesSummary staged_to_6months eq_refl eq_refl H3 H4 H5 H6).
Defined.

Lemma field_edit_keeps_keys_witness :
  form_renamed !! VENDOR_NUMBER = None
  ∧ form_renamed !! FILE = acme_3months !! FILE
  ∧ (save_vendor_changes same_email every_email_ok acme_3months form_renamed
       fresh_session (calm single_3months)).1 = Ret (ChangesSummary, staged_renamed)
  ∧ ChangesSummary ∈ [TierWarning; ChangesSummary]
  ∧ let r2 := confirm_vendor_changes no_date same_email staged_renamed
                (save_vendor_changes same_email every_email_ok acme_3months form_renamed
                   fresh_session (calm single_3months)).2 in
    column FILE (rows r2.2) = column FILE (rows (calm single_3months))
    ∧ column VENDOR_NUMBER (rows r2.2) = column VENDOR_NUMBER (rows (calm single_3months)).
Proof.
  assert ((save_vendor_changes same_email every_email_ok acme_3months form_renamed
             fresh_session (calm single_3months)).1
          = Ret (ChangesSummary, staged_renamed)) as H3
    by (vm_compute; reflexivity).
  assert (ChangesSummary ∈ [TierWarning; ChangesSummary]) as H4 by (right; left).
  split; [reflexivity|]. split; [reflexivity|]. split; [exact H3|]. split; [exact H4|].
  exact (field_edit_keeps_keys no_date same_email every_email_ok acme_3months form_renamed
           fresh_session (calm single_3months) ChangesSummary staged_renamed
           eq_refl eq_refl H3 H4).
Defined.

Lemma new_entry_tier1_creates_pair_witness :
  validate_vendor_data every_email_ok (new_vendor_data "2001" "Tier1" nova_widget) = true
  ∧ missing_fields (new_vendor_data "2001" "Tier1" nova_widget) = []
  ∧ null_like (Some "2001") = false
  ∧ let vendor_data := new_vendor_data "2001" "Tier1" nova_widget in
    let t' := scenario_a ++ [sql_cell <$> <[FILE := Some "Tier2"]> vendor_data;
                             sql_cell <$> <[FILE := Some "6Months"]> vendor_data] in
    vendor_data !! FILE = Some (Some "Tier2")
    ∧ submit_new_entry every_email_ok "2001" "Tier1" nova_widget
        (mkStore scenario_a [] None)
      = (Ret (Created true), mkStore t' [] None)
    ∧ dual_entry "2001" t' = true.
Proof.
  assert (validate_vendor_data every_email_ok (new_vendor_data "2001" "Tier1" nova_widget)
          = true) as H1 by (vm_compute; reflexivity).
  assert (missing_fields (new_vendor_data "2001" "Tier1" nova_widget) = []) as H2
    by (vm_compute; reflexivity).
  split; [exact H1|]. split; [exact H2|]. split; [reflexivity|].
  exact (new_entry_tier1_creates_pair every_email_ok "2001" nova_widget scenario_a None
           H1 H2 eq_refl).
Defined.

Lemma blank_required_field_stored_null_witness :
  "3Months" ≠ "Tier1"
  ∧ validate_vendor_data every_email_ok blank_name_record = true
  ∧ missing_fields blank_name_record = []
  ∧ get blank_name_record FILE ≠ Some "Tier2"
  ∧ "Vendor Name" ∈ get_required_fields
  ∧ get blank_name_record "Vendor Name" = Some " " ∧ strip " " = ""
  ∧ let row := sql_cell <$> blank_name_record in
    save_new_vendor every_email_ok blank_name_record "3Months" (mkStore scenario_a [] None)
    = (Ret (Created (bool_decide ("3Months" = "Tier2"))),
       mkStore (scenario_a ++ [row]) [] None)
    ∧ truthy (get blank_name_record "Vendor Name") = true
    ∧ get row "Vendor Name" = None.
Proof.
  assert ("3Months" ≠ "Tier1") as H1 by (intros H; discriminate H).
  assert (validate_vendor_data every_email_ok blank_name_record = true) as H2
    by (vm_compute; reflexivity).
  assert (missing_fields blank_name_record = []) as H3 by (vm_compute; reflexivity).
  assert (get blank_name_record FILE ≠ Some "Tier2") as H4 by (intros H; discriminate H).
  assert ("Vendor Name" ∈ get_required_fields) as H5
    by (apply (bool_decide_unpack _); vm_compute; exact I).
  split; [exact H1|]. split; [exact H2|]. split; [exact H3|]. split; [exact H4|].
  split; [exact H5|]. split; [reflexivity|]. split; [reflexivity|].
  exact (blank_required_field_stored_null every_email_ok blank_name_record "3Months"
           "Vendor Name" " " scenario_a None H1 H2 H3 H4 H5 eq_refl eq_refl).
Defined.

Lemma process_search_results_lists_witness :
  Forall (λ r : Dict, is_Some (r !! VENDOR_NUMBER) ∧ is_Some (r !! FILE)) search_frame
  ∧ ∃ res,
      process_search_results search_frame = Some res
      ∧ vendors res = search_frame
      ∧ (∀ r, r ∈ tier2_entries res ↔
           r ∈ search_frame ∧ dual_vendor search_frame (get r VENDOR_NUMBER)
           ∧ (get r FILE = Some "Tier2" ∨ get r FILE = Some "6Months"))
      ∧ (∀ r, r ∈ other_entries res ↔
           r ∈ search_frame ∧ ¬ dual_vendor search_frame (get r VENDOR_NUMBER))
      ∧ (has_dual_entries res = true ↔ ∃ k, dual_vendor search_frame k)
      ∧ (∀ r, r ∈ search_frame → dual_vendor search_frame (get r VENDOR_NUMBER) →
           get r FILE ≠ Some "Tier2" → get r FILE ≠ Some "6Months" →
           (r ∉ tier2_entries res) ∧ (r ∉ other_entries res)).
Proof.
  assert (Forall (λ r : Dict, is_Some (r !! VENDOR_NUMBER) ∧ is_Some (r !! FILE))
            search_frame) as H1.
  { apply (bool_decide_unpack _). vm_compute. exact I. }
  split; [exact H1|].
  exact (process_search_results_lists search_frame H1).
Defined.
